(** * dstack AWS backend: runners.py

    A shallow embedding of [cli/dstack/backend/aws/runners.py]: the
    requirement matcher, the instance-type catalog and selection, the runner
    (un)serializer, the launch retry loop, the request status translator and
    the two lifecycle entry points [run_job] and [stop_job].

    Python values are modelled as follows.
    - [int] is [Z]; [str] is [string]; [Optional[T]] is [option T].
    - An attribute that may be [None] keeps its [option]; Python truthiness
      ([if x], [x and y], [x or y]) is written out by the [truthy_*] and
      [or_*] helpers below, so that [0], the empty string and the empty list
      are falsy exactly as in the source.
    - Objects of the classes [Requirements], [GpusRequirements], [Resources],
      [InstanceType], [Runner], [Job] and [JobHead] define no [__bool__] or
      [__len__]: an object is truthy exactly when it is not [None]. *)

From Stdlib Require Import ZArith Lia List Sorting.Sorted Sorting.Permutation.
From stdpp Require Import base option list gmap strings.

Local Open Scope string_scope.
Local Open Scope Z_scope.

(** ** Python truthiness *)

Definition truthy_str (o : option string) : bool :=
  match o with Some s => negb (String.eqb s "") | None => false end.

Definition truthy_bool (o : option bool) : bool :=
  match o with Some b => b | None => false end.

(** [if s:] on an optional string, keeping the string when it is truthy *)
Definition nonempty (o : option string) : option string :=
  match o with
  | Some s => if String.eqb s "" then None else Some s
  | None => None
  end.

(** [x is True] *)
Definition is_True (o : option bool) : bool :=
  match o with Some true => true | _ => false end.

(** [l or []] *)
Definition or_nil {A : Type} (o : option (list A)) : list A :=
  match o with Some l => l | None => [] end.

(** [n or d] on an optional integer *)
Definition or_int (o : option Z) (d : Z) : Z :=
  match o with Some n => if n =? 0 then d else n | None => d end.

(** [x in l] on strings *)
Definition in_list (x : string) (l : list string) : bool :=
  List.existsb (String.eqb x) l.

(** [o and f(o)] for an object [o] that may be [None] *)
Definition and_then {A : Type} (o : option A) (f : A -> bool) : bool :=
  match o with Some a => f a | None => false end.

(** [not o] for an object [o] that may be [None] *)
Definition is_None {A : Type} (o : option A) : bool :=
  match o with Some _ => false | None => true end.

(** [{o}] in an f-string *)
Definition fmt (o : option string) : string :=
  match o with Some s => s | None => "None" end.

(** [len(l)] *)
Definition len {A : Type} (l : list A) : Z := Z.of_nat (length l).

(** ** Data model (dstack.core.runners, dstack.core.instance, dstack.core.job)

    The classes below are imported by runners.py and declared elsewhere in
    the repository; their fields are those the spec lists (section 3) under
    the names this file reads. *)

Module Gpu.
(** Modelled from the spec: the class [Gpu] of [dstack.core.runners],
    [Gpu{name, memory_mib}]. *)
Record t := mk { name : string; memory_mib : Z }.
End Gpu.

Module Resources.
(** Modelled from the spec: the class [Resources] of [dstack.core.runners]:
    [cpus], [memory_mib], [gpus], [interruptible], [local].  The code guards
    [gpus] with [or []] and the flags with [is True], and
    [_get_instance_type] stores [requirements and requirements.interruptible]
    in [interruptible]: the three may be [None]. *)
Record t := mk {
  cpus : Z;
  memory_mib : Z;
  gpus : option (list Gpu.t);
  interruptible : option bool;
  local : option bool
}.
End Resources.

Module InstanceType.
(** Modelled from the spec: the class [InstanceType] of
    [dstack.core.instance], an instance name and its resources. *)
Record t := mk { instance_name : string; resources : Resources.t }.
End InstanceType.

Module GpusRequirements.
(** Modelled from the spec: the GPU part of the requirements of
    [dstack.core.job] (count, memory floor and name, all optional). *)
Record t := mk {
  count : option Z;
  memory_mib : option Z;
  name : option string
}.
End GpusRequirements.

Module Requirements.
(** Modelled from the spec: the class [Requirements] of [dstack.core.job]
    (cpu, memory, GPU and interruptible / local flags, all optional). *)
Record t := mk {
  cpus : option Z;
  memory_mib : option Z;
  gpus : option GpusRequirements.t;
  interruptible : option bool;
  local : option bool
}.
End Requirements.

(** ** Requirement matcher *)

(** [len(list(filter(lambda gpu: gpu.name == name, gpus)))] *)
Definition count_name (name : string) (gpus : list Gpu.t) : Z :=
  len (List.filter (fun gpu => String.eqb (Gpu.name gpu) name) gpus).

(** [len(list(filter(lambda gpu: gpu.memory_mib >= memory_mib, gpus)))] *)
Definition count_memory (memory_mib : Z) (gpus : list Gpu.t) : Z :=
  len (List.filter (fun gpu => Gpu.memory_mib gpu >=? memory_mib) gpus).

Definition _matches (resources : Resources.t)
    (requirements : option Requirements.t) : bool :=
  match requirements with
  | None => true
  | Some requirements =>
    if match Requirements.cpus requirements with
       | Some cpus => negb (cpus =? 0) && (cpus >? Resources.cpus resources)
       | None => false
       end
    then false
    else if match Requirements.memory_mib requirements with
       | Some memory_mib =>
           negb (memory_mib =? 0) && (memory_mib >? Resources.memory_mib resources)
       | None => false
       end
    then false
    else
      match Requirements.gpus requirements with
      | Some req_gpus =>
        let gpu_count := or_int (GpusRequirements.count req_gpus) 1 in
        if gpu_count >? len (or_nil (Resources.gpus resources)) then false
        else if match GpusRequirements.name req_gpus with
             | Some name =>
                 negb (String.eqb name "")
                 && (gpu_count >? count_name name (or_nil (Resources.gpus resources)))
             | None => false
             end
        then false
        else if match GpusRequirements.memory_mib req_gpus with
             | Some memory_mib =>
                 negb (memory_mib =? 0)
                 && (gpu_count >?
                       count_memory memory_mib (or_nil (Resources.gpus resources)))
             | None => false
             end
        then false
        else if truthy_bool (Requirements.interruptible requirements)
             && negb (truthy_bool (Resources.interruptible resources))
        then false
        else true
      | None => true
      end
  end.

(** ** Instance-type catalog *)

(** The part of the [describe_instance_types] response the code reads. *)
Module Ec2.
Record GpuDeviceInfo := mkGpuDeviceInfo {
  Name : string;                     (* gpu["Name"] *)
  Gpu_SizeInMiB : Z;                 (* gpu["MemoryInfo"]["SizeInMiB"] *)
  Count : Z                          (* gpu["Count"] *)
}.
Record GpuInfo := mkGpuInfo {
  Gpus : option (list GpuDeviceInfo) (* instance_type["GpuInfo"].get("Gpus") *)
}.
Record InstanceTypeInfo := mkInstanceTypeInfo {
  InstanceType : string;
  DefaultVCpus : Z;                  (* ["VCpuInfo"]["DefaultVCpus"] *)
  SizeInMiB : Z;                     (* ["MemoryInfo"]["SizeInMiB"] *)
  GpuInfo_ : option GpuInfo;         (* .get("GpuInfo") *)
  SupportedUsageClasses : list string
}.
Record DescribeInstanceTypesResponse := mkDescribeInstanceTypesResponse {
  InstanceTypes : list InstanceTypeInfo;
  NextToken : option string
}.
(** [response["SpotInstanceRequests"][i]["Status"]] *)
Record SpotStatus := mkSpotStatus { Code : string; Message : option string }.
(** [response["Reservations"][i]["Instances"][j]] *)
Record Instance := mkInstance { InstanceId : string; State_Name : string }.
End Ec2.

(** [[Gpu(name, size)] * count], concatenated over the GPU descriptors
    ([reduce(list.__add__, gpus) if gpus else []]); a count below one
    repeats nothing. *)
Definition flatten_gpus (instance_type : Ec2.InstanceTypeInfo) : list Gpu.t :=
  match Ec2.GpuInfo_ instance_type with
  | Some info =>
    match Ec2.Gpus info with
    | Some gpus =>
      List.concat
        (List.map (fun gpu =>
                     List.repeat (Gpu.mk (Ec2.Name gpu) (Ec2.Gpu_SizeInMiB gpu))
                                 (Z.to_nat (Ec2.Count gpu)))
                  gpus)
    | None => []
    end
  | None => []
  end.

Definition to_instance_type (instance_type : Ec2.InstanceTypeInfo) : InstanceType.t :=
  InstanceType.mk
    (Ec2.InstanceType instance_type)
    (Resources.mk
       (Ec2.DefaultVCpus instance_type)
       (Ec2.SizeInMiB instance_type)
       (Some (flatten_gpus instance_type))
       (Some (in_list "spot" (Ec2.SupportedUsageClasses instance_type)))
       (Some false)).

(** [sum(map(lambda g: g.memory_mib, i.resources.gpus or []))] *)
Definition gpu_total_memory_mib (i : InstanceType.t) : Z :=
  List.fold_right Z.add 0
    (List.map Gpu.memory_mib (or_nil (Resources.gpus (InstanceType.resources i)))).

Definition compare (i1 i2 : InstanceType.t) : Z :=
  let r1_gpu_total_memory_mib := gpu_total_memory_mib i1 in
  let r2_gpu_total_memory_mib := gpu_total_memory_mib i2 in
  if r1_gpu_total_memory_mib <? r2_gpu_total_memory_mib then -1
  else if r1_gpu_total_memory_mib >? r2_gpu_total_memory_mib then 1
  else if Resources.cpus (InstanceType.resources i1)
          <? Resources.cpus (InstanceType.resources i2) then -1
  else if Resources.cpus (InstanceType.resources i1)
          >? Resources.cpus (InstanceType.resources i2) then 1
  else if Resources.memory_mib (InstanceType.resources i1)
          <? Resources.memory_mib (InstanceType.resources i2) then -1
  else if Resources.memory_mib (InstanceType.resources i1)
          >? Resources.memory_mib (InstanceType.resources i2) then 1
  else 0.

(** [sorted(l, key=cmp_to_key(cmp))]: Python's sort is stable and compares
    keys with [<] only, [K(y) < K(x)] being [cmp(y, x) < 0].  A stable sort
    has one possible result, the one of this insertion sort: an element is
    placed before the first element that is not strictly below it. *)
Fixpoint insert_by {A : Type} (cmp : A -> A -> Z) (x : A) (l : list A) : list A :=
  match l with
  | [] => [x]
  | y :: l' => if cmp y x <? 0 then y :: insert_by cmp x l' else x :: y :: l'
  end.

Definition sorted {A : Type} (cmp : A -> A -> Z) (l : list A) : list A :=
  List.fold_right (insert_by cmp) [] l.

(** ** Jobs, runners and request heads *)

Module JobStatus.
(** Modelled from the spec: the enum [JobStatus] of [dstack.core.job], with
    the members the spec gives (section 3). *)
Inductive t :=
| SUBMITTED | DOWNLOADING | RUNNING | UPLOADING | STOPPING
| STOPPED | FAILED | ABORTED.

Definition eqb (a b : t) : bool :=
  match a, b with
  | SUBMITTED, SUBMITTED | DOWNLOADING, DOWNLOADING | RUNNING, RUNNING
  | UPLOADING, UPLOADING | STOPPING, STOPPING | STOPPED, STOPPED
  | FAILED, FAILED | ABORTED, ABORTED => true
  | _, _ => false
  end.

(** Modelled from the spec: the method [JobStatus.is_finished] of
    [dstack.core.job]; the finished statuses are [STOPPED], [FAILED] and
    [ABORTED] (section 3). *)
Definition is_finished (s : t) : bool :=
  match s with STOPPED | FAILED | ABORTED => true | _ => false end.

(** Modelled from the spec: the method [JobStatus.is_unfinished] of
    [dstack.core.job]; every status that is not finished (section 3). *)
Definition is_unfinished (s : t) : bool := negb (is_finished s).
End JobStatus.

Module RequestStatus.
(** Modelled from the spec: the enum [RequestStatus] of
    [dstack.core.request] (section 4.7). *)
Inductive t := PENDING | RUNNING | NO_CAPACITY | TERMINATED.

Definition eqb (a b : t) : bool :=
  match a, b with
  | PENDING, PENDING | RUNNING, RUNNING | NO_CAPACITY, NO_CAPACITY
  | TERMINATED, TERMINATED => true
  | _, _ => false
  end.
End RequestStatus.

Module Job.
(** Modelled from the spec: the class [Job] of [dstack.core.job]; the fields
    are the ones this file reads or writes (section 3). *)
Record t := mk {
  job_id : string;
  repo_address : string;
  status : JobStatus.t;
  requirements : option Requirements.t;
  runner_id : option string;
  request_id : option string;
  local_repo_user_name : option string;
  local_repo_user_email : option string
}.

(** [job.status = s] *)
Definition set_status (s : JobStatus.t) (job : t) : t :=
  mk (job_id job) (repo_address job) s (requirements job) (runner_id job)
     (request_id job) (local_repo_user_name job) (local_repo_user_email job).

(** [job.runner_id = r] *)
Definition set_runner_id (r : option string) (job : t) : t :=
  mk (job_id job) (repo_address job) (status job) (requirements job) r
     (request_id job) (local_repo_user_name job) (local_repo_user_email job).

(** [job.request_id = r] *)
Definition set_request_id (r : option string) (job : t) : t :=
  mk (job_id job) (repo_address job) (status job) (requirements job)
     (runner_id job) r (local_repo_user_name job) (local_repo_user_email job).
End Job.

Module JobHead.
(** Modelled from the spec: the job head returned by [jobs.list_job_head],
    the lightweight listing record of a job (section 4.8); [stop_job] reads
    its status only. *)
Record t := mk { job_id : string; status : JobStatus.t }.
End JobHead.

Module Runner.
(** Modelled from the spec: the class [Runner] of [dstack.core.runners]
    (section 3). *)
Record t := mk {
  runner_id : string;
  request_id : option string;
  resources : Resources.t;
  job : Job.t
}.

(** [runner.request_id = r] *)
Definition set_request_id (r : option string) (runner : t) : t :=
  mk (runner_id runner) r (resources runner) (job runner).

(** [runner.job.status = s] *)
Definition set_job_status (s : JobStatus.t) (runner : t) : t :=
  mk (runner_id runner) (request_id runner) (resources runner)
     (Job.set_status s (job runner)).
End Runner.

Module RequestHead.
(** Modelled from the spec: the class [RequestHead] of [dstack.core.request],
    [{job_id, status, message}] (section 3). *)
Record t := mk {
  job_id : string;
  status : RequestStatus.t;
  message : option string
}.
End RequestHead.

(** ** Runner documents

    The dictionary [_serialize_runner] builds and [_unserialize_runner] reads.
    A key read with [.get] or tested with [is True] holds an [option]: [None]
    stands for a missing key or a null.  [JobData] is what [Job.serialize]
    returns; that method and [Job.unserialize] live in [dstack.core.job] and
    are parameters here. *)
Module RunnerDict.
Record gpu := mkGpu { name : string; memory_mib : Z }.
Record resources := mkResources {
  cpus : Z;
  r_memory_mib : Z;
  gpus : list gpu;
  interruptible : option bool;
  local : option bool
}.
Record t (JobData : Type) := mk {
  runner_id : string;
  request_id : option string;
  resources_ : resources;
  job : JobData
}.
Arguments mk {JobData}.
Arguments runner_id {JobData}.
Arguments request_id {JobData}.
Arguments resources_ {JobData}.
Arguments job {JobData}.
End RunnerDict.

Section Serialization.
Context {JobData : Type}.
Variable Job_serialize : Job.t -> JobData.
Variable Job_unserialize : JobData -> Job.t.

Definition _serialize_runner (runner : Runner.t) : RunnerDict.t JobData :=
  let resources :=
    RunnerDict.mkResources
      (Resources.cpus (Runner.resources runner))
      (Resources.memory_mib (Runner.resources runner))
      (List.map (fun gpu => RunnerDict.mkGpu (Gpu.name gpu) (Gpu.memory_mib gpu))
                (or_nil (Resources.gpus (Runner.resources runner))))
      (Some (is_True (Resources.interruptible (Runner.resources runner))))
      (Some (is_True (Resources.local (Runner.resources runner)))) in
  RunnerDict.mk
    (Runner.runner_id runner)
    (Runner.request_id runner)
    resources
    (Job_serialize (Runner.job runner)).

Definition _unserialize_runner (data : RunnerDict.t JobData) : Runner.t :=
  Runner.mk
    (RunnerDict.runner_id data)
    (RunnerDict.request_id data)
    (Resources.mk
       (RunnerDict.cpus (RunnerDict.resources_ data))
       (RunnerDict.r_memory_mib (RunnerDict.resources_ data))
       (Some (List.map (fun g => Gpu.mk (RunnerDict.name g) (RunnerDict.memory_mib g))
                       (RunnerDict.gpus (RunnerDict.resources_ data))))
       (Some (is_True (RunnerDict.interruptible (RunnerDict.resources_ data))))
       (Some (is_True (RunnerDict.local (RunnerDict.resources_ data)))))
    (Job_unserialize (RunnerDict.job data)).
End Serialization.

(** ** Exceptions and outcomes *)

(** [e.response.get("Error")] of a botocore client error. *)
Record ErrorDict := mkErrorDict {
  Error_Code : option string;
  Error_Message : option string
}.

(** The exceptions this file meets: botocore's [ClientError], the only one
    with a [response] attribute; a plain [Exception] with its arguments; and the
    [AttributeError] of an attribute assignment on [None]. *)
Inductive exn :=
| ClientError (response_Error : option ErrorDict)
| Exception (args : list arg)
| AttributeError (msg : string)
with arg :=
| ArgStr (s : string)
| ArgInt (n : Z)
| ArgExn (e : exn).

(** [hasattr(e, "response") and e.response.get("Error")
     and e.response["Error"].get("Code") == code].  An empty error
    dictionary is falsy and has no code either, so the middle conjunct does
    not change the result. *)
Definition has_error_code (e : exn) (code : string) : bool :=
  match e with
  | ClientError (Some err) =>
    match Error_Code err with
    | Some c => String.eqb c code
    | None => false
    end
  | _ => false
  end.

(** [e.response["Error"].get("Message")] *)
Definition error_message (e : exn) : option string :=
  match e with
  | ClientError (Some err) => Error_Message err
  | _ => None
  end.

(** How a call ends: it returns, raises an [Exception], leaves through
    [sys.exit] ([SystemExit] is not an [Exception]: no [except Exception]
    catches it), or runs out of the fuel given to a pagination loop. *)
Inductive outcome (A : Type) :=
| Return (a : A)
| Raise (e : exn)
| SystemExit (msg : string)
| OutOfFuel.
Arguments Return {A}.
Arguments Raise {A}.
Arguments SystemExit {A}.
Arguments OutOfFuel {A}.

(** ** The environment: what the cloud and the stores answer *)

Record Env := mkEnv {
  JobData : Type;
  Job_serialize : Job.t -> JobData;
  Job_unserialize : JobData -> Job.t;
  bucket_name : string;
  (** the [n]-th call to a store or to the provider fails with [faults n] *)
  faults : nat -> option exn;
  (** [uuid.uuid4().hex] *)
  uuid4_hex : string;
  (** [ec2_client.describe_instance_types(Filters=..., NextToken=token)] *)
  describe_instance_types : option string -> Ec2.DescribeInstanceTypesResponse;
  (** [describe_spot_instance_requests(SpotInstanceRequestIds=[id])
       .get("SpotInstanceRequests")] *)
  describe_spot_instance_requests : string -> list Ec2.SpotStatus;
  (** [describe_instances(InstanceIds=[id]).get("Reservations")] *)
  describe_instances : string -> list (list Ec2.Instance);
  (** [describe_instances(Filters=[spot-instance-request-id = id])
       .get("Reservations")] *)
  describe_instances_of_spot_request : string -> list (list Ec2.Instance);
  (** how the [n]-th invocation of [_run_instance] ends *)
  launch_outcome : nat -> exn + string
}.

(** The mutating calls, in the order they were issued. *)
Inductive Event (JobData : Type) :=
| s3_put_object (key : string) (body : RunnerDict.t JobData)
    (metadata : list (string * string))
| s3_delete_object (key : string)
| jobs_update_job (job : Job.t)
| logs_create_log_group_if_not_exists (log_group_name : string)
| ec2_cancel_spot_instance_requests (ids : list string)
| ec2_terminate_instances (ids : list string)
| ec2_run_instances (runner_id : string) (instance_type : InstanceType.t)
    (request_id : string)
| time_sleep (secs : Z).
Arguments s3_put_object {JobData}.
Arguments s3_delete_object {JobData}.
Arguments jobs_update_job {JobData}.
Arguments logs_create_log_group_if_not_exists {JobData}.
Arguments ec2_cancel_spot_instance_requests {JobData}.
Arguments ec2_terminate_instances {JobData}.
Arguments ec2_run_instances {JobData}.
Arguments time_sleep {JobData}.

Record S3Object (JobData : Type) := mkS3Object {
  Body : RunnerDict.t JobData;
  Metadata : list (string * string)
}.
Arguments mkS3Object {JobData}.
Arguments Body {JobData}.
Arguments Metadata {JobData}.

(** The state the calls read and change: the bucket's runner objects, the
    job store (modelled from the spec: [dstack.backend.aws.jobs] keeps a job
    record and a job head per job id), the number of calls issued, the
    number of launch attempts, and the trace of mutating calls. *)
Record World (JobData : Type) := mkWorld {
  clock : nat;
  launches : nat;
  objects : gmap string (S3Object JobData);
  job_heads : gmap string JobHead.t;
  job_records : gmap string Job.t;
  trace : list (Event JobData)
}.
Arguments mkWorld {JobData}.
Arguments clock {JobData}.
Arguments launches {JobData}.
Arguments objects {JobData}.
Arguments job_heads {JobData}.
Arguments job_records {JobData}.
Arguments trace {JobData}.

Definition CREATE_INSTANCE_RETRY_RATE_SECS : Z := 3.

(** ** A state and exception monad for the calls *)

Definition M (S A : Type) : Type := S -> outcome A * S.

Definition ret {S A : Type} (a : A) : M S A := fun w => (Return a, w).

Definition bind {S A B : Type} (m : M S A) (k : A -> M S B) : M S B :=
  fun w =>
    match m w with
    | (Return a, w') => k a w'
    | (Raise e, w') => (Raise e, w')
    | (SystemExit msg, w') => (SystemExit msg, w')
    | (OutOfFuel, w') => (OutOfFuel, w')
    end.

Definition raise {S A : Type} (e : exn) : M S A := fun w => (Raise e, w).

(** [sys.exit(msg)] *)
Definition sys_exit {S A : Type} (msg : string) : M S A :=
  fun w => (SystemExit msg, w).

(** [try: body / except Exception as e: handler(e)] *)
Definition try_except {S A : Type} (body : M S A) (handler : exn -> M S A) : M S A :=
  fun w =>
    match body w with
    | (Raise e, w') => handler e w'
    | r => r
    end.

(** stdpp's [x ← m; k] and [m;; k] stand for [bind]. *)
#[local] Instance M_bind {S : Type} : MBind (M S) := fun A B k m => bind m k.

(** ** World updates *)

Section WorldUpdates.
Context {J : Type}.

Definition tick (w : World J) : World J :=
  mkWorld (S (clock w)) (launches w) (objects w) (job_heads w)
          (job_records w) (trace w).

Definition count_launch (w : World J) : World J :=
  mkWorld (clock w) (S (launches w)) (objects w) (job_heads w)
          (job_records w) (trace w).

Definition emit (ev : Event J) (w : World J) : World J :=
  mkWorld (clock w) (launches w) (objects w) (job_heads w)
          (job_records w) (trace w ++ [ev])%list.

Definition set_objects (o : gmap string (S3Object J)) (w : World J) : World J :=
  mkWorld (clock w) (launches w) o (job_heads w) (job_records w) (trace w).

Definition store_job (job : Job.t) (w : World J) : World J :=
  mkWorld (clock w) (launches w) (objects w)
          (<[Job.job_id job := JobHead.mk (Job.job_id job) (Job.status job)]>
             (job_heads w))
          (<[Job.job_id job := job]> (job_records w))
          (trace w).
End WorldUpdates.

Section Backend.
Variable env : Env.

#[local] Abbreviation W := (World (JobData env)).
#[local] Abbreviation Mw := (M (World (JobData env))).

(** *** Calls to the stores and to the provider *)

(** A call to a store or to the provider: the clock advances, and the call
    raises when the environment says this one fails. *)
Definition call {A : Type} (answer : W -> outcome A * W) : Mw A :=
  fun w =>
    match faults env (clock w) with
    | Some e => (Raise e, tick w)
    | None => answer (tick w)
    end.

Definition NoSuchKey : exn :=
  ClientError (Some (mkErrorDict (Some "NoSuchKey")
                       (Some "The specified key does not exist."))).

(** [s3_client.get_object(Bucket=bucket_name, Key=key)] followed by
    [yaml.load] of the body: the document that was put under the key. *)
Definition s3_get_object (key : string) : Mw (RunnerDict.t (JobData env)) :=
  call (fun w =>
          match objects w !! key with
          | Some obj => (Return (Body obj), w)
          | None => (Raise NoSuchKey, w)
          end).

(** [s3_client.put_object(Body=yaml.dump(data), Bucket=bucket_name, Key=key,
     Metadata=metadata)] *)
Definition s3_put (key : string) (data : RunnerDict.t (JobData env))
    (metadata : list (string * string)) : Mw unit :=
  call (fun w =>
          (Return tt,
           emit (s3_put_object key data metadata)
                (set_objects (<[key := mkS3Object data metadata]> (objects w)) w))).

(** [s3_client.delete_object(Bucket=bucket_name, Key=key)] *)
Definition s3_delete (key : string) : Mw unit :=
  call (fun w =>
          (Return tt,
           emit (s3_delete_object key) (set_objects (delete key (objects w)) w))).

(** Modelled from the spec: [jobs.list_job_head] of [dstack.backend.aws.jobs],
    which reads the job head of a job id, [None] when there is none
    (section 6: the job store is an opaque CRUD collaborator). *)
Definition list_job_head (job_id : string) : Mw (option JobHead.t) :=
  call (fun w => (Return (job_heads w !! job_id), w)).

(** Modelled from the spec: [jobs.get_job] of [dstack.backend.aws.jobs], which
    reads the job record of a job id, [None] when there is none. *)
Definition get_job (job_id : string) : Mw (option Job.t) :=
  call (fun w => (Return (job_records w !! job_id), w)).

(** Modelled from the spec: [jobs.update_job] of [dstack.backend.aws.jobs],
    which persists the job record and, with it, the job's head. *)
Definition update_job (job : Job.t) : Mw unit :=
  call (fun w => (Return tt, emit (jobs_update_job job) (store_job job w))).

(** Modelled from the spec: [logs.create_log_group_if_not_exists] of
    [dstack.backend.aws.logs], the log-group bootstrap (section 1). *)
Definition create_log_group_if_not_exists (log_group_name : string) : Mw unit :=
  call (fun w =>
          (Return tt, emit (logs_create_log_group_if_not_exists log_group_name) w)).

Definition ec2_describe_instance_types (next_token : option string)
    : Mw Ec2.DescribeInstanceTypesResponse :=
  call (fun w => (Return (describe_instance_types env next_token), w)).

Definition ec2_describe_spot_instance_requests (request_id : string)
    : Mw (list Ec2.SpotStatus) :=
  call (fun w => (Return (describe_spot_instance_requests env request_id), w)).

Definition ec2_describe_instances (request_id : string)
    : Mw (list (list Ec2.Instance)) :=
  call (fun w => (Return (describe_instances env request_id), w)).

Definition ec2_describe_instances_of_spot_request (request_id : string)
    : Mw (list (list Ec2.Instance)) :=
  call (fun w => (Return (describe_instances_of_spot_request env request_id), w)).

Definition ec2_cancel_spot (ids : list string) : Mw unit :=
  call (fun w => (Return tt, emit (ec2_cancel_spot_instance_requests ids) w)).

Definition ec2_terminate (ids : list string) : Mw unit :=
  call (fun w => (Return tt, emit (ec2_terminate_instances ids) w)).

(** [time.sleep(secs)] *)
Definition sleep (secs : Z) : Mw unit :=
  fun w => (Return tt, emit (time_sleep secs) w).

(** *** Catalog and selection *)

(** The loop of [_get_instance_types].  After the first call [response] is a
    non-empty dictionary, so the loop goes on exactly while the last
    response carries a non-empty [NextToken], which is then passed on. *)
Fixpoint _get_instance_types_loop (fuel : nat) (next_token : option string)
    (instance_types : list InstanceType.t) : Mw (list InstanceType.t) :=
  match fuel with
  | O => fun w => (OutOfFuel, w)
  | S fuel =>
    response ← ec2_describe_instance_types next_token;
    let instance_types :=
      (instance_types ++ List.map to_instance_type (Ec2.InstanceTypes response))%list in
    if truthy_str (Ec2.NextToken response)
    then _get_instance_types_loop fuel (Ec2.NextToken response) instance_types
    else ret instance_types
  end.

Definition _get_instance_types (fuel : nat) : Mw (list InstanceType.t) :=
  instance_types ← _get_instance_types_loop fuel None [];
  ret (sorted compare instance_types).

Definition _get_instance_type (fuel : nat) (requirements : option Requirements.t)
    : Mw (option InstanceType.t) :=
  instance_types ← _get_instance_types fuel;
  let instance_type :=
    List.find (fun instance_type =>
                 _matches (InstanceType.resources instance_type) requirements)
              instance_types in
  ret (match instance_type with
       | Some instance_type =>
         Some (InstanceType.mk
                 (InstanceType.instance_name instance_type)
                 (Resources.mk
                    (Resources.cpus (InstanceType.resources instance_type))
                    (Resources.memory_mib (InstanceType.resources instance_type))
                    (Resources.gpus (InstanceType.resources instance_type))
                    (match requirements with
                     | Some requirements => Requirements.interruptible requirements
                     | None => None
                     end)
                    (Some false)))
       | None => None
       end).

(** *** Runner store *)

Definition runner_key (runner_id : option string) : string :=
  "runners/" +:+ fmt runner_id +:+ ".yaml".

Definition runner_metadata (runner : Runner.t) : list (string * string) :=
  if JobStatus.eqb (Job.status (Runner.job runner)) JobStatus.STOPPING
  then [("status", "stopping")]
  else [].

Definition _create_runner (runner : Runner.t) : Mw unit :=
  let key := runner_key (Some (Runner.runner_id runner)) in
  s3_put key (_serialize_runner (Job_serialize env) runner) (runner_metadata runner);;
  let log_group_name := "/dstack/runners/" +:+ bucket_name env in
  create_log_group_if_not_exists log_group_name.

Definition _update_runner (runner : Runner.t) : Mw unit :=
  let key := runner_key (Some (Runner.runner_id runner)) in
  s3_put key (_serialize_runner (Job_serialize env) runner) (runner_metadata runner).

Definition _delete_runner (runner : Runner.t) : Mw unit :=
  let key := runner_key (Some (Runner.runner_id runner)) in
  s3_delete key.

Definition _get_runner (runner_id : option string) : Mw (option Runner.t) :=
  let key := runner_key runner_id in
  try_except
    (obj ← s3_get_object key;
     ret (Some (_unserialize_runner (Job_unserialize env) obj)))
    (fun e => if has_error_code e "NoSuchKey" then ret None else raise e).

(** *** Teardown *)

Definition _cancel_spot_request (request_id : string) : Mw unit :=
  ec2_cancel_spot [request_id];;
  response ← ec2_describe_instances_of_spot_request request_id;
  match response with
  | (instance :: _) :: _ => ec2_terminate [Ec2.InstanceId instance]
  | _ => ret tt
  end.

Definition _terminate_instance (request_id : string) : Mw unit :=
  try_except
    (ec2_terminate [request_id])
    (fun e =>
       if has_error_code e "InvalidInstanceID.NotFound" then ret tt else raise e).

(** *** Request status translator *)

(** The [if]/[elif] chain over [status["Code"]]; [None] is its [else]. *)
Definition spot_request_status (code : string) : option RequestStatus.t :=
  if in_list code ["fulfilled"; "request-canceled-and-instance-running"]
  then Some RequestStatus.RUNNING
  else if in_list code
            ["not-scheduled-yet"; "pending-evaluation"; "pending-fulfillment"]
  then Some RequestStatus.PENDING
  else if in_list code
            ["capacity-not-available"; "instance-stopped-no-capacity";
             "instance-terminated-by-price"; "instance-stopped-by-price";
             "instance-terminated-no-capacity"; "limit-exceeded"; "price-too-low"]
  then Some RequestStatus.NO_CAPACITY
  else if in_list code
            ["instance-terminated-by-user"; "instance-stopped-by-user";
             "canceled-before-fulfillment"; "instance-terminated-by-schedule";
             "instance-terminated-by-service"; "spot-instance-terminated-by-user";
             "marked-for-stop"; "marked-for-termination"]
  then Some RequestStatus.TERMINATED
  else None.

(** The [if]/[elif] chain over [state["Name"]]; [None] is its [else]. *)
Definition instance_request_status (name : string) : option RequestStatus.t :=
  if in_list name ["running"] then Some RequestStatus.RUNNING
  else if in_list name ["pending"] then Some RequestStatus.PENDING
  else if in_list name ["shutting-down"; "terminated"; "stopping"; "stopped"]
  then Some RequestStatus.TERMINATED
  else None.

(** The first lines of [get_request_head]: which request id to poll. *)
Definition resolve_request_id (job : Job.t) (runner : option Runner.t)
    : Mw (option string) :=
  if truthy_str (Job.request_id job) then ret (Job.request_id job)
  else if and_then runner (fun runner => truthy_str (Runner.request_id runner))
  then ret (runner ≫= Runner.request_id)
  else if is_None runner then
    runner ← _get_runner (Job.runner_id job);
    match runner with
    | Some runner => ret (Runner.request_id runner)
    | None => ret None
    end
  else ret None.

(** The interruptible branch: the spot request is polled. *)
Definition spot_request_head (job : Job.t) (request_id : string)
    : Mw RequestHead.t :=
  try_except
    (response ← ec2_describe_spot_instance_requests request_id;
     match response with
     | status :: _ =>
       match spot_request_status (Ec2.Code status) with
       | Some request_status =>
         ret (RequestHead.mk (Job.job_id job) request_status (Ec2.Message status))
       | None =>
         raise (Exception
                  [ArgStr ("Unsupported EC2 spot instance request status code: "
                           +:+ Ec2.Code status)])
       end
     | [] => ret (RequestHead.mk (Job.job_id job) RequestStatus.TERMINATED None)
     end)
    (fun e =>
       if has_error_code e "InvalidSpotInstanceRequestID.NotFound"
       then ret (RequestHead.mk (Job.job_id job) RequestStatus.TERMINATED
                                (error_message e))
       else raise e).

(** The on-demand branch: the instance is polled. *)
Definition instance_request_head (job : Job.t) (request_id : string)
    : Mw RequestHead.t :=
  try_except
    (response ← ec2_describe_instances request_id;
     match response with
     | (instance :: _) :: _ =>
       match instance_request_status (Ec2.State_Name instance) with
       | Some request_status =>
         ret (RequestHead.mk (Job.job_id job) request_status None)
       | None =>
         raise (Exception
                  [ArgStr ("Unsupported EC2 instance state name: "
                           +:+ Ec2.State_Name instance)])
       end
     | _ => ret (RequestHead.mk (Job.job_id job) RequestStatus.TERMINATED None)
     end)
    (fun e =>
       if has_error_code e "InvalidInstanceID.NotFound"
       then ret (RequestHead.mk (Job.job_id job) RequestStatus.TERMINATED
                                (error_message e))
       else raise e).

Definition get_request_head (job : Job.t) (runner : option Runner.t)
    : Mw RequestHead.t :=
  let interruptible :=
    and_then (Job.requirements job)
             (fun requirements =>
                truthy_bool (Requirements.interruptible requirements)) in
  request_id ← resolve_request_id job runner;
  match nonempty request_id with
  | Some request_id =>
    if interruptible then spot_request_head job request_id
    else instance_request_head job request_id
  | None =>
    let message :=
      if interruptible
      then "The spot instance request ID is not specified"
      else "The instance ID is not specified" in
    ret (RequestHead.mk (Job.job_id job) RequestStatus.TERMINATED (Some message))
  end.

(** *** stop_job *)

Definition _stop_runner (runner : Runner.t) : Mw unit :=
  match nonempty (Runner.request_id runner) with
  | Some request_id =>
    if truthy_bool (Resources.local (Runner.resources runner)) then ret tt
    else if truthy_bool (Resources.interruptible (Runner.resources runner))
    then _cancel_spot_request request_id
    else _terminate_instance request_id
  | None => ret tt
  end;;
  _delete_runner runner.

(** The condition of the outer [if] of [stop_job]. *)
Definition anything_unfinished (job_head : option JobHead.t) (job : option Job.t)
    (runner : option Runner.t) (request_status : RequestStatus.t) : bool :=
  and_then job_head (fun job_head => JobStatus.is_unfinished (JobHead.status job_head))
  || and_then job (fun job => JobStatus.is_unfinished (Job.status job))
  || and_then runner
       (fun runner => JobStatus.is_unfinished (Job.status (Runner.job runner)))
  || negb (RequestStatus.eqb request_status RequestStatus.TERMINATED).

Definition early_stage (s : JobStatus.t) : bool :=
  JobStatus.eqb s JobStatus.SUBMITTED || JobStatus.eqb s JobStatus.DOWNLOADING.

(** The [if abort] / [elif] / [elif] / [else] that sets [new_status]. *)
Definition choose_new_status (abort : bool) (job_head : option JobHead.t)
    (job : option Job.t) (runner : option Runner.t)
    (request_status : RequestStatus.t) : option JobStatus.t :=
  if abort then Some JobStatus.ABORTED
  else if is_None job_head
          || and_then job_head (fun job_head => early_stage (JobHead.status job_head))
          || is_None job
          || and_then job (fun job => early_stage (Job.status job))
          || RequestStatus.eqb request_status RequestStatus.TERMINATED
          || is_None runner
  then Some JobStatus.STOPPED
  else if and_then job_head
            (fun job_head =>
               negb (JobStatus.eqb (JobHead.status job_head) JobStatus.UPLOADING))
          || and_then job
               (fun job => negb (JobStatus.eqb (Job.status job) JobStatus.UPLOADING))
  then Some JobStatus.STOPPING
  else None.

(** The four reads at the head of [stop_job]: job head, job, runner and
    live request status. *)
Definition stop_job_reads (job_id : string)
    : Mw (option JobHead.t * option Job.t * option Runner.t * RequestStatus.t) :=
  job_head ← list_job_head job_id;
  job ← get_job job_id;
  runner ← match job with
           | Some job => _get_runner (Job.runner_id job)
           | None => ret None
           end;
  request_status ← match job with
                   | Some job =>
                     head ← get_request_head job runner;
                     ret (RequestHead.status head)
                   | None => ret RequestStatus.TERMINATED
                   end;
  ret (job_head, job, runner, request_status).

(** The first [if] under [if new_status:], the runner-side write. *)
Definition stop_job_runner_write (new_status : JobStatus.t)
    (runner : option Runner.t) : Mw unit :=
  match runner with
  | Some runner =>
    if JobStatus.is_unfinished (Job.status (Runner.job runner))
       && negb (JobStatus.eqb (Job.status (Runner.job runner)) new_status)
    then
      if JobStatus.is_finished new_status then _stop_runner runner
      else _update_runner (Runner.set_job_status new_status runner)
    else ret tt
  | None => ret tt
  end.

(** The second [if] under [if new_status:], the job-side write.
    [job.status = new_status] on a [job] that is [None] raises. *)
Definition stop_job_job_write (new_status : JobStatus.t)
    (job_head : option JobHead.t) (job : option Job.t) : Mw unit :=
  if and_then job_head
       (fun job_head =>
          JobStatus.is_unfinished (JobHead.status job_head)
          && negb (JobStatus.eqb (JobHead.status job_head) new_status))
     || and_then job
          (fun job =>
             JobStatus.is_unfinished (Job.status job)
             && negb (JobStatus.eqb (Job.status job) new_status))
  then
    match job with
    | Some job => update_job (Job.set_status new_status job)
    | None => raise (AttributeError "'NoneType' object has no attribute 'status'")
    end
  else ret tt.

(** The body of [if new_status:]. *)
Definition stop_job_writes (new_status : JobStatus.t) (job_head : option JobHead.t)
    (job : option Job.t) (runner : option Runner.t) : Mw unit :=
  stop_job_runner_write new_status runner;;
  stop_job_job_write new_status job_head job.

Definition stop_job (job_id : string) (abort : bool) : Mw unit :=
  '(job_head, job, runner, request_status) ← stop_job_reads job_id;
  if anything_unfinished job_head job runner request_status then
    match choose_new_status abort job_head job runner request_status with
    | Some new_status => stop_job_writes new_status job_head job runner
    | None => ret tt
    end
  else ret tt.

(** *** Launch and run_job *)

(** [_run_instance] as seen by its callers: it returns a request id or
    raises, as the environment decides for this invocation; a launch that
    succeeded is a mutating call. *)
Definition _run_instance (runner_id : string) (instance_type : InstanceType.t)
    : Mw string :=
  fun w =>
    match launch_outcome env (launches w) with
    | inl e => (Raise e, count_launch w)
    | inr request_id =>
      (Return request_id,
       emit (ec2_run_instances runner_id instance_type request_id) (count_launch w))
    end.

(** [attempts > 0] and [attempts - 1] on a natural number of attempts left. *)
Fixpoint _run_instance_retry_from (attempts : nat) (runner_id : string)
    (instance_type : InstanceType.t) : Mw string :=
  try_except
    (_run_instance runner_id instance_type)
    (fun e =>
       if has_error_code e "InvalidParameterValue" then
         match attempts with
         | S attempts =>
           sleep CREATE_INSTANCE_RETRY_RATE_SECS;;
           _run_instance_retry_from attempts runner_id instance_type
         | O => raise (Exception [ArgStr "Failed to retry"; ArgExn e])
         end
       else raise e).

(** An [attempts] that is zero or negative leaves no retry. *)
Definition _run_instance_retry (runner_id : string) (instance_type : InstanceType.t)
    (attempts : Z) : Mw string :=
  _run_instance_retry_from (Z.to_nat attempts) runner_id instance_type.

(** The default of the keyword argument [attempts]. *)
Definition default_attempts : Z := 3.

(** The [except Exception as e] block of [run_job], for the values the locals
    [job] and [runner] have when the exception arrives. *)
Definition mark_failed {A : Type} (job : Job.t) (runner : option Runner.t)
    (e : exn) : Mw A :=
  let job := Job.set_status JobStatus.FAILED job in
  let job := Job.set_request_id (runner ≫= Runner.request_id) job in
  update_job job;;
  raise e.

(** [run_job].  The one [try] block is written as three consecutive ones,
    cut where the local [runner] changes, each with the handler for the
    value [runner] has there; the handler always raises, so no later part
    runs after it.  [runner.job] is the object [job] itself; nothing writes
    to [job] between the construction of the runner and its last
    serialization, so the runner can hold the value. *)
Definition run_job (fuel : nat) (job : Job.t) : Mw unit :=
  if negb (JobStatus.eqb (Job.status job) JobStatus.SUBMITTED) then
    raise (Exception
             [ArgStr "Can't create a request for a job which status is not SUBMITTED"])
  else
    let job := Job.set_runner_id (Some (uuid4_hex env)) job in
    instance_type ←
      try_except
        (update_job job;;
         instance_type ← _get_instance_type fuel (Job.requirements job);
         match instance_type with
         | None =>
           update_job (Job.set_status JobStatus.FAILED job);;
           sys_exit "No instance type matching requirements."
         | Some instance_type => ret instance_type
         end)
        (mark_failed job None);
    let runner :=
      Runner.mk (uuid4_hex env) None (InstanceType.resources instance_type) job in
    request_id ←
      try_except
        (_create_runner runner;;
         _run_instance_retry (uuid4_hex env) instance_type default_attempts)
        (mark_failed job (Some runner));
    let runner := Runner.set_request_id (Some request_id) runner in
    try_except (_update_runner runner) (mark_failed job (Some runner)).

End Backend.

(** * Worked inputs *)

Definition gpu_k80 : Gpu.t := Gpu.mk "K80" 8000.
Definition gpu_v100 : Gpu.t := Gpu.mk "V100" 16000.

(** A machine that cannot be bought on the spot market. *)
Definition on_demand_only (gpus : list Gpu.t) : Resources.t :=
  Resources.mk 4 16384 (Some gpus) (Some false) (Some false).

(** Interruptible, two CPUs, no GPU requirement. *)
Definition req_spot_no_gpu : Requirements.t :=
  Requirements.mk (Some 2) None None (Some true) None.

(** [gpu_count=2, gpu_memory_mib=16000], no name. *)
Definition req_two_gpus_16000 : Requirements.t :=
  Requirements.mk None None
    (Some (GpusRequirements.mk (Some 2) (Some 16000) None)) None None.

(** Two GPUs named K80 and two GPUs of 16000 MiB, but never both at once. *)
Definition req_two_k80_16000 : Requirements.t :=
  Requirements.mk None None
    (Some (GpusRequirements.mk (Some 2) (Some 16000) (Some "K80"))) None None.

(** ** A small deployment *)

Definition p3_2xlarge : Ec2.InstanceTypeInfo :=
  Ec2.mkInstanceTypeInfo "p3.2xlarge" 8 62464
    (Some (Ec2.mkGpuInfo (Some [Ec2.mkGpuDeviceInfo "V100" 16000 1])))
    ["on-demand"; "spot"].

Definition p3_8xlarge : Ec2.InstanceTypeInfo :=
  Ec2.mkInstanceTypeInfo "p3.8xlarge" 32 249856
    (Some (Ec2.mkGpuInfo (Some [Ec2.mkGpuDeviceInfo "V100" 16000 2])))
    ["on-demand"; "spot"].

Definition c5_large : Ec2.InstanceTypeInfo :=
  Ec2.mkInstanceTypeInfo "c5.large" 2 4096 None ["on-demand"; "spot"].

(** Two pages: the first carries a token, the second does not. *)
Definition two_pages (next_token : option string)
    : Ec2.DescribeInstanceTypesResponse :=
  match next_token with
  | None => Ec2.mkDescribeInstanceTypesResponse [p3_8xlarge; c5_large] (Some "page-2")
  | Some _ => Ec2.mkDescribeInstanceTypesResponse [p3_2xlarge] None
  end.

(** The scenario of the spec: four CPUs, one GPU of 16000 MiB, interruptible. *)
Definition req_one_gpu_spot : Requirements.t :=
  Requirements.mk (Some 4) None
    (Some (GpusRequirements.mk (Some 1) (Some 16000) None)) (Some true) None.

(** A deployment where the job document is the job itself. *)
Definition deployment (faults : nat -> option exn)
    (spot_requests : string -> list Ec2.SpotStatus)
    (instances : string -> list (list Ec2.Instance))
    (launch_outcome : nat -> exn + string) : Env :=
  mkEnv Job.t (fun job => job) (fun data => data) "dstack-bucket" faults
        "0af3" two_pages spot_requests instances instances launch_outcome.

Definition no_faults : nat -> option exn := fun _ => None.
Definition no_spot_requests : string -> list Ec2.SpotStatus := fun _ => [].
Definition no_instances : string -> list (list Ec2.Instance) := fun _ => [].
Definition launch_ok : nat -> exn + string := fun _ => inr "i-0123".

Definition quiet : Env := deployment no_faults no_spot_requests no_instances launch_ok.

Definition empty_world : World Job.t := mkWorld 0 0 ∅ ∅ ∅ [].

(** A runner whose GPU list and flags are unset. *)
Definition job_submitted : Job.t :=
  Job.mk "job-1" "github.com/acme/repo" JobStatus.SUBMITTED (Some req_one_gpu_spot)
         None None None None.

Definition runner_unset : Runner.t :=
  Runner.mk "0af3" None (Resources.mk 2 4096 None None None) job_submitted.

(** ** Launch outcomes *)

(** The error class [_run_instance_retry] retries on. *)
Definition transient (e : exn) : Prop :=
  has_error_code e "InvalidParameterValue" = true.

(** An exception whose arguments hold a number, such as a retry count. *)
Definition carries_count (e : exn) : Prop :=
  exists args n, e = Exception args /\ In (ArgInt n) args.

Definition deployment_launching (launch_outcome : nat -> exn + string) : Env :=
  mkEnv Job.t (fun job => job) (fun data => data) "dstack-bucket" (fun _ => None)
        "0af3"
        (fun _ => Ec2.mkDescribeInstanceTypesResponse [] None)
        (fun _ => []) (fun _ => []) (fun _ => []) launch_outcome.

Definition invalid_parameter : exn :=
  ClientError (Some (mkErrorDict (Some "InvalidParameterValue")
                       (Some "Value for parameter iamInstanceProfile.arn is invalid"))).

Definition unauthorized : exn :=
  ClientError (Some (mkErrorDict (Some "UnauthorizedOperation") None)).

Definition launch_third_time : nat -> exn + string :=
  fun n => if (n <? 2)%nat then inl invalid_parameter else inr "i-0123".

Definition launch_never : nat -> exn + string := fun _ => inl invalid_parameter.

Definition launch_unauthorized : nat -> exn + string := fun _ => inl unauthorized.

Definition p3_spot : InstanceType.t :=
  InstanceType.mk "p3.2xlarge"
    (Resources.mk 8 62464 (Some [gpu_v100]) (Some true) (Some false)).

(** The world after [k] launch attempts that failed and were each followed
    by the retry delay. *)
Definition after_failed_attempts {J : Type} (k : nat) (w : World J) : World J :=
  mkWorld (clock w) (launches w + k)%nat (objects w) (job_heads w) (job_records w)
          (trace w ++ List.repeat (time_sleep CREATE_INSTANCE_RETRY_RATE_SECS) k)%list.

(** ** Spot requests *)

(** Every status code the interruptible branch of [get_request_head] names. *)
Definition known_spot_codes : list string :=
  ["fulfilled"; "request-canceled-and-instance-running";
   "not-scheduled-yet"; "pending-evaluation"; "pending-fulfillment";
   "capacity-not-available"; "instance-stopped-no-capacity";
   "instance-terminated-by-price"; "instance-stopped-by-price";
   "instance-terminated-no-capacity"; "limit-exceeded"; "price-too-low";
   "instance-terminated-by-user"; "instance-stopped-by-user";
   "canceled-before-fulfillment"; "instance-terminated-by-schedule";
   "instance-terminated-by-service"; "spot-instance-terminated-by-user";
   "marked-for-stop"; "marked-for-termination"].

(** [job.requirements and job.requirements.interruptible], as a condition *)
Definition job_interruptible (job : Job.t) : bool :=
  and_then (Job.requirements job)
           (fun requirements => truthy_bool (Requirements.interruptible requirements)).

Definition job_on_spot : Job.t :=
  Job.mk "job-1" "github.com/acme/repo" JobStatus.RUNNING (Some req_one_gpu_spot)
         (Some "0af3") (Some "sir-42") None None.

Definition spot_code (code : string) : string -> list Ec2.SpotStatus :=
  fun _ => [Ec2.mkSpotStatus code (Some "status message")].

Definition spot_not_found : exn :=
  ClientError
    (Some (mkErrorDict (Some "InvalidSpotInstanceRequestID.NotFound")
             (Some "The spot instance request ID does not exist"))).

Definition fault_at (n : nat) (e : exn) : nat -> option exn :=
  fun k => if (k =? n)%nat then Some e else None.

(** ** Stopping *)

(** Nothing was written between two worlds: same stores, same launches,
    same trace of mutating calls; only the clock may differ. *)
Definition same_state {J : Type} (w w' : World J) : Prop :=
  launches w' = launches w
  /\ objects w' = objects w
  /\ job_heads w' = job_heads w
  /\ job_records w' = job_records w
  /\ trace w' = trace w.

(** A computation that writes nothing, however it ends. *)
Definition read_only {J A : Type} (m : M (World J) A) : Prop :=
  forall w, same_state w (snd (m w)).

(** An on-demand job that runs on instance i-0123, which the provider no
    longer knows ([no_instances]). *)
Definition job_running : Job.t :=
  Job.mk "job-2" "github.com/acme/repo" JobStatus.RUNNING None
         (Some "0af3") (Some "i-0123") None None.

Definition runner_running : Runner.t :=
  Runner.mk "0af3" (Some "i-0123")
            (Resources.mk 2 4096 (Some []) (Some false) (Some false)) job_running.

Definition running_world : World Job.t :=
  mkWorld 0 0
          {[ "runners/0af3.yaml" :=
               mkS3Object (_serialize_runner (fun job => job) runner_running) [] ]}
          {[ "job-2" := JobHead.mk "job-2" JobStatus.RUNNING ]}
          {[ "job-2" := job_running ]}
          [].

(** The world after a first [stop_job]. *)
Definition stopped_once : World Job.t :=
  snd (stop_job quiet "job-2" false running_world).

(** A job head without a job record. *)
Definition head_only_world : World Job.t :=
  mkWorld 0 0 ∅ {[ "job-3" := JobHead.mk "job-3" JobStatus.RUNNING ]} ∅ [].

(** A job still downloading, with no runner object and no request id. *)
Definition job_downloading : Job.t :=
  Job.mk "job-4" "github.com/acme/repo" JobStatus.DOWNLOADING None
         (Some "77d1") None None None.

Definition downloading_world : World Job.t :=
  mkWorld 0 0 ∅
          {[ "job-4" := JobHead.mk "job-4" JobStatus.DOWNLOADING ]}
          {[ "job-4" := job_downloading ]}
          [].

(** A job uploading its results from a running on-demand instance. *)
Definition job_uploading : Job.t :=
  Job.mk "job-5" "github.com/acme/repo" JobStatus.UPLOADING None
         (Some "5c2e") (Some "i-0456") None None.

Definition runner_uploading : Runner.t :=
  Runner.mk "5c2e" (Some "i-0456")
            (Resources.mk 2 4096 (Some []) (Some false) (Some false)) job_uploading.

Definition uploading_world : World Job.t :=
  mkWorld 0 0
          {[ "runners/5c2e.yaml" :=
               mkS3Object (_serialize_runner (fun job => job) runner_uploading) [] ]}
          {[ "job-5" := JobHead.mk "job-5" JobStatus.UPLOADING ]}
          {[ "job-5" := job_uploading ]}
          [].

Definition instance_running : string -> list (list Ec2.Instance) :=
  fun request_id => [[Ec2.mkInstance request_id "running"]].

Definition busy : Env := deployment no_faults no_spot_requests instance_running launch_ok.

(** ** Running *)

(** The world once the job store has accepted [update_job(job)]. *)
Definition job_updated {J : Type} (job : Job.t) (w : World J) : World J :=
  emit (jobs_update_job job) (store_job job (tick w)).

(** The job record the [except] block of [run_job] writes. *)
Definition failed_job (env : Env) (job : Job.t) (request_id : option string) : Job.t :=
  Job.set_request_id request_id
    (Job.set_status JobStatus.FAILED
       (Job.set_runner_id (Some (uuid4_hex env)) job)).

(** The runner [run_job] constructs for the selected instance type. *)
Definition new_runner (env : Env) (job : Job.t) (instance_type : InstanceType.t)
    : Runner.t :=
  Runner.mk (uuid4_hex env) None (InstanceType.resources instance_type)
            (Job.set_runner_id (Some (uuid4_hex env)) job).

(** * Further definitions *)

(** ** What the matcher asks of the resources *)

(** The conditions [_matches] tests for a requirements object, as a
    proposition: a bound counts when it is set and not zero, a GPU name when
    it is set and not empty, and the interruptible flag is looked at under a
    GPU requirement only. *)
Definition meets (resources : Resources.t) (requirements : Requirements.t) : Prop :=
  (forall cpus, Requirements.cpus requirements = Some cpus -> cpus <> 0 ->
                cpus <= Resources.cpus resources)
  /\ (forall memory_mib,
         Requirements.memory_mib requirements = Some memory_mib -> memory_mib <> 0 ->
         memory_mib <= Resources.memory_mib resources)
  /\ (forall req_gpus,
         Requirements.gpus requirements = Some req_gpus ->
         let need := or_int (GpusRequirements.count req_gpus) 1 in
         let gpus := or_nil (Resources.gpus resources) in
         need <= len gpus
         /\ (forall name, GpusRequirements.name req_gpus = Some name -> name <> "" ->
                          need <= count_name name gpus)
         /\ (forall floor, GpusRequirements.memory_mib req_gpus = Some floor ->
                           floor <> 0 -> need <= count_memory floor gpus)
         /\ (Requirements.interruptible requirements = Some true ->
             Resources.interruptible resources = Some true)).

(** ** The pages of the catalog *)

(** The instance types of all pages, following the tokens the way the loop of
    [_get_instance_types] does: a page with a non-empty token is followed by
    the page for that token. *)
Fixpoint pages_from (env : Env) (fuel : nat) (next_token : option string)
    : option (list Ec2.InstanceTypeInfo) :=
  match fuel with
  | O => None
  | S fuel =>
    let response := describe_instance_types env next_token in
    if truthy_str (Ec2.NextToken response)
    then option_map (fun rest => (Ec2.InstanceTypes response ++ rest)%list)
                    (pages_from env fuel (Ec2.NextToken response))
    else Some (Ec2.InstanceTypes response)
  end.

(** [sum(max(0, gpu["Count"]))] over the GPU descriptors of an instance type *)
Definition gpu_units (instance_type : Ec2.InstanceTypeInfo) : Z :=
  match Ec2.GpuInfo_ instance_type with
  | Some info =>
    List.fold_right (fun gpu n => Z.max 0 (Ec2.Count gpu) + n) 0
                    (or_nil (Ec2.Gpus info))
  | None => 0
  end.

(** Memory of all GPU units of an instance type. *)
Definition gpu_units_memory_mib (instance_type : Ec2.InstanceTypeInfo) : Z :=
  match Ec2.GpuInfo_ instance_type with
  | Some info =>
    List.fold_right
      (fun gpu n => Z.max 0 (Ec2.Count gpu) * Ec2.Gpu_SizeInMiB gpu + n) 0
      (or_nil (Ec2.Gpus info))
  | None => 0
  end.

(** A machine with one more GPU and more of everything than [on_demand_only]. *)
Definition larger_machine (gpus : list Gpu.t) : Resources.t :=
  Resources.mk 8 32768 (Some (gpu_v100 :: gpus)) (Some false) (Some false).

(** The instance type [_get_instance_type] builds from a catalog entry. *)
Definition requested_copy (requirements : option Requirements.t)
    (native : InstanceType.t) : InstanceType.t :=
  InstanceType.mk
    (InstanceType.instance_name native)
    (Resources.mk
       (Resources.cpus (InstanceType.resources native))
       (Resources.memory_mib (InstanceType.resources native))
       (Resources.gpus (InstanceType.resources native))
       (match requirements with
        | Some requirements => Requirements.interruptible requirements
        | None => None
        end)
       (Some false)).

(** No machine has a thousand CPUs. *)
Definition req_thousand_cpus : Requirements.t :=
  Requirements.mk (Some 1000) None None None None.

(** ** The runner store *)

(** A runner as it comes back from the store: an unset GPU list read as the
    empty list, unset flags read as false. *)
Definition normalized (runner : Runner.t) : Runner.t :=
  Runner.mk
    (Runner.runner_id runner)
    (Runner.request_id runner)
    (Resources.mk
       (Resources.cpus (Runner.resources runner))
       (Resources.memory_mib (Runner.resources runner))
       (Some (or_nil (Resources.gpus (Runner.resources runner))))
       (Some (is_True (Resources.interruptible (Runner.resources runner))))
       (Some (is_True (Resources.local (Runner.resources runner)))))
    (Runner.job runner).

(** The object [_create_runner] and [_update_runner] write for a runner. *)
Definition runner_object (env : Env) (runner : Runner.t) : S3Object (JobData env) :=
  mkS3Object (_serialize_runner (Job_serialize env) runner) (runner_metadata runner).

Definition access_denied : exn :=
  ClientError (Some (mkErrorDict (Some "AccessDenied") (Some "Access Denied"))).

Definition no_such_key : exn :=
  ClientError (Some (mkErrorDict (Some "NoSuchKey") None)).

(** ** Request heads *)

(** Every instance state name the on-demand branch of [get_request_head]
    names. *)
Definition known_instance_states : list string :=
  ["running"; "pending"; "shutting-down"; "terminated"; "stopping"; "stopped"].

(** The not-found code each branch of [get_request_head] tolerates. *)
Definition not_found_code (job : Job.t) : string :=
  if job_interruptible job
  then "InvalidSpotInstanceRequestID.NotFound"
  else "InvalidInstanceID.NotFound".

(** The message of a head for a job with no request id. *)
Definition not_specified (job : Job.t) : string :=
  if job_interruptible job
  then "The spot instance request ID is not specified"
  else "The instance ID is not specified".

Definition instance_state (name : string) : string -> list (list Ec2.Instance) :=
  fun request_id => [[Ec2.mkInstance request_id name]].

Definition instance_not_found : exn :=
  ClientError
    (Some (mkErrorDict (Some "InvalidInstanceID.NotFound")
             (Some "The instance ID 'i-0123' does not exist"))).

(** A runner that was created but never launched, and its job. *)
Definition job_unlaunched : Job.t :=
  Job.mk "job-6" "github.com/acme/repo" JobStatus.SUBMITTED None
         (Some "9b1d") None None None.

Definition runner_unlaunched : Runner.t :=
  Runner.mk "9b1d" None (Resources.mk 2 4096 (Some []) (Some false) (Some false))
            job_unlaunched.

(** ** Teardown *)

(** The provider calls [_stop_runner] makes for a runner when none fails:
    none without a request id or for a local runner; for an interruptible
    runner the cancellation of the spot request and, if the request has an
    instance, its termination; else the termination of the instance. *)
Definition teardown_calls (env : Env) (runner : Runner.t)
    : list (Event (JobData env)) :=
  match nonempty (Runner.request_id runner) with
  | Some request_id =>
    if truthy_bool (Resources.local (Runner.resources runner)) then []
    else if truthy_bool (Resources.interruptible (Runner.resources runner)) then
      ec2_cancel_spot_instance_requests [request_id]
      :: match describe_instances_of_spot_request env request_id with
         | (instance :: _) :: _ => [ec2_terminate_instances [Ec2.InstanceId instance]]
         | _ => []
         end
    else [ec2_terminate_instances [request_id]]
  | None => []
  end.

(** A spot runner whose request has an instance, and a local runner. *)
Definition runner_spot : Runner.t :=
  Runner.mk "c41a" (Some "sir-42")
            (Resources.mk 8 62464 (Some [gpu_v100]) (Some true) (Some false))
            job_on_spot.

Definition runner_local : Runner.t :=
  Runner.mk "d00d" (Some "4711")
            (Resources.mk 8 16384 None (Some false) (Some true)) job_running.

Definition spot_instance : string -> list (list Ec2.Instance) :=
  fun _ => [[Ec2.mkInstance "i-0789" "running"]].

(** A running job with its runner in the store, seen as running by the
    provider ([busy]). *)
Definition job_live : Job.t :=
  Job.mk "job-7" "github.com/acme/repo" JobStatus.RUNNING None
         (Some "e5f6") (Some "i-0777") None None.

Definition runner_live : Runner.t :=
  Runner.mk "e5f6" (Some "i-0777")
            (Resources.mk 2 4096 (Some []) (Some false) (Some false)) job_live.

Definition live_world : World Job.t :=
  mkWorld 0 0
          {[ "runners/e5f6.yaml" :=
               mkS3Object (_serialize_runner (fun job => job) runner_live) [] ]}
          {[ "job-7" := JobHead.mk "job-7" JobStatus.RUNNING ]}
          {[ "job-7" := job_live ]}
          [].

(** ** More of run_job *)

(** The job as [run_job] first writes it: the runner id assigned, the rest
    as passed in. *)
Definition job_with_runner_id (env : Env) (job : Job.t) : Job.t :=
  Job.set_runner_id (Some (uuid4_hex env)) job.

(** The calls of a [run_job] that returns, for the instance type selected,
    the request id launched and the number of launch attempts that failed
    before. *)
Definition run_job_calls (env : Env) (job : Job.t) (instance_type : InstanceType.t)
    (request_id : string) (failed_attempts : nat) : list (Event (JobData env)) :=
  let key := runner_key (Some (uuid4_hex env)) in
  let runner := new_runner env job instance_type in
  ([jobs_update_job (job_with_runner_id env job);
    s3_put_object key (_serialize_runner (Job_serialize env) runner) [];
    logs_create_log_group_if_not_exists ("/dstack/runners/" +:+ bucket_name env)]
   ++ List.repeat (time_sleep CREATE_INSTANCE_RETRY_RATE_SECS) failed_attempts
   ++ [ec2_run_instances (uuid4_hex env) instance_type request_id;
       s3_put_object key
         (_serialize_runner (Job_serialize env)
            (Runner.set_request_id (Some request_id) runner))
         []])%list.

(** A submitted job nothing matches. *)
Definition job_too_large : Job.t :=
  Job.mk "job-8" "github.com/acme/repo" JobStatus.SUBMITTED (Some req_thousand_cpus)
         None None None None.

(** ** What requirements ask of a machine, said without the matcher's counts *)

(** At least [need] GPUs of the list satisfy [P]: some GPUs of the list,
    taken in their order, are at least [need] and all satisfy [P]. *)
Definition has_gpus (P : Gpu.t -> Prop) (need : Z) (gpus : list Gpu.t) : Prop :=
  exists chosen,
    sublist chosen gpus /\ need <= Z.of_nat (length chosen) /\ Forall P chosen.

(** The number of GPUs a GPU requirement asks for: its count, or one when the
    count is unset or zero. *)
Definition gpus_needed (count : option Z) : Z :=
  match count with
  | Some 0 => 1
  | Some count => count
  | None => 1
  end.

(** The GPUs of a machine, none when the list is unset. *)
Definition gpus_of (resources : Resources.t) : list Gpu.t :=
  match Resources.gpus resources with
  | Some gpus => gpus
  | None => []
  end.

(** The machine provides what the requirements ask: the CPUs and the memory
    when the bound is set and not zero, and under a GPU requirement the
    number of GPUs, as many GPUs of the name when a non-empty name is set,
    as many GPUs of at least the memory floor when a non-zero floor is set,
    and the interruptible capability when it is asked for. *)
Definition provides (resources : Resources.t) (requirements : Requirements.t) : Prop :=
  (forall cpus, Requirements.cpus requirements = Some cpus -> cpus <> 0 ->
                cpus <= Resources.cpus resources)
  /\ (forall memory_mib,
         Requirements.memory_mib requirements = Some memory_mib -> memory_mib <> 0 ->
         memory_mib <= Resources.memory_mib resources)
  /\ (forall req_gpus,
         Requirements.gpus requirements = Some req_gpus ->
         let need := gpus_needed (GpusRequirements.count req_gpus) in
         need <= Z.of_nat (length (gpus_of resources))
         /\ (forall name, GpusRequirements.name req_gpus = Some name -> name <> "" ->
                          has_gpus (fun gpu => Gpu.name gpu = name) need
                                   (gpus_of resources))
         /\ (forall floor, GpusRequirements.memory_mib req_gpus = Some floor ->
                           floor <> 0 ->
                           has_gpus (fun gpu => floor <= Gpu.memory_mib gpu) need
                                    (gpus_of resources))
         /\ (Requirements.interruptible requirements = Some true ->
             Resources.interruptible resources = Some true)).

(** Two K80 with 16000 MiB each, no name left out. *)
Definition req_two_k80 : Requirements.t :=
  Requirements.mk None None
    (Some (GpusRequirements.mk (Some 2) None (Some "K80"))) None None.

(** A launch that fails once with the transient class and then for want of
    authorization. *)
Definition launch_then_unauthorized : nat -> exn + string :=
  fun n => if (n <? 1)%nat then inl invalid_parameter else inl unauthorized.

(** A job codec that keeps the job id and forgets the rest. *)
Definition job_id_only (job : Job.t) : string := Job.job_id job.

Definition job_of_id (job_id : string) : Job.t :=
  Job.mk job_id "" JobStatus.SUBMITTED None None None None None.

(** * Properties *)

(** ** Requirement matcher *)

Lemma matches_without_requirements (resources : Resources.t) :
  _matches resources None = true.
Proof. reflexivity. Qed.

(** C1, at the input where the code departs from it: the requirement asks
    for an interruptible machine and names no GPU, the resources are not
    interruptible, and [_matches] still answers true.  The interruptible test
    sits inside the [if requirements.gpus:] block. *)
Theorem matches_skips_interruptible_without_gpus :
  Requirements.interruptible req_spot_no_gpu = Some true
  /\ Requirements.gpus req_spot_no_gpu = None
  /\ Resources.interruptible (on_demand_only []) = Some false
  /\ _matches (on_demand_only []) (Some req_spot_no_gpu) = true.
Proof. repeat split; reflexivity. Qed.

(** With a GPU requirement the test is reached: an interruptible requirement
    then matches interruptible resources only. *)
Lemma matches_interruptible_with_gpus (resources : Resources.t)
    (requirements : Requirements.t) :
  is_Some (Requirements.gpus requirements) ->
  Requirements.interruptible requirements = Some true ->
  _matches resources (Some requirements) = true ->
  Resources.interruptible resources = Some true.
Proof.
  intros [req_gpus Hgpus] Hint. unfold _matches. rewrite Hgpus, Hint.
  destruct (Resources.interruptible resources) as [[] |]; [reflexivity | |];
    cbn [truthy_bool negb andb];
    repeat match goal with
           | |- context [if ?c then false else _] => destruct c
           end; discriminate.
Qed.

(** ** Runner documents *)



(** ** Catalog order *)

Section InsertionSort.
Context {A : Type}.
Variable cmp : A -> A -> Z.
Hypothesis cmp_total : forall x y, cmp y x >= 0 -> cmp x y <= 0.
Hypothesis cmp_trans : forall x y z, cmp x y <= 0 -> cmp y z <= 0 -> cmp x z <= 0.

Let le (x y : A) : Prop := cmp x y <= 0.

Lemma insert_by_Permutation (x : A) (l : list A) :
  Permutation (x :: l) (insert_by cmp x l).
Proof.
  induction l as [| y l IH]; cbn; [reflexivity |].
  destruct (cmp y x <? 0); [| reflexivity].
  rewrite perm_swap. now apply perm_skip.
Qed.

Lemma sorted_Permutation (l : list A) : Permutation l (sorted cmp l).
Proof.
  induction l as [| x l IH]; cbn; [constructor |].
  rewrite <- insert_by_Permutation. now apply perm_skip.
Qed.

Lemma insert_by_StronglySorted (x : A) (l : list A) :
  StronglySorted le l -> StronglySorted le (insert_by cmp x l).
Proof.
  induction 1 as [| y l Hsorted IH Hall]; cbn.
  - repeat constructor.
  - destruct (Z.ltb_spec (cmp y x) 0) as [Hlt | Hge].
    + constructor; [exact IH |].
      rewrite <- (insert_by_Permutation x l). constructor; [unfold le; lia | exact Hall].
    + assert (Hxy : le x y) by (apply cmp_total; lia).
      constructor; [now constructor |].
      constructor; [exact Hxy |].
      eapply Forall_impl; [exact Hall |]. intros z Hyz. now apply cmp_trans with y.
Qed.

Lemma sorted_StronglySorted (l : list A) : StronglySorted le (sorted cmp l).
Proof.
  induction l as [| x l IH]; cbn; [constructor |].
  now apply insert_by_StronglySorted.
Qed.
End InsertionSort.

Lemma compare_total (i1 i2 : InstanceType.t) : compare i2 i1 >= 0 -> compare i1 i2 <= 0.
Proof.
  unfold compare. rewrite !Z.gtb_ltb.
  repeat match goal with
         | |- context [?a <? ?b] => destruct (Z.ltb_spec a b)
         end; lia.
Qed.

Lemma compare_trans (i1 i2 i3 : InstanceType.t) :
  compare i1 i2 <= 0 -> compare i2 i3 <= 0 -> compare i1 i3 <= 0.
Proof.
  unfold compare. rewrite !Z.gtb_ltb.
  repeat match goal with
         | |- context [?a <? ?b] => destruct (Z.ltb_spec a b)
         end; lia.
Qed.

(** The comparator orders by total GPU memory, then CPUs, then memory. *)
Lemma compare_le_iff (i1 i2 : InstanceType.t) :
  compare i1 i2 <= 0 <->
  let r1 := InstanceType.resources i1 in
  let r2 := InstanceType.resources i2 in
  gpu_total_memory_mib i1 < gpu_total_memory_mib i2
  \/ (gpu_total_memory_mib i1 = gpu_total_memory_mib i2
      /\ (Resources.cpus r1 < Resources.cpus r2
          \/ (Resources.cpus r1 = Resources.cpus r2
              /\ Resources.memory_mib r1 <= Resources.memory_mib r2))).
Proof.
  unfold compare. rewrite !Z.gtb_ltb. cbv zeta.
  repeat match goal with
         | |- context [?a <? ?b] => destruct (Z.ltb_spec a b)
         end; lia.
Qed.

Lemma find_first {A : Type} (f : A -> bool) (l : list A) (x : A) :
  List.find f l = Some x ->
  exists before after,
    l = (before ++ x :: after)%list
    /\ f x = true
    /\ Forall (fun y => f y = false) before.
Proof.
  induction l as [| y l IH]; cbn; [discriminate |].
  destruct (f y) eqn:Hy.
  - intros [= ->]. exists [], l. repeat split; [exact Hy | constructor].
  - intros Hfind. destruct (IH Hfind) as (before & after & -> & Hx & Hall).
    exists (y :: before), after. repeat split; [exact Hx | now constructor].
Qed.

(** ** Selection *)

Lemma get_instance_types_sorted (env : Env) (fuel : nat)
    (w w' : World (JobData env)) (catalog : list InstanceType.t) :
  _get_instance_types env fuel w = (Return catalog, w') ->
  StronglySorted (fun i1 i2 => compare i1 i2 <= 0) catalog.
Proof.
  unfold _get_instance_types, mbind, M_bind, bind.
  destruct (_get_instance_types_loop env fuel None [] w) as [[fetched | | |] w1];
    try discriminate.
  intros [= <- _]. apply sorted_StronglySorted.
  - exact compare_total.
  - exact compare_trans.
Qed.

(** C6: when [_get_instance_type] returns an instance type, the catalog has
    been fetched and is in ascending order of [compare]; the returned value
    is built from the first catalog entry whose own resources satisfy
    [_matches]; its [interruptible] flag is the requirement's (that of
    [requirements and requirements.interruptible]) and its [local] flag is
    false, whatever the flags of the catalog entry. *)
Theorem get_instance_type_first_match (env : Env) (fuel : nat)
    (requirements : option Requirements.t) (w w' : World (JobData env))
    (chosen : InstanceType.t) :
  _get_instance_type env fuel requirements w = (Return (Some chosen), w') ->
  exists catalog before native after,
    _get_instance_types env fuel w = (Return catalog, w')
    /\ StronglySorted (fun i1 i2 => compare i1 i2 <= 0) catalog
    /\ catalog = (before ++ native :: after)%list
    /\ Forall (fun i => _matches (InstanceType.resources i) requirements = false)
              before
    /\ _matches (InstanceType.resources native) requirements = true
    /\ InstanceType.instance_name chosen = InstanceType.instance_name native
    /\ Resources.cpus (InstanceType.resources chosen)
       = Resources.cpus (InstanceType.resources native)
    /\ Resources.memory_mib (InstanceType.resources chosen)
       = Resources.memory_mib (InstanceType.resources native)
    /\ Resources.gpus (InstanceType.resources chosen)
       = Resources.gpus (InstanceType.resources native)
    /\ Resources.interruptible (InstanceType.resources chosen)
       = match requirements with
         | Some requirements => Requirements.interruptible requirements
         | None => None
         end
    /\ Resources.local (InstanceType.resources chosen) = Some false.
Proof.
  unfold _get_instance_type, mbind, M_bind, bind.
  destruct (_get_instance_types env fuel w) as [[catalog | | |] w1] eqn:Hcatalog;
    try discriminate.
  unfold ret.
  destruct (List.find _ catalog) as [native |] eqn:Hfind; [| discriminate].
  intros [= <- <-].
  destruct (find_first _ _ _ Hfind) as (before & after & Hsplit & Hnative & Hbefore).
  exists catalog, before, native, after.
  split; [reflexivity |].
  split; [exact (get_instance_types_sorted _ _ _ _ _ Hcatalog) |].
  repeat split; assumption.
Qed.

(** Two pages of instance types, one GPU of 16000 MiB asked for: the smaller
    GPU machine is chosen, behind the machine without GPU. *)
Lemma get_instance_type_first_match_scenario :
  exists catalog before native after,
    _get_instance_types quiet 2 empty_world = (Return catalog, mkWorld 2 0 ∅ ∅ ∅ [])
    /\ StronglySorted (fun i1 i2 => compare i1 i2 <= 0) catalog
    /\ catalog = (before ++ native :: after)%list
    /\ Forall (fun i => _matches (InstanceType.resources i) (Some req_one_gpu_spot)
                        = false) before
    /\ _matches (InstanceType.resources native) (Some req_one_gpu_spot) = true
    /\ "p3.2xlarge" = InstanceType.instance_name native
    /\ 8 = Resources.cpus (InstanceType.resources native)
    /\ 62464 = Resources.memory_mib (InstanceType.resources native)
    /\ Some [gpu_v100] = Resources.gpus (InstanceType.resources native)
    /\ Some true = Some true
    /\ Some false = Some false.
Proof.
  apply (get_instance_type_first_match quiet 2 (Some req_one_gpu_spot) empty_world
           (mkWorld 2 0 ∅ ∅ ∅ []) p3_spot).
  vm_compute. reflexivity.
Defined.

(** ** Launch retry *)

Section Retry.
Variable env : Env.
Variable runner_id : string.
Variable instance_type : InstanceType.t.

Lemma after_failed_attempts_0 (w : World (JobData env)) :
  after_failed_attempts 0 w = w.
Proof.
  destruct w. unfold after_failed_attempts. cbn.
  rewrite Nat.add_0_r, app_nil_r. reflexivity.
Qed.

Lemma after_failed_attempts_S (k : nat) (w : World (JobData env)) :
  after_failed_attempts k
    (emit (time_sleep CREATE_INSTANCE_RETRY_RATE_SECS) (count_launch w))
  = after_failed_attempts (S k) w.
Proof.
  destruct w. unfold after_failed_attempts, emit, count_launch. cbn.
  rewrite <- app_assoc. cbn. rewrite Nat.add_succ_r. reflexivity.
Qed.

(** One attempt that fails with the transient class and has retries left. *)
Lemma retry_step (attempts : nat) (w : World (JobData env)) (e : exn) :
  launch_outcome env (launches w) = inl e ->
  transient e ->
  _run_instance_retry_from env (S attempts) runner_id instance_type w
  = _run_instance_retry_from env attempts runner_id instance_type
      (emit (time_sleep CREATE_INSTANCE_RETRY_RATE_SECS) (count_launch w)).
Proof.
  intros Hout Hcode. cbn [_run_instance_retry_from].
  unfold try_except at 1. unfold _run_instance at 1. rewrite Hout, Hcode.
  reflexivity.
Qed.

(** [k] transient failures in a row, with at least [k] retries allowed. *)
Lemma retry_prefix (k attempts : nat) (w : World (JobData env)) :
  (forall i, (i < k)%nat ->
             exists e, launch_outcome env (launches w + i) = inl e /\ transient e) ->
  _run_instance_retry_from env (k + attempts) runner_id instance_type w
  = _run_instance_retry_from env attempts runner_id instance_type
      (after_failed_attempts k w).
Proof.
  revert w. induction k as [| k IH]; intros w Hfail.
  - now rewrite after_failed_attempts_0.
  - destruct (Hfail 0%nat ltac:(lia)) as (e & Hout & Hcode).
    rewrite Nat.add_0_r in Hout.
    change (S k + attempts)%nat with (S (k + attempts)).
    rewrite (retry_step _ _ _ Hout Hcode), IH, after_failed_attempts_S; [reflexivity |].
    intros i Hi. destruct (Hfail (S i) ltac:(lia)) as (e' & Hout' & Hcode').
    exists e'. split; [| exact Hcode'].
    cbn. rewrite <- Hout'. f_equal. lia.
Qed.

Lemma retry_success (attempts : nat) (w : World (JobData env)) (request_id : string) :
  launch_outcome env (launches w) = inr request_id ->
  _run_instance_retry_from env attempts runner_id instance_type w
  = (Return request_id,
     emit (ec2_run_instances runner_id instance_type request_id) (count_launch w)).
Proof.
  intros Hout. destruct attempts; cbn [_run_instance_retry_from];
    unfold try_except, _run_instance; rewrite Hout; reflexivity.
Qed.

Lemma retry_other_error (attempts : nat) (w : World (JobData env)) (e : exn) :
  launch_outcome env (launches w) = inl e ->
  has_error_code e "InvalidParameterValue" = false ->
  _run_instance_retry_from env attempts runner_id instance_type w
  = (Raise e, count_launch w).
Proof.
  intros Hout Hcode. destruct attempts; cbn [_run_instance_retry_from];
    unfold try_except, _run_instance; rewrite Hout, Hcode; reflexivity.
Qed.

Lemma retry_exhausted (w : World (JobData env)) (e : exn) :
  launch_outcome env (launches w) = inl e ->
  transient e ->
  _run_instance_retry_from env 0 runner_id instance_type w
  = (Raise (Exception [ArgStr "Failed to retry"; ArgExn e]), count_launch w).
Proof.
  intros Hout Hcode. cbn [_run_instance_retry_from].
  unfold try_except, _run_instance. rewrite Hout, Hcode. reflexivity.
Qed.
End Retry.

(** C3, as the code has it.  With the default three retries: (1) two
    failures of the transient class and then a success return the request
    id after exactly three attempts and two delays; (2) four failures of the
    transient class raise, after exactly four attempts and three delays, an
    [Exception] whose arguments are the text "Failed to retry" and the last
    underlying error; (3) a failure of any other class, at the first attempt
    or after up to three failures of the transient class, is raised
    unchanged at once: after that attempt, with one delay for each
    transient failure before it and none after it. *)
Theorem run_instance_retry_policy (env : Env) (runner_id : string)
    (instance_type : InstanceType.t) (w : World (JobData env)) :
  (forall e1 e2 request_id,
      launch_outcome env (launches w) = inl e1 -> transient e1 ->
      launch_outcome env (launches w + 1) = inl e2 -> transient e2 ->
      launch_outcome env (launches w + 2) = inr request_id ->
      exists w',
        _run_instance_retry env runner_id instance_type default_attempts w
        = (Return request_id, w')
        /\ launches w' = (launches w + 3)%nat
        /\ trace w' = (trace w ++ [time_sleep 3; time_sleep 3;
                                    ec2_run_instances runner_id instance_type
                                                      request_id])%list)
  /\ (forall e1 e2 e3 e4,
         launch_outcome env (launches w) = inl e1 -> transient e1 ->
         launch_outcome env (launches w + 1) = inl e2 -> transient e2 ->
         launch_outcome env (launches w + 2) = inl e3 -> transient e3 ->
         launch_outcome env (launches w + 3) = inl e4 -> transient e4 ->
         exists w',
           _run_instance_retry env runner_id instance_type default_attempts w
           = (Raise (Exception [ArgStr "Failed to retry"; ArgExn e4]), w')
           /\ launches w' = (launches w + 4)%nat
           /\ trace w' = (trace w ++ [time_sleep 3; time_sleep 3; time_sleep 3])%list)
  /\ (forall (k : nat) e,
         (k <= 3)%nat ->
         (forall i, (i < k)%nat ->
                    exists e', launch_outcome env (launches w + i) = inl e'
                               /\ transient e') ->
         launch_outcome env (launches w + k) = inl e ->
         has_error_code e "InvalidParameterValue" = false ->
         exists w',
           _run_instance_retry env runner_id instance_type default_attempts w
           = (Raise e, w')
           /\ launches w' = (launches w + k + 1)%nat
           /\ trace w' = (trace w ++ List.repeat (time_sleep 3) k)%list).
Proof.
  unfold _run_instance_retry, default_attempts.
  change (Z.to_nat 3) with 3%nat.
  split; [| split].
  - intros e1 e2 request_id H1 T1 H2 T2 H3.
    change 3%nat with (2 + 1)%nat at 1. rewrite retry_prefix.
    + rewrite (retry_success _ _ _ _ _ request_id) by exact H3.
      eexists. split; [reflexivity |]. cbn. rewrite <- app_assoc.
      split; [lia | reflexivity].
    + intros i Hi. destruct i as [| [| i]]; [| | lia].
      * exists e1. now rewrite Nat.add_0_r.
      * now exists e2.
  - intros e1 e2 e3 e4 H1 T1 H2 T2 H3 T3 H4 T4.
    change 3%nat with (3 + 0)%nat at 1. rewrite retry_prefix.
    + rewrite (retry_exhausted _ _ _ _ e4) by assumption.
      eexists. split; [reflexivity |]. cbn. split; [lia | reflexivity].
    + intros i Hi. destruct i as [| [| [| i]]]; [| | | lia].
      * exists e1. now rewrite Nat.add_0_r.
      * now exists e2.
      * now exists e3.
  - intros k e Hk Hfail H Hcode.
    replace 3%nat with (k + (3 - k))%nat by lia.
    rewrite retry_prefix by exact Hfail.
    rewrite (retry_other_error _ _ _ _ _ e) by assumption.
    eexists. split; [reflexivity |]. cbn. split; [lia | reflexivity].
Qed.

(** The cases on launches that succeed at the third attempt, never succeed,
    fail for want of authorization, and fail for want of authorization after
    one transient failure. *)
Lemma run_instance_retry_policy_runs :
  (exists w',
      _run_instance_retry (deployment_launching launch_third_time) "0af3" p3_spot
                          default_attempts empty_world
      = (Return "i-0123", w')
      /\ launches w' = 3%nat
      /\ trace w' = [time_sleep 3; time_sleep 3;
                     ec2_run_instances "0af3" p3_spot "i-0123"])
  /\ (exists w',
         _run_instance_retry (deployment_launching launch_never) "0af3" p3_spot
                             default_attempts empty_world
         = (Raise (Exception [ArgStr "Failed to retry"; ArgExn invalid_parameter]), w')
         /\ launches w' = 4%nat
         /\ trace w' = [time_sleep 3; time_sleep 3; time_sleep 3])
  /\ (exists w',
         _run_instance_retry (deployment_launching launch_unauthorized) "0af3" p3_spot
                             default_attempts empty_world
         = (Raise unauthorized, w')
         /\ launches w' = 1%nat
         /\ trace w' = [])
  /\ (exists w',
         _run_instance_retry (deployment_launching launch_then_unauthorized) "0af3"
                             p3_spot default_attempts empty_world
         = (Raise unauthorized, w')
         /\ launches w' = 2%nat
         /\ trace w' = [time_sleep 3]).
Proof.
  split; [| split; [| split]].
  - apply (proj1 (run_instance_retry_policy
                    (deployment_launching launch_third_time) "0af3" p3_spot empty_world)
             invalid_parameter invalid_parameter "i-0123"); reflexivity.
  - apply (proj1 (proj2 (run_instance_retry_policy
                           (deployment_launching launch_never) "0af3" p3_spot
                           empty_world))
             invalid_parameter invalid_parameter invalid_parameter invalid_parameter);
      reflexivity.
  - apply (proj2 (proj2 (run_instance_retry_policy
                           (deployment_launching launch_unauthorized) "0af3" p3_spot
                           empty_world))
             0%nat unauthorized); [lia | intros i Hi; lia | reflexivity ..].
  - apply (proj2 (proj2 (run_instance_retry_policy
                           (deployment_launching launch_then_unauthorized) "0af3"
                           p3_spot empty_world))
             1%nat unauthorized); [lia | | reflexivity ..].
    intros i Hi. destruct i as [| i]; [| lia].
    exists invalid_parameter. split; reflexivity.
Defined.

(** C3 as stated fails where it says that the failure raised after the last
    retry carries the retry count: when every attempt fails with the
    transient class, four attempts are made and the exception raised holds
    no number at all. *)
Lemma retry_failure_carries_no_count :
  exists e w',
    _run_instance_retry (deployment_launching launch_never) "0af3" p3_spot
                        default_attempts empty_world
    = (Raise e, w')
    /\ launches w' = 4%nat
    /\ ~ carries_count e.
Proof.
  eexists. eexists. split; [reflexivity |]. split; [reflexivity |].
  intros (args & n & [= <-] & Hin). cbn in Hin.
  destruct Hin as [H | [H | []]]; discriminate.
Qed.

(** ** Request status translator *)

Lemma in_list_In (x : string) (l : list string) : in_list x l = true -> In x l.
Proof.
  unfold in_list. rewrite existsb_exists. intros (y & Hin & Heq).
  apply String.eqb_eq in Heq. now subst.
Qed.

Ltac code_in_list H :=
  apply in_list_In in H; cbn [In] in H;
  repeat (destruct H as [<- | H]; [reflexivity |]); contradiction.

Lemma spot_request_status_running (code : string) :
  in_list code ["fulfilled"; "request-canceled-and-instance-running"] = true ->
  spot_request_status code = Some RequestStatus.RUNNING.
Proof. intros H. code_in_list H. Qed.

Lemma spot_request_status_pending (code : string) :
  in_list code ["not-scheduled-yet"; "pending-evaluation"; "pending-fulfillment"]
  = true ->
  spot_request_status code = Some RequestStatus.PENDING.
Proof. intros H. code_in_list H. Qed.

Lemma spot_request_status_no_capacity (code : string) :
  in_list code
    ["capacity-not-available"; "instance-stopped-no-capacity";
     "instance-terminated-by-price"; "instance-stopped-by-price";
     "instance-terminated-no-capacity"; "limit-exceeded"; "price-too-low"] = true ->
  spot_request_status code = Some RequestStatus.NO_CAPACITY.
Proof. intros H. code_in_list H. Qed.

Lemma spot_request_status_terminated (code : string) :
  in_list code
    ["instance-terminated-by-user"; "instance-stopped-by-user";
     "canceled-before-fulfillment"; "instance-terminated-by-schedule";
     "instance-terminated-by-service"; "spot-instance-terminated-by-user";
     "marked-for-stop"; "marked-for-termination"] = true ->
  spot_request_status code = Some RequestStatus.TERMINATED.
Proof. intros H. code_in_list H. Qed.

Lemma spot_request_status_unknown (code : string) :
  in_list code known_spot_codes = false -> spot_request_status code = None.
Proof.
  unfold in_list, known_spot_codes. cbn [existsb]. intros H.
  repeat (apply orb_false_elim in H; destruct H as [? H]).
  unfold spot_request_status, in_list. cbn [existsb].
  repeat match goal with
         | E : String.eqb code _ = false |- _ => rewrite E; clear E
         end.
  reflexivity.
Qed.

(** What [get_request_head] does once the request id is known and the job
    is interruptible: it is [spot_request_head]. *)
Lemma get_request_head_interruptible (env : Env) (job : Job.t)
    (runner : option Runner.t) (w w1 : World (JobData env)) (request_id : string) :
  job_interruptible job = true ->
  resolve_request_id env job runner w = (Return (Some request_id), w1) ->
  request_id <> "" ->
  get_request_head env job runner w = spot_request_head env job request_id w1.
Proof.
  intros Hint Hresolve Hne. unfold get_request_head.
  unfold job_interruptible in Hint. rewrite Hint.
  unfold mbind, M_bind, bind. rewrite Hresolve. cbn [nonempty].
  destruct (String.eqb_spec request_id ""); [contradiction | reflexivity].
Qed.

Lemma spot_request_head_mapped (env : Env) (job : Job.t) (request_id : string)
    (w : World (JobData env)) (status : Ec2.SpotStatus) (rest : list Ec2.SpotStatus)
    (Hfault : faults env (clock w) = None)
    (Hdescribe : describe_spot_instance_requests env request_id = status :: rest)
    (request_status : RequestStatus.t) :
  spot_request_status (Ec2.Code status) = Some request_status ->
  spot_request_head env job request_id w
  = (Return (RequestHead.mk (Job.job_id job) request_status (Ec2.Message status)),
     tick w).
Proof.
  intros Hstatus.
  unfold spot_request_head, try_except, mbind, M_bind, bind,
    ec2_describe_spot_instance_requests, call.
  rewrite Hfault, Hdescribe, Hstatus. reflexivity.
Qed.

(** C4: for an interruptible job whose request id is known, the head
    [get_request_head] returns follows the table of spot status codes:
    "fulfilled" gives RUNNING, "price-too-low" gives NO_CAPACITY,
    "instance-terminated-by-user" gives TERMINATED, and so for every code of
    the four lists; an empty list of spot requests gives TERMINATED; a
    provider error of code InvalidSpotInstanceRequestID.NotFound gives
    TERMINATED with the provider's message; a code outside the table raises
    an exception, which the surrounding [except] lets through. *)
Theorem get_request_head_spot_table (env : Env) (job : Job.t)
    (runner : option Runner.t) (w w1 : World (JobData env)) (request_id : string) :
  job_interruptible job = true ->
  resolve_request_id env job runner w = (Return (Some request_id), w1) ->
  request_id <> "" ->
  (forall status rest,
      faults env (clock w1) = None ->
      describe_spot_instance_requests env request_id = status :: rest ->
      let head request_status :=
        (Return (RequestHead.mk (Job.job_id job) request_status (Ec2.Message status)),
         tick w1) in
      (Ec2.Code status = "fulfilled" ->
       get_request_head env job runner w = head RequestStatus.RUNNING)
      /\ (Ec2.Code status = "price-too-low" ->
          get_request_head env job runner w = head RequestStatus.NO_CAPACITY)
      /\ (Ec2.Code status = "instance-terminated-by-user" ->
          get_request_head env job runner w = head RequestStatus.TERMINATED)
      /\ (in_list (Ec2.Code status)
            ["fulfilled"; "request-canceled-and-instance-running"] = true ->
          get_request_head env job runner w = head RequestStatus.RUNNING)
      /\ (in_list (Ec2.Code status)
            ["not-scheduled-yet"; "pending-evaluation"; "pending-fulfillment"]
          = true ->
          get_request_head env job runner w = head RequestStatus.PENDING)
      /\ (in_list (Ec2.Code status)
            ["capacity-not-available"; "instance-stopped-no-capacity";
             "instance-terminated-by-price"; "instance-stopped-by-price";
             "instance-terminated-no-capacity"; "limit-exceeded"; "price-too-low"]
          = true ->
          get_request_head env job runner w = head RequestStatus.NO_CAPACITY)
      /\ (in_list (Ec2.Code status)
            ["instance-terminated-by-user"; "instance-stopped-by-user";
             "canceled-before-fulfillment"; "instance-terminated-by-schedule";
             "instance-terminated-by-service"; "spot-instance-terminated-by-user";
             "marked-for-stop"; "marked-for-termination"] = true ->
          get_request_head env job runner w = head RequestStatus.TERMINATED)
      /\ (in_list (Ec2.Code status) known_spot_codes = false ->
          get_request_head env job runner w
          = (Raise (Exception
                      [ArgStr ("Unsupported EC2 spot instance request status code: "
                               +:+ Ec2.Code status)]),
             tick w1)))
  /\ (faults env (clock w1) = None ->
      describe_spot_instance_requests env request_id = [] ->
      get_request_head env job runner w
      = (Return (RequestHead.mk (Job.job_id job) RequestStatus.TERMINATED None),
         tick w1))
  /\ (forall e,
         faults env (clock w1) = Some e ->
         has_error_code e "InvalidSpotInstanceRequestID.NotFound" = true ->
         get_request_head env job runner w
         = (Return (RequestHead.mk (Job.job_id job) RequestStatus.TERMINATED
                                   (error_message e)),
            tick w1)).
Proof.
  intros Hint Hresolve Hne.
  rewrite (get_request_head_interruptible _ _ _ _ _ _ Hint Hresolve Hne).
  split; [| split].
  - intros status rest Hfault Hdescribe. cbv zeta.
    pose proof (spot_request_head_mapped env job request_id w1 status rest
                  Hfault Hdescribe) as Hmapped.
    repeat split; intros Hcode.
    + apply Hmapped. now rewrite Hcode.
    + apply Hmapped. now rewrite Hcode.
    + apply Hmapped. now rewrite Hcode.
    + apply Hmapped. now apply spot_request_status_running.
    + apply Hmapped. now apply spot_request_status_pending.
    + apply Hmapped. now apply spot_request_status_no_capacity.
    + apply Hmapped. now apply spot_request_status_terminated.
    + apply spot_request_status_unknown in Hcode.
      unfold spot_request_head, try_except, mbind, M_bind, bind,
        ec2_describe_spot_instance_requests, call.
      rewrite Hfault, Hdescribe, Hcode. reflexivity.
  - intros Hfault Hdescribe.
    unfold spot_request_head, try_except, mbind, M_bind, bind,
      ec2_describe_spot_instance_requests, call.
    rewrite Hfault, Hdescribe. reflexivity.
  - intros e Hfault Hcode.
    unfold spot_request_head, try_except, mbind, M_bind, bind,
      ec2_describe_spot_instance_requests, call.
    rewrite Hfault, Hcode. reflexivity.
Qed.

(** Spot request sir-42 polled under four status codes, with no spot request
    listed, and with the provider answering that the id does not exist. *)
Lemma get_request_head_spot_table_runs :
  let poll code :=
    get_request_head (deployment no_faults (spot_code code) no_instances launch_ok)
                     job_on_spot None empty_world in
  let head request_status message :=
    (Return (RequestHead.mk "job-1" request_status message), tick empty_world) in
  poll "fulfilled" = head RequestStatus.RUNNING (Some "status message")
  /\ poll "price-too-low" = head RequestStatus.NO_CAPACITY (Some "status message")
  /\ poll "instance-terminated-by-user"
     = head RequestStatus.TERMINATED (Some "status message")
  /\ poll "bad-parameters"
     = (Raise (Exception
                 [ArgStr "Unsupported EC2 spot instance request status code: bad-parameters"]),
        tick empty_world)
  /\ get_request_head quiet job_on_spot None empty_world
     = head RequestStatus.TERMINATED None
  /\ get_request_head
       (deployment (fault_at 0 spot_not_found) no_spot_requests no_instances launch_ok)
       job_on_spot None empty_world
     = head RequestStatus.TERMINATED
            (Some "The spot instance request ID does not exist").
Proof.
  assert (Hne : "sir-42" <> "") by discriminate.
  pose proof (fun faults spot_requests =>
                get_request_head_spot_table
                  (deployment faults spot_requests no_instances launch_ok)
                  job_on_spot None empty_world empty_world "sir-42"
                  eq_refl eq_refl Hne)
    as table.
  cbv zeta. refine (conj _ (conj _ (conj _ (conj _ (conj _ _))))).
  - apply (proj1 (table no_faults (spot_code "fulfilled")) _ _ eq_refl eq_refl);
      reflexivity.
  - apply (proj1 (table no_faults (spot_code "price-too-low")) _ _ eq_refl eq_refl);
      reflexivity.
  - apply (proj1 (table no_faults (spot_code "instance-terminated-by-user"))
             _ _ eq_refl eq_refl); reflexivity.
  - apply (proj1 (table no_faults (spot_code "bad-parameters")) _ _ eq_refl eq_refl);
      reflexivity.
  - apply (proj1 (proj2 (table no_faults no_spot_requests))); reflexivity.
  - apply (proj2 (proj2 (table (fault_at 0 spot_not_found) no_spot_requests))
             spot_not_found); reflexivity.
Defined.

(** ** Reads write nothing *)

Section ReadOnly.
Variable env : Env.

Lemma same_state_refl (w : World (JobData env)) : same_state w w.
Proof. repeat split. Qed.

Lemma same_state_trans (w1 w2 w3 : World (JobData env)) :
  same_state w1 w2 -> same_state w2 w3 -> same_state w1 w3.
Proof.
  unfold same_state. intros (? & ? & ? & ? & ?) (? & ? & ? & ? & ?).
  repeat split; congruence.
Qed.

Lemma read_only_ret {A : Type} (a : A) : read_only (@ret (World (JobData env)) A a).
Proof. intros w. apply same_state_refl. Qed.

Lemma read_only_raise {A : Type} (e : exn) :
  read_only (@raise (World (JobData env)) A e).
Proof. intros w. apply same_state_refl. Qed.

Lemma read_only_bind {A B : Type} (m : M (World (JobData env)) A)
    (k : A -> M (World (JobData env)) B) :
  read_only m -> (forall a, read_only (k a)) -> read_only (m ≫= k).
Proof.
  intros Hm Hk w. unfold mbind, M_bind, bind. specialize (Hm w).
  destruct (m w) as [[a | e | msg |] w1]; cbn in *; try exact Hm.
  eapply same_state_trans; [exact Hm | apply Hk].
Qed.

Lemma read_only_try_except {A : Type} (body : M (World (JobData env)) A)
    (handler : exn -> M (World (JobData env)) A) :
  read_only body -> (forall e, read_only (handler e)) ->
  read_only (try_except body handler).
Proof.
  intros Hbody Hhandler w. unfold try_except. specialize (Hbody w).
  destruct (body w) as [[a | e | msg |] w1]; cbn in *; try exact Hbody.
  eapply same_state_trans; [exact Hbody | apply Hhandler].
Qed.

Lemma read_only_call {A : Type}
    (answer : World (JobData env) -> outcome A * World (JobData env)) :
  (forall w, snd (answer w) = w) -> read_only (call env answer).
Proof.
  intros Hanswer w. unfold call.
  destruct (faults env (clock w)); cbn; [repeat split |].
  rewrite Hanswer. repeat split.
Qed.

Lemma read_only_get_runner (runner_id : option string) :
  read_only (_get_runner env runner_id).
Proof.
  unfold _get_runner. apply read_only_try_except.
  - apply read_only_bind; [| intros; apply read_only_ret].
    apply read_only_call. intros w. now destruct (objects w !! _).
  - intros e. destruct (has_error_code e _);
      [apply read_only_ret | apply read_only_raise].
Qed.

Lemma read_only_resolve_request_id (job : Job.t) (runner : option Runner.t) :
  read_only (resolve_request_id env job runner).
Proof.
  unfold resolve_request_id.
  destruct (truthy_str _); [apply read_only_ret |].
  destruct (and_then _ _); [apply read_only_ret |].
  destruct (is_None _); [| apply read_only_ret].
  apply read_only_bind; [apply read_only_get_runner |].
  intros [r |]; apply read_only_ret.
Qed.

Lemma read_only_get_request_head (job : Job.t) (runner : option Runner.t) :
  read_only (get_request_head env job runner).
Proof.
  unfold get_request_head.
  apply read_only_bind; [apply read_only_resolve_request_id |].
  intros request_id. destruct (nonempty request_id) as [rid |];
    [| apply read_only_ret].
  destruct (and_then _ _).
  - unfold spot_request_head. apply read_only_try_except.
    + apply read_only_bind; [now apply read_only_call |].
      intros [| status rest]; [apply read_only_ret |].
      destruct (spot_request_status _); [apply read_only_ret | apply read_only_raise].
    + intros e. destruct (has_error_code e _);
        [apply read_only_ret | apply read_only_raise].
  - unfold instance_request_head. apply read_only_try_except.
    + apply read_only_bind; [now apply read_only_call |].
      intros [| [| instance rest] rest']; try apply read_only_ret.
      destruct (instance_request_status _);
        [apply read_only_ret | apply read_only_raise].
    + intros e. destruct (has_error_code e _);
        [apply read_only_ret | apply read_only_raise].
Qed.

Lemma read_only_stop_job_reads (job_id : string) :
  read_only (stop_job_reads env job_id).
Proof.
  unfold stop_job_reads.
  apply read_only_bind; [now apply read_only_call |]. intros job_head.
  apply read_only_bind; [now apply read_only_call |]. intros job.
  apply read_only_bind.
  { destruct job; [apply read_only_get_runner | apply read_only_ret]. }
  intros runner. apply read_only_bind; [| intros; apply read_only_ret].
  destruct job; [| apply read_only_ret].
  apply read_only_bind; [apply read_only_get_request_head |].
  intros; apply read_only_ret.
Qed.
End ReadOnly.

(** ** stop_job *)

Lemma stop_job_after_reads (env : Env) (job_id : string) (abort : bool)
    (w w1 : World (JobData env)) (job_head : option JobHead.t) (job : option Job.t)
    (runner : option Runner.t) (request_status : RequestStatus.t) :
  stop_job_reads env job_id w = (Return (job_head, job, runner, request_status), w1) ->
  stop_job env job_id abort w
  = (if anything_unfinished job_head job runner request_status then
       match choose_new_status abort job_head job runner request_status with
       | Some new_status => stop_job_writes env new_status job_head job runner
       | None => ret tt
       end
     else ret tt) w1.
Proof.
  intros Hreads. unfold stop_job, mbind, M_bind, bind. rewrite Hreads. reflexivity.
Qed.

(** C2: when the job head, the job record and the runner's embedded job are
    each absent or finished and the live request status is TERMINATED,
    [stop_job] returns without a single write: stores, launch count and
    trace of mutating calls are those it found (no job update, no runner
    update or deletion, no teardown call).  A second [stop_job] on a job the
    first one stopped is such a call. *)
Theorem stop_job_nothing_unfinished (env : Env) (job_id : string) (abort : bool)
    (w w1 : World (JobData env)) (job_head : option JobHead.t) (job : option Job.t)
    (runner : option Runner.t) (request_status : RequestStatus.t) :
  stop_job_reads env job_id w = (Return (job_head, job, runner, request_status), w1) ->
  (forall h, job_head = Some h -> JobStatus.is_finished (JobHead.status h) = true) ->
  (forall j, job = Some j -> JobStatus.is_finished (Job.status j) = true) ->
  (forall r, runner = Some r ->
             JobStatus.is_finished (Job.status (Runner.job r)) = true) ->
  request_status = RequestStatus.TERMINATED ->
  stop_job env job_id abort w = (Return tt, w1) /\ same_state w w1.
Proof.
  intros Hreads Hhead Hjob Hrunner ->. split.
  - rewrite (stop_job_after_reads _ _ _ _ _ _ _ _ _ Hreads).
    replace (anything_unfinished job_head job runner RequestStatus.TERMINATED)
      with false; [reflexivity |].
    unfold anything_unfinished, JobStatus.is_unfinished.
    destruct job_head as [h |], job as [j |], runner as [r |]; cbn;
      rewrite ?(Hhead _ eq_refl), ?(Hjob _ eq_refl), ?(Hrunner _ eq_refl);
      reflexivity.
  - pose proof (read_only_stop_job_reads env job_id w) as Hro.
    now rewrite Hreads in Hro.
Qed.

(** C10: with an unfinished job head and no job record, [stop_job] issues
    its two reads and then fails with an [AttributeError] on
    [job.status = new_status], whatever [abort] is. *)
Theorem stop_job_head_without_job (env : Env) (job_id : string) (abort : bool)
    (w : World (JobData env)) (job_head : JobHead.t) :
  faults env (clock w) = None ->
  faults env (S (clock w)) = None ->
  job_heads w !! job_id = Some job_head ->
  JobStatus.is_unfinished (JobHead.status job_head) = true ->
  job_records w !! job_id = None ->
  stop_job_reads env job_id w
  = (Return (Some job_head, None, None, RequestStatus.TERMINATED), tick (tick w))
  /\ stop_job env job_id abort w
     = (Raise (AttributeError "'NoneType' object has no attribute 'status'"),
        tick (tick w)).
Proof.
  intros Hf0 Hf1 Hhead Hunfinished Hjob.
  assert (Hreads : stop_job_reads env job_id w
                   = (Return (Some job_head, None, None, RequestStatus.TERMINATED),
                      tick (tick w))).
  { unfold stop_job_reads, mbind, M_bind, bind, list_job_head, get_job, call.
    rewrite Hf0. cbn [tick clock job_heads job_records]. rewrite Hf1, Hhead, Hjob.
    reflexivity. }
  split; [exact Hreads |].
  rewrite (stop_job_after_reads _ _ _ _ _ _ _ _ _ Hreads).
  unfold anything_unfinished, choose_new_status, stop_job_writes,
    stop_job_runner_write, stop_job_job_write.
  cbn [and_then is_None orb]. rewrite Hunfinished. cbn [orb].
  unfold JobStatus.is_unfinished in Hunfinished.
  destruct abort, (JobHead.status job_head); try discriminate; reflexivity.
Qed.

(** Job job-3 has a RUNNING head and no record. *)
Lemma stop_job_head_without_job_runs :
  stop_job_reads quiet "job-3" head_only_world
  = (Return (Some (JobHead.mk "job-3" JobStatus.RUNNING), None, None,
             RequestStatus.TERMINATED),
     tick (tick head_only_world))
  /\ stop_job quiet "job-3" false head_only_world
     = (Raise (AttributeError "'NoneType' object has no attribute 'status'"),
        tick (tick head_only_world)).
Proof.
  apply (stop_job_head_without_job quiet "job-3" false head_only_world
           (JobHead.mk "job-3" JobStatus.RUNNING)); reflexivity.
Defined.

(** [stop_job] twice on a running job whose instance is gone: the first call
    terminates, deletes the runner and writes STOPPED; the second writes
    nothing. *)
Lemma stop_job_twice :
  trace stopped_once
  = [ec2_terminate_instances ["i-0123"];
     s3_delete_object "runners/0af3.yaml";
     jobs_update_job (Job.set_status JobStatus.STOPPED job_running)]
  /\ stop_job quiet "job-2" false stopped_once
     = (Return tt, snd (stop_job_reads quiet "job-2" stopped_once))
  /\ same_state stopped_once (snd (stop_job_reads quiet "job-2" stopped_once)).
Proof.
  split; [reflexivity |].
  apply (stop_job_nothing_unfinished quiet "job-2" false stopped_once
           (snd (stop_job_reads quiet "job-2" stopped_once))
           (Some (JobHead.mk "job-2" JobStatus.STOPPED))
           (Some (Job.set_status JobStatus.STOPPED job_running))
           None RequestStatus.TERMINATED).
  - vm_compute. reflexivity.
  - intros h [= <-]. reflexivity.
  - intros j [= <-]. reflexivity.
  - intros r [=].
  - reflexivity.
Defined.

Lemma unfinished_not_aborted (s : JobStatus.t) :
  JobStatus.is_unfinished s = true -> JobStatus.eqb s JobStatus.ABORTED = false.
Proof. destruct s; cbn; congruence. Qed.

Lemma stop_runner_returns (env : Env) (runner : Runner.t) (w : World (JobData env)) :
  (forall n, faults env n = None) ->
  exists w', _stop_runner env runner w = (Return tt, w').
Proof.
  intros Hnf.
  unfold _stop_runner, _cancel_spot_request, _terminate_instance, _delete_runner,
    s3_delete, ec2_cancel_spot, ec2_terminate,
    ec2_describe_instances_of_spot_request, try_except, mbind, M_bind, bind, call, ret.
  destruct (nonempty (Runner.request_id runner)) as [request_id |];
    [| rewrite Hnf; eexists; reflexivity].
  destruct (truthy_bool (Resources.local (Runner.resources runner)));
    [rewrite Hnf; eexists; reflexivity |].
  destruct (truthy_bool (Resources.interruptible (Runner.resources runner))).
  - rewrite !Hnf.
    destruct (describe_instances_of_spot_request env request_id)
      as [| [| instance rest] rest']; rewrite !Hnf; eexists; reflexivity.
  - rewrite !Hnf. eexists; reflexivity.
Qed.

(** C8: when anything is unfinished and [abort] is true, the status chosen
    is ABORTED whatever the statuses read (DOWNLOADING and UPLOADING
    included), and [stop_job] goes on to the writes for ABORTED.  If the job
    record is unfinished, then a [stop_job] that returns has ended with the
    update of the job record to ABORTED, and it does return when no call to
    the stores or the provider fails. *)
Theorem stop_job_abort (env : Env) (job_id : string)
    (w w1 : World (JobData env)) (job_head : option JobHead.t) (job : option Job.t)
    (runner : option Runner.t) (request_status : RequestStatus.t) :
  stop_job_reads env job_id w = (Return (job_head, job, runner, request_status), w1) ->
  anything_unfinished job_head job runner request_status = true ->
  choose_new_status true job_head job runner request_status = Some JobStatus.ABORTED
  /\ stop_job env job_id true w
     = stop_job_writes env JobStatus.ABORTED job_head job runner w1
  /\ (forall j,
         job = Some j ->
         JobStatus.is_unfinished (Job.status j) = true ->
         (forall w2,
             stop_job env job_id true w = (Return tt, w2) ->
             job_records w2 !! Job.job_id j
             = Some (Job.set_status JobStatus.ABORTED j)
             /\ job_heads w2 !! Job.job_id j
                = Some (JobHead.mk (Job.job_id j) JobStatus.ABORTED)
             /\ exists earlier,
                 trace w2
                 = (earlier
                      ++ [jobs_update_job (Job.set_status JobStatus.ABORTED j)])%list)
         /\ ((forall n, faults env n = None) ->
             exists w2, stop_job env job_id true w = (Return tt, w2))).
Proof.
  intros Hreads Hunfinished.
  assert (Hstop : stop_job env job_id true w
                  = stop_job_writes env JobStatus.ABORTED job_head job runner w1).
  { rewrite (stop_job_after_reads _ _ _ _ _ _ _ _ _ Hreads), Hunfinished.
    reflexivity. }
  split; [reflexivity |]. split; [exact Hstop |].
  intros j -> Hj. rewrite Hstop. clear Hstop Hreads Hunfinished.
  unfold stop_job_writes, mbind, M_bind, bind, stop_job_job_write.
  replace (and_then job_head _ || and_then (Some j) _) with true
    by (cbn [and_then]; rewrite Hj, (unfinished_not_aborted _ Hj);
        now rewrite orb_true_r).
  split.
  - intros w2.
    destruct (stop_job_runner_write env JobStatus.ABORTED runner w1)
      as [[[] | e | msg |] w1']; try discriminate.
    unfold update_job, call. destruct (faults env (clock w1')); [discriminate |].
    intros [= <-]. cbn [job_records job_heads trace emit store_job Job.set_status
                          Job.job_id Job.status].
    rewrite !lookup_insert_eq. repeat split. now eexists.
  - intros Hnf.
    assert (Hrunner : exists w1',
               stop_job_runner_write env JobStatus.ABORTED runner w1
               = (Return tt, w1')).
    { unfold stop_job_runner_write.
      destruct runner as [r |]; [| eexists; reflexivity].
      destruct (_ && _); [| eexists; reflexivity].
      cbn [JobStatus.is_finished]. now apply stop_runner_returns. }
    destruct Hrunner as (w1' & ->).
    unfold update_job, call. rewrite Hnf. eexists; reflexivity.
Qed.

(** Abort of a DOWNLOADING job without runner, and of an UPLOADING job on a
    running instance. *)
Lemma stop_job_abort_runs :
  (exists w2,
      stop_job quiet "job-4" true downloading_world = (Return tt, w2)
      /\ job_records w2 !! "job-4"
         = Some (Job.set_status JobStatus.ABORTED job_downloading))
  /\ (exists w2,
         stop_job busy "job-5" true uploading_world = (Return tt, w2)
         /\ job_records w2 !! "job-5"
            = Some (Job.set_status JobStatus.ABORTED job_uploading)).
Proof.
  split.
  - destruct (stop_job_abort quiet "job-4" downloading_world
                (snd (stop_job_reads quiet "job-4" downloading_world))
                (Some (JobHead.mk "job-4" JobStatus.DOWNLOADING))
                (Some job_downloading) None RequestStatus.TERMINATED
                eq_refl eq_refl) as (_ & _ & Hjob).
    destruct (Hjob job_downloading eq_refl eq_refl) as [Hupdated Hreturns].
    destruct (Hreturns (fun _ => eq_refl)) as [w2 Hw2].
    exists w2. split; [exact Hw2 |]. exact (proj1 (Hupdated w2 Hw2)).
  - destruct (stop_job_abort busy "job-5" uploading_world
                (snd (stop_job_reads busy "job-5" uploading_world))
                (Some (JobHead.mk "job-5" JobStatus.UPLOADING))
                (Some job_uploading) (Some runner_uploading) RequestStatus.RUNNING
                eq_refl eq_refl) as (_ & _ & Hjob).
    destruct (Hjob job_uploading eq_refl eq_refl) as [Hupdated Hreturns].
    destruct (Hreturns (fun _ => eq_refl)) as [w2 Hw2].
    exists w2. split; [exact Hw2 |]. exact (proj1 (Hupdated w2 Hw2)).
Defined.

(** ** run_job *)

(** Unfolds the outermost [bind] of the goal. *)
Ltac step_bind := unfold mbind at 1; unfold M_bind at 1; unfold bind at 1.

Lemma mark_failed_accepted {A : Type} (env : Env) (job : Job.t)
    (runner : option Runner.t) (e : exn) (w : World (JobData env)) :
  faults env (clock w) = None ->
  @mark_failed env A job runner e w
  = (Raise e,
     job_updated
       (Job.set_request_id (runner ≫= Runner.request_id)
          (Job.set_status JobStatus.FAILED job)) w).
Proof.
  intros Hfault. unfold mark_failed, mbind, M_bind, bind, update_job, call.
  rewrite Hfault. reflexivity.
Qed.

Lemma job_updated_stored {J : Type} (job : Job.t) (w : World J) :
  job_records (job_updated job w) !! Job.job_id job = Some job
  /\ trace (job_updated job w) = (trace w ++ [jobs_update_job job])%list.
Proof.
  unfold job_updated, emit, store_job. cbn. now rewrite lookup_insert_eq.
Qed.

(** C7: for a SUBMITTED job whose first [update_job] went through, an
    exception [e] raised by the instance selection, by the [update_job] of
    the branch taken when no instance type matches, by [_create_runner], by
    [_run_instance_retry] or by [_update_runner] ends [run_job] with [e]
    raised to the caller, after one more [update_job] that the job store
    accepts: the record written has status FAILED and the request id the
    runner held then, which is the launched request id when
    [_update_runner] failed and null before.  That update is the last
    mutating call, and the job store holds the record. *)
Theorem run_job_marks_failed (env : Env) (fuel : nat) (job : Job.t)
    (w : World (JobData env)) (e : exn) :
  Job.status job = JobStatus.SUBMITTED ->
  faults env (clock w) = None ->
  let w1 := job_updated (Job.set_runner_id (Some (uuid4_hex env)) job) w in
  (forall w2,
      _get_instance_type env fuel (Job.requirements job) w1 = (Raise e, w2) ->
      faults env (clock w2) = None ->
      run_job env fuel job w = (Raise e, job_updated (failed_job env job None) w2))
  /\ (forall w2,
         _get_instance_type env fuel (Job.requirements job) w1 = (Return None, w2) ->
         faults env (clock w2) = Some e ->
         faults env (S (clock w2)) = None ->
         run_job env fuel job w
         = (Raise e, job_updated (failed_job env job None) (tick w2)))
  /\ (forall instance_type w2,
         _get_instance_type env fuel (Job.requirements job) w1
         = (Return (Some instance_type), w2) ->
         let runner := new_runner env job instance_type in
         (forall w3,
             _create_runner env runner w2 = (Raise e, w3) ->
             faults env (clock w3) = None ->
             run_job env fuel job w
             = (Raise e, job_updated (failed_job env job None) w3))
         /\ (forall w3,
                _create_runner env runner w2 = (Return tt, w3) ->
                (forall w4,
                    _run_instance_retry env (uuid4_hex env) instance_type
                                        default_attempts w3
                    = (Raise e, w4) ->
                    faults env (clock w4) = None ->
                    run_job env fuel job w
                    = (Raise e, job_updated (failed_job env job None) w4))
                /\ (forall request_id w4 w5,
                       _run_instance_retry env (uuid4_hex env) instance_type
                                           default_attempts w3
                       = (Return request_id, w4) ->
                       _update_runner env
                         (Runner.set_request_id (Some request_id) runner) w4
                       = (Raise e, w5) ->
                       faults env (clock w5) = None ->
                       run_job env fuel job w
                       = (Raise e,
                          job_updated (failed_job env job (Some request_id)) w5))))
  /\ (forall request_id (w' : World (JobData env)),
         Job.status (failed_job env job request_id) = JobStatus.FAILED
         /\ Job.request_id (failed_job env job request_id) = request_id
         /\ job_records (job_updated (failed_job env job request_id) w')
              !! Job.job_id job
            = Some (failed_job env job request_id)
         /\ trace (job_updated (failed_job env job request_id) w')
            = (trace w' ++ [jobs_update_job (failed_job env job request_id)])%list).
Proof.
  intros Hstatus Hfault w1.
  assert (Hstart : forall rest : M (World (JobData env)) InstanceType.t,
             (update_job env (Job.set_runner_id (Some (uuid4_hex env)) job);; rest) w
             = rest w1).
  { intros rest. unfold mbind, M_bind, bind, update_job, call.
    rewrite Hfault. reflexivity. }
  unfold run_job. rewrite Hstatus. cbn [JobStatus.eqb negb].
  split; [| split; [| split]].
  - intros w2 Hselect Hfault2.
    step_bind. unfold try_except at 1.
    rewrite Hstart. step_bind.
    cbn [Job.requirements Job.set_runner_id].
    rewrite Hselect. rewrite mark_failed_accepted by exact Hfault2. reflexivity.
  - intros w2 Hselect Hfault2 Hfault3.
    step_bind. unfold try_except at 1.
    rewrite Hstart. step_bind.
    cbn [Job.requirements Job.set_runner_id].
    rewrite Hselect. cbv beta iota.
    step_bind. unfold update_job at 1. unfold call at 1. rewrite Hfault2.
    rewrite mark_failed_accepted by exact Hfault3. reflexivity.
  - intros instance_type w2 Hselect. unfold new_runner.
    match goal with
    | |- context [try_except ?body (mark_failed env ?job1 None)] =>
      assert (Hselected : try_except body (mark_failed env job1 None) w
                          = (Return instance_type, w2))
    end.
    { unfold try_except. rewrite Hstart. unfold mbind, M_bind, bind.
      cbn [Job.requirements Job.set_runner_id]. rewrite Hselect. reflexivity. }
    split.
    + intros w3 Hcreate Hfault3.
      step_bind. rewrite Hselected. cbv beta iota.
      step_bind. unfold try_except at 1.
      step_bind. rewrite Hcreate.
      rewrite mark_failed_accepted by exact Hfault3. reflexivity.
    + intros w3 Hcreate. split.
      * intros w4 Hlaunch Hfault4.
        step_bind. rewrite Hselected. cbv beta iota.
        step_bind. unfold try_except at 1.
        step_bind. rewrite Hcreate, Hlaunch.
        rewrite mark_failed_accepted by exact Hfault4. reflexivity.
      * intros request_id w4 w5 Hlaunch Hupdate Hfault5.
        step_bind. rewrite Hselected. cbv beta iota.
        step_bind. unfold try_except at 1.
        step_bind. rewrite Hcreate, Hlaunch.
        unfold try_except. rewrite Hupdate.
        rewrite mark_failed_accepted by exact Hfault5. reflexivity.
  - intros request_id w'. split; [reflexivity |]. split; [reflexivity |].
    apply (job_updated_stored (failed_job env job request_id) w').
Qed.

(** [run_job] on a SUBMITTED job when the instance-type query fails, when the
    first write of the runner fails, when every launch fails, when the
    second write of the runner fails after the launch of i-0123, and, for a
    job no instance type matches, when the job store refuses the write that
    precedes the exit. *)
Lemma run_job_marks_failed_runs :
  let failed faults launch_outcome e request_id :=
    let env := deployment faults no_spot_requests no_instances launch_outcome in
    fst (run_job env 2 job_submitted empty_world) = Raise e
    /\ job_records (snd (run_job env 2 job_submitted empty_world)) !! "job-1"
       = Some (Job.mk "job-1" "github.com/acme/repo" JobStatus.FAILED
                      (Some req_one_gpu_spot) (Some "0af3") request_id None None) in
  failed (fault_at 1 unauthorized) launch_ok unauthorized None
  /\ failed (fault_at 3 unauthorized) launch_ok unauthorized None
  /\ failed no_faults launch_never
            (Exception [ArgStr "Failed to retry"; ArgExn invalid_parameter]) None
  /\ failed (fault_at 5 unauthorized) launch_ok unauthorized (Some "i-0123")
  /\ (let env := deployment (fault_at 3 unauthorized) no_spot_requests no_instances
                            launch_ok in
      fst (run_job env 2 job_too_large empty_world) = Raise unauthorized
      /\ job_records (snd (run_job env 2 job_too_large empty_world)) !! "job-8"
         = Some (Job.mk "job-8" "github.com/acme/repo" JobStatus.FAILED
                        (Some req_thousand_cpus) (Some "0af3") None None None)).
Proof.
  cbv zeta. refine (conj _ (conj _ (conj _ (conj _ _)))).
  - destruct (run_job_marks_failed
                (deployment (fault_at 1 unauthorized) no_spot_requests no_instances
                            launch_ok) 2 job_submitted empty_world
                unauthorized eq_refl eq_refl) as (Hselection & _ & _ & Hstored).
    rewrite (Hselection _ eq_refl eq_refl).
    split; [reflexivity | apply Hstored].
  - destruct (run_job_marks_failed
                (deployment (fault_at 3 unauthorized) no_spot_requests no_instances
                            launch_ok) 2 job_submitted empty_world
                unauthorized eq_refl eq_refl) as (_ & _ & Hlater & Hstored).
    destruct (Hlater _ _ eq_refl) as (Hcreate & _).
    rewrite (Hcreate _ eq_refl eq_refl).
    split; [reflexivity | apply Hstored].
  - destruct (run_job_marks_failed
                (deployment no_faults no_spot_requests no_instances launch_never) 2 job_submitted empty_world
                (Exception [ArgStr "Failed to retry"; ArgExn invalid_parameter])
                eq_refl eq_refl) as (_ & _ & Hlater & Hstored).
    destruct (Hlater _ _ eq_refl) as (_ & Hcreated).
    destruct (Hcreated _ eq_refl) as (Hlaunch & _).
    rewrite (Hlaunch _ eq_refl eq_refl).
    split; [reflexivity | apply Hstored].
  - destruct (run_job_marks_failed
                (deployment (fault_at 5 unauthorized) no_spot_requests no_instances
                            launch_ok) 2 job_submitted empty_world
                unauthorized eq_refl eq_refl) as (_ & _ & Hlater & Hstored).
    destruct (Hlater _ _ eq_refl) as (_ & Hcreated).
    destruct (Hcreated _ eq_refl) as (_ & Hlaunched).
    rewrite (Hlaunched _ _ _ eq_refl eq_refl eq_refl).
    split; [reflexivity | apply Hstored].
  - destruct (run_job_marks_failed
                (deployment (fault_at 3 unauthorized) no_spot_requests no_instances
                            launch_ok) 2 job_too_large empty_world
                unauthorized eq_refl eq_refl) as (_ & Hnone & _ & Hstored).
    rewrite (Hnone _ eq_refl eq_refl eq_refl).
    split; [reflexivity | apply Hstored].
Defined.

(** * Further properties *)

(** ** The matcher *)

Lemma matches_meets (resources : Resources.t) (requirements : Requirements.t) :
  _matches resources (Some requirements) = true <-> meets resources requirements.
Proof.
  destruct requirements as [cpus memory_mib req_gpus interruptible local].
  unfold _matches, meets. cbn [Requirements.cpus Requirements.memory_mib
    Requirements.gpus Requirements.interruptible].
  split.
  - intros H.
    repeat match type of H with
           | (if ?c then false else _) = true =>
             let E := fresh "E" in destruct c eqn:E; [discriminate |]
           | match ?o with Some _ => _ | None => _ end = true =>
             destruct o
           end.
    all: repeat split; intros; simplify_eq/=.
    all: repeat match goal with
           | H : ?o = Some _, E : context [match ?o with _ => _ end] |- _ =>
             rewrite H in E
           end.
    all: repeat match goal with
           | E : negb (?a =? ?b) && _ = false |- _ =>
             destruct (Z.eqb_spec a b); cbn in E; [try contradiction |]
           | E : negb (String.eqb ?a ?b) && _ = false |- _ =>
             destruct (String.eqb_spec a b); cbn in E; [try contradiction |]
           | E : (?a >? ?b) = false |- _ =>
             rewrite Z.gtb_ltb in E; apply Z.ltb_ge in E
           end; try lia; try congruence.
    all: match goal with
         | E : context [negb (truthy_bool ?o)] |- _ =>
           destruct o as [[] |]; cbn in E; try discriminate; reflexivity
         end.
  - intros (Hcpus & Hmemory & Hgpus).
    assert (Hbound : forall o bound,
               (forall n, o = Some n -> n <> 0 -> n <= bound) ->
               match o with
               | Some n => negb (n =? 0) && (n >? bound)
               | None => false
               end = false).
    { intros [n |] bound Hn; [| reflexivity].
      destruct (Z.eqb_spec n 0); [reflexivity |]. cbn.
      rewrite Z.gtb_ltb. apply Z.ltb_ge. now apply Hn. }
    rewrite (Hbound _ _ Hcpus), (Hbound _ _ Hmemory).
    destruct req_gpus as [req_gpus |]; [| reflexivity].
    destruct (Hgpus _ eq_refl) as (Hlen & Hname & Hfloor & Hint). cbv zeta.
    replace (_ >? len _) with false by (symmetry; rewrite Z.gtb_ltb; now apply Z.ltb_ge).
    replace (match GpusRequirements.name req_gpus with
             | Some name => _ | None => false end) with false.
    2:{ destruct (GpusRequirements.name req_gpus) as [name |]; [| reflexivity].
        destruct (String.eqb_spec name ""); [reflexivity |]. cbn. symmetry.
        rewrite Z.gtb_ltb. apply Z.ltb_ge. now apply Hname. }
    replace (match GpusRequirements.memory_mib req_gpus with
             | Some floor => _ | None => false end) with false.
    2:{ destruct (GpusRequirements.memory_mib req_gpus) as [floor |]; [| reflexivity].
        destruct (Z.eqb_spec floor 0); [reflexivity |]. cbn. symmetry.
        rewrite Z.gtb_ltb. apply Z.ltb_ge. now apply Hfloor. }
    destruct interruptible as [[] |]; [| reflexivity | reflexivity].
    now rewrite (Hint eq_refl).
Qed.

Lemma filter_length_sublist {A : Type} (f : A -> bool) (l1 l2 : list A) :
  sublist l1 l2 -> (length (List.filter f l1) <= length (List.filter f l2))%nat.
Proof.
  induction 1 as [| x l1 l2 _ IH | x l1 l2 _ IH]; cbn.
  - lia.
  - destruct (f x); cbn; lia.
  - destruct (f x); cbn; lia.
Qed.

Lemma filter_sublist {A : Type} (f : A -> bool) (l : list A) :
  sublist (List.filter f l) l.
Proof.
  induction l as [| x l IH]; cbn; [constructor |].
  destruct (f x); [now apply sublist_skip | now apply sublist_cons].
Qed.

Lemma filter_all {A : Type} (f : A -> bool) (l : list A) :
  Forall (fun x => f x = true) l -> List.filter f l = l.
Proof.
  induction 1 as [| x l Hx _ IH]; cbn; [reflexivity |]. now rewrite Hx, IH.
Qed.

Lemma count_has_gpus (f : Gpu.t -> bool) (P : Gpu.t -> Prop) (need : Z)
    (gpus : list Gpu.t) :
  (forall gpu, f gpu = true <-> P gpu) ->
  need <= len (List.filter f gpus) <-> has_gpus P need gpus.
Proof.
  intros HfP. unfold len, has_gpus. split.
  - intros Hneed. exists (List.filter f gpus).
    split; [apply filter_sublist |]. split; [exact Hneed |].
    apply Forall_forall. intros gpu Hin. apply list_elem_of_In in Hin.
    apply filter_In in Hin. now apply HfP.
  - intros (chosen & Hsub & Hneed & Hall).
    pose proof (filter_length_sublist f _ _ Hsub) as Hlen.
    rewrite (filter_all f chosen) in Hlen; [lia |].
    eapply Forall_impl; [exact Hall |]. intros gpu. apply HfP.
Qed.

Lemma or_int_needed (count : option Z) : or_int count 1 = gpus_needed count.
Proof. now destruct count as [[| p | p] |]. Qed.

Lemma matches_provides (resources : Resources.t) (requirements : Requirements.t) :
  _matches resources (Some requirements) = true <-> provides resources requirements.
Proof.
  rewrite matches_meets. unfold meets, provides.
  assert (Hname : forall name need,
             need <= count_name name (or_nil (Resources.gpus resources))
             <-> has_gpus (fun gpu => Gpu.name gpu = name) need (gpus_of resources)).
  { intros name need. apply count_has_gpus. intros gpu. apply String.eqb_eq. }
  assert (Hfloor : forall floor need,
             need <= count_memory floor (or_nil (Resources.gpus resources))
             <-> has_gpus (fun gpu => floor <= Gpu.memory_mib gpu) need
                          (gpus_of resources)).
  { intros floor need. apply count_has_gpus. intros gpu.
    rewrite Z.geb_leb. apply Z.leb_le. }
  split; intros (Hc & Hm & Hg); (split; [exact Hc |]); (split; [exact Hm |]);
    intros req_gpus E; destruct (Hg req_gpus E) as (Hlen & Hn & Hf & Hi);
    cbv zeta in *.
  - rewrite <- or_int_needed. repeat split.
    + exact Hlen.
    + intros name En Hne. apply Hname. now apply Hn.
    + intros floor Ef Hne. apply Hfloor. now apply Hf.
    + exact Hi.
  - rewrite <- or_int_needed in *. repeat split.
    + exact Hlen.
    + intros name En Hne. apply Hname. now apply Hn.
    + intros floor Ef Hne. apply Hfloor. now apply Hf.
    + exact Hi.
Qed.

(** C5: the name filter and the memory filter each count over the whole GPU
    list.  (1) [gpu_count=2, gpu_memory_mib=16000], no name, against GPUs of
    8000, 16000 and 16000 MiB matches, whatever the rest of the resources.
    (2) Under a GPU requirement alone, [_matches] holds exactly when the
    machine has the number of GPUs needed (the count, or one when it is
    unset or zero), that many GPUs of the name if a name is asked, and that
    many GPUs of at least the floor if a floor is asked: two selections of
    GPUs somewhere in the list, which need not be the same.  (3) Each
    sub-filter does refuse: three GPUs of 8000 MiB, a single GPU of 16000
    MiB, and one GPU of 16000 MiB beside one of 8000 MiB do not match the
    requirement of (1); one K80 beside two V100 does not match "two K80".
    (4) Two K80 of 8000 MiB and two V100 of 16000 MiB match "two K80, 16000
    MiB each", although no GPU passes both filters. *)
Theorem matches_gpu_filters_independent :
  (forall cpus memory_mib n1 n2 n3 interruptible local,
      _matches
        (Resources.mk cpus memory_mib
           (Some [Gpu.mk n1 8000; Gpu.mk n2 16000; Gpu.mk n3 16000])
           interruptible local)
        (Some req_two_gpus_16000) = true)
  /\ (forall resources count floor name,
         _matches resources
           (Some (Requirements.mk None None
                    (Some (GpusRequirements.mk count floor name)) None None)) = true
         <-> gpus_needed count <= Z.of_nat (length (gpus_of resources))
             /\ (forall wanted, name = Some wanted -> wanted <> "" ->
                                has_gpus (fun gpu => Gpu.name gpu = wanted)
                                         (gpus_needed count) (gpus_of resources))
             /\ (forall least, floor = Some least -> least <> 0 ->
                               has_gpus (fun gpu => least <= Gpu.memory_mib gpu)
                                        (gpus_needed count) (gpus_of resources)))
  /\ (forall cpus memory_mib n1 n2 n3 interruptible local,
         _matches
           (Resources.mk cpus memory_mib
              (Some [Gpu.mk n1 8000; Gpu.mk n2 8000; Gpu.mk n3 8000])
              interruptible local)
           (Some req_two_gpus_16000) = false)
  /\ (forall cpus memory_mib n1 interruptible local,
         _matches
           (Resources.mk cpus memory_mib (Some [Gpu.mk n1 16000]) interruptible local)
           (Some req_two_gpus_16000) = false)
  /\ (forall cpus memory_mib n1 n2 interruptible local,
         _matches
           (Resources.mk cpus memory_mib (Some [Gpu.mk n1 16000; Gpu.mk n2 8000])
                         interruptible local)
           (Some req_two_gpus_16000) = false)
  /\ (forall cpus memory_mib m1 m2 m3 interruptible local,
         _matches
           (Resources.mk cpus memory_mib
              (Some [Gpu.mk "K80" m1; Gpu.mk "V100" m2; Gpu.mk "V100" m3])
              interruptible local)
           (Some req_two_k80) = false)
  /\ _matches (on_demand_only [gpu_k80; gpu_k80; gpu_v100; gpu_v100])
              (Some req_two_k80_16000) = true
  /\ List.filter (fun gpu => String.eqb (Gpu.name gpu) "K80"
                             && (Gpu.memory_mib gpu >=? 16000))
                 [gpu_k80; gpu_k80; gpu_v100; gpu_v100] = [].
Proof.
  refine (conj _ (conj _ (conj _ (conj _ (conj _ (conj _ (conj _ _)))))));
    try reflexivity.
  intros resources count floor name. rewrite matches_provides.
  unfold provides.
  cbn [Requirements.cpus Requirements.memory_mib Requirements.gpus
         Requirements.interruptible GpusRequirements.count GpusRequirements.name
         GpusRequirements.memory_mib].
  split.
  - intros (_ & _ & Hg). destruct (Hg _ eq_refl) as (Hlen & Hn & Hf & _).
    split; [exact Hlen |]. split; [exact Hn | exact Hf].
  - intros (Hlen & Hn & Hf). split; [discriminate |]. split; [discriminate |].
    intros req_gpus [= <-]. cbn. repeat split; try assumption. discriminate.
Qed.

(** X1: a machine that has at least the CPUs and the memory of a matching
    one, its GPUs among its own (in the same order), and is interruptible if
    the matching one is, matches the same requirements. *)
Theorem matches_monotone (resources larger : Resources.t)
    (requirements : option Requirements.t) :
  _matches resources requirements = true ->
  Resources.cpus resources <= Resources.cpus larger ->
  Resources.memory_mib resources <= Resources.memory_mib larger ->
  sublist (or_nil (Resources.gpus resources)) (or_nil (Resources.gpus larger)) ->
  (Resources.interruptible resources = Some true ->
   Resources.interruptible larger = Some true) ->
  _matches larger requirements = true.
Proof.
  destruct requirements as [requirements |]; [| reflexivity].
  rewrite !matches_meets.
  intros (Hcpus & Hmemory & Hgpus) Hc Hm Hsub Hint.
  split; [| split].
  - intros cpus E Hne. specialize (Hcpus cpus E Hne). lia.
  - intros memory_mib E Hne. specialize (Hmemory memory_mib E Hne). lia.
  - intros req_gpus E. destruct (Hgpus req_gpus E) as (Hlen & Hname & Hfloor & Hi).
    cbv zeta in *. unfold count_name, count_memory, len in *.
    pose proof (sublist_length _ _ Hsub) as Hl.
    repeat split.
    + lia.
    + intros name En Hne. specialize (Hname name En Hne).
      pose proof (filter_length_sublist
                    (fun gpu => String.eqb (Gpu.name gpu) name) _ _ Hsub).
      lia.
    + intros floor Ef Hne. specialize (Hfloor floor Ef Hne).
      pose proof (filter_length_sublist
                    (fun gpu => Gpu.memory_mib gpu >=? floor) _ _ Hsub).
      lia.
    + auto.
Qed.

(** The requirement of two GPUs of 16000 MiB, met by three GPUs, is met by
    the larger machine with one more. *)
Lemma matches_monotone_larger :
  _matches (larger_machine [gpu_k80; gpu_v100; gpu_v100]) (Some req_two_gpus_16000)
  = true.
Proof.
  apply (matches_monotone (on_demand_only [gpu_k80; gpu_v100; gpu_v100])).
  - reflexivity.
  - cbn. lia.
  - cbn. lia.
  - cbn. apply sublist_cons. reflexivity.
  - discriminate.
Defined.

(** ** The catalog *)

Lemma fold_right_add_app (l1 l2 : list Z) :
  List.fold_right Z.add 0 (l1 ++ l2)%list
  = List.fold_right Z.add 0 l1 + List.fold_right Z.add 0 l2.
Proof. induction l1 as [| x l1 IH]; cbn; lia. Qed.

Lemma fold_right_add_repeat (x : Z) (n : nat) :
  List.fold_right Z.add 0 (List.repeat x n) = Z.of_nat n * x.
Proof. induction n as [| n IH]; [reflexivity |]. cbn [List.repeat fold_right]. lia. Qed.

(** X2: the GPU list of a catalog entry holds each GPU descriptor as many
    times as its [Count] (none for a count of zero or less): its length is
    the sum of the counts, the total GPU memory the catalog orders by is the
    sum of count times size, and every GPU of the list has the name and the
    size of a descriptor with a positive count. *)
Theorem flatten_gpus_units (instance_type : Ec2.InstanceTypeInfo) :
  len (flatten_gpus instance_type) = gpu_units instance_type
  /\ gpu_total_memory_mib (to_instance_type instance_type)
     = gpu_units_memory_mib instance_type
  /\ Forall (fun unit =>
               exists info gpus gpu,
                 Ec2.GpuInfo_ instance_type = Some info
                 /\ Ec2.Gpus info = Some gpus
                 /\ In gpu gpus
                 /\ 0 < Ec2.Count gpu
                 /\ unit = Gpu.mk (Ec2.Name gpu) (Ec2.Gpu_SizeInMiB gpu))
            (flatten_gpus instance_type).
Proof.
  unfold gpu_total_memory_mib, to_instance_type, gpu_units, gpu_units_memory_mib,
    flatten_gpus, len.
  cbn [InstanceType.resources Resources.gpus or_nil].
  destruct (Ec2.GpuInfo_ instance_type) as [[[gpus |]] |]; cbn [Ec2.Gpus or_nil];
    try (repeat split; constructor).
  split; [| split].
  - induction gpus as [| gpu gpus IH]; [reflexivity |].
    cbn [List.map List.concat fold_right]. rewrite length_app, repeat_length.
    rewrite Nat2Z.inj_add, IH. lia.
  - induction gpus as [| gpu gpus IH]; [reflexivity |].
    cbn [List.map List.concat fold_right].
    rewrite map_app, fold_right_add_app, IH. f_equal.
    rewrite map_repeat, fold_right_add_repeat. cbn [Gpu.memory_mib]. lia.
  - apply Forall_forall. intros unit Hin. apply list_elem_of_In in Hin.
    apply in_concat in Hin. destruct Hin as (units & Hunits & Hin).
    apply in_map_iff in Hunits. destruct Hunits as (gpu & <- & Hgpu).
    apply repeat_spec in Hin as Heq.
    exists (Ec2.mkGpuInfo (Some gpus)), gpus, gpu. repeat split; try assumption.
    destruct (Ec2.Count gpu) as [| p | p]; cbn in Hin; try contradiction. lia.
Qed.

Lemma get_instance_types_loop_pages (env : Env) (fuel : nat) :
  forall (next_token : option string) (instance_types catalog : list InstanceType.t)
         (w w' : World (JobData env)),
    _get_instance_types_loop env fuel next_token instance_types w = (Return catalog, w') ->
    exists infos,
      pages_from env fuel next_token = Some infos
      /\ catalog = (instance_types ++ List.map to_instance_type infos)%list
      /\ same_state w w'.
Proof.
  induction fuel as [| fuel IH]; intros next_token instance_types catalog w w';
    cbn [_get_instance_types_loop pages_from]; [discriminate |].
  unfold mbind, M_bind, bind, ec2_describe_instance_types, call.
  destruct (faults env (clock w)); [discriminate |].
  destruct (truthy_str (Ec2.NextToken (describe_instance_types env next_token))).
  - intros Hloop. destruct (IH _ _ _ _ _ Hloop) as (infos & -> & -> & Hsame).
    eexists. split; [reflexivity |]. split.
    + now rewrite map_app, app_assoc.
    + exact Hsame.
  - intros [= <- <-]. eexists. split; [reflexivity |]. split; [reflexivity |].
    repeat split.
Qed.

Lemma get_instance_types_loop_returns (env : Env) (fuel : nat) :
  (forall n, faults env n = None) ->
  forall (next_token : option string) (instance_types : list InstanceType.t)
         (w : World (JobData env)) infos,
    pages_from env fuel next_token = Some infos ->
    exists w',
      _get_instance_types_loop env fuel next_token instance_types w
      = (Return (instance_types ++ List.map to_instance_type infos)%list, w').
Proof.
  intros Hnf. induction fuel as [| fuel IH]; intros next_token instance_types w infos;
    cbn [_get_instance_types_loop pages_from]; [discriminate |].
  unfold mbind, M_bind, bind, ec2_describe_instance_types, call. rewrite Hnf.
  destruct (truthy_str (Ec2.NextToken (describe_instance_types env next_token))).
  - destruct (pages_from env fuel _) as [rest |] eqn:Hrest; [| discriminate].
    intros [= <-]. destruct (IH _ (instance_types
                                   ++ List.map to_instance_type
                                        (Ec2.InstanceTypes
                                           (describe_instance_types env next_token)))%list
                               (tick w) _ Hrest) as (w' & ->).
    exists w'. now rewrite map_app, app_assoc.
  - intros [= <-]. eexists. reflexivity.
Qed.

(** X3: the catalog [_get_instance_types] returns holds the instance types of
    every page, each once: it is a permutation of the pages read token after
    token until a response carries no token, it is in ascending order of
    [compare], and fetching it writes nothing.  When no call fails and the
    pages end within the fuel, the catalog is returned. *)
Theorem get_instance_types_all_pages (env : Env) (fuel : nat)
    (w : World (JobData env)) :
  (forall catalog w',
      _get_instance_types env fuel w = (Return catalog, w') ->
      exists infos,
        pages_from env fuel None = Some infos
        /\ Permutation (List.map to_instance_type infos) catalog
        /\ StronglySorted (fun i1 i2 => compare i1 i2 <= 0) catalog
        /\ same_state w w')
  /\ (forall infos,
         (forall n, faults env n = None) ->
         pages_from env fuel None = Some infos ->
         exists w',
           _get_instance_types env fuel w
           = (Return (sorted compare (List.map to_instance_type infos)), w')).
Proof.
  split.
  - intros catalog w' Hcatalog.
    pose proof (get_instance_types_sorted _ _ _ _ _ Hcatalog) as Hsorted.
    unfold _get_instance_types, mbind, M_bind, bind in Hcatalog.
    destruct (_get_instance_types_loop env fuel None [] w) as [[fetched | | |] w1]
      eqn:Hloop; try discriminate.
    injection Hcatalog as <- <-.
    destruct (get_instance_types_loop_pages _ _ _ _ _ _ _ Hloop)
      as (infos & Hpages & -> & Hsame).
    exists infos. repeat split; try apply Hsame; try assumption.
    apply sorted_Permutation.
  - intros infos Hnf Hpages.
    destruct (get_instance_types_loop_returns env fuel Hnf None [] w infos Hpages)
      as (w' & Hloop).
    exists w'. unfold _get_instance_types, mbind, M_bind, bind. now rewrite Hloop.
Qed.

(** The two pages of [quiet]: three instance types, sorted by GPU memory. *)
Lemma get_instance_types_all_pages_quiet :
  exists w',
    _get_instance_types quiet 2 empty_world
    = (Return (List.map to_instance_type [c5_large; p3_2xlarge; p3_8xlarge]), w').
Proof.
  exact (proj2 (get_instance_types_all_pages quiet 2 empty_world)
           [p3_8xlarge; c5_large; p3_2xlarge] (fun _ => eq_refl) eq_refl).
Defined.

(** ** Selection *)

Lemma get_instance_type_inv (env : Env) (fuel : nat)
    (requirements : option Requirements.t) (w w' : World (JobData env))
    (result : option InstanceType.t) :
  _get_instance_type env fuel requirements w = (Return result, w') ->
  exists catalog,
    _get_instance_types env fuel w = (Return catalog, w')
    /\ result
       = option_map (requested_copy requirements)
           (List.find (fun instance_type =>
                         _matches (InstanceType.resources instance_type) requirements)
                      catalog).
Proof.
  unfold _get_instance_type, mbind, M_bind, bind.
  destruct (_get_instance_types env fuel w) as [[catalog | | |] w1];
    try discriminate.
  intros [= <- <-]. exists catalog. split; [reflexivity |].
  now destruct (List.find _ catalog).
Qed.

(** X4: once the catalog is fetched, [_get_instance_type] returns [None]
    exactly when no catalog entry satisfies [_matches]. *)
Theorem get_instance_type_none_iff (env : Env) (fuel : nat)
    (requirements : option Requirements.t) (w w' : World (JobData env))
    (catalog : list InstanceType.t) :
  _get_instance_types env fuel w = (Return catalog, w') ->
  (_get_instance_type env fuel requirements w = (Return None, w')
   <-> Forall (fun instance_type =>
                 _matches (InstanceType.resources instance_type) requirements = false)
              catalog).
Proof.
  intros Hcatalog. unfold _get_instance_type, mbind, M_bind, bind.
  rewrite Hcatalog. unfold ret. split.
  - destruct (List.find _ catalog) eqn:Hfind; [discriminate |]. intros _.
    apply Forall_forall. intros i Hi. apply list_elem_of_In in Hi.
    apply (find_none _ _ Hfind i Hi).
  - intros Hall. destruct (List.find _ catalog) as [native |] eqn:Hfind;
      [| reflexivity].
    apply find_some in Hfind. destruct Hfind as [Hin Hmatch].
    rewrite Forall_forall in Hall. apply list_elem_of_In in Hin.
    rewrite (Hall _ Hin) in Hmatch. discriminate.
Qed.

(** No instance type of [quiet] has a thousand CPUs. *)
Lemma get_instance_type_none_quiet :
  _get_instance_type quiet 2 (Some req_thousand_cpus) empty_world
  = (Return None, mkWorld 2 0 ∅ ∅ ∅ []).
Proof.
  apply (get_instance_type_none_iff quiet 2 (Some req_thousand_cpus) empty_world
           (mkWorld 2 0 ∅ ∅ ∅ [])
           (List.map to_instance_type [c5_large; p3_2xlarge; p3_8xlarge]) eq_refl).
  repeat constructor.
Defined.

Lemma StronglySorted_app_r {A : Type} (R : A -> A -> Prop) (l1 l2 : list A) :
  StronglySorted R (l1 ++ l2)%list -> StronglySorted R l2.
Proof.
  induction l1 as [| x l1 IH]; cbn; intros H; [exact H |].
  apply IH. now apply StronglySorted_inv in H.
Qed.

(** X5: the instance type [_get_instance_type] returns for a requirements
    object provides what is asked: at least the CPUs and the memory, at
    least the number of GPUs needed, that many GPUs of the name asked and
    that many GPUs of at least the memory asked (each a selection of GPUs
    of the machine), and the interruptible flag when GPUs are asked.  The
    returned copy therefore satisfies [_matches] itself, and no catalog
    entry that matches comes before it in the order of [compare]: total GPU
    memory, then CPUs, then memory. *)
Theorem get_instance_type_sufficient_minimal (env : Env) (fuel : nat)
    (requirements : Requirements.t) (w w' : World (JobData env))
    (chosen : InstanceType.t) :
  _get_instance_type env fuel (Some requirements) w = (Return (Some chosen), w') ->
  provides (InstanceType.resources chosen) requirements
  /\ _matches (InstanceType.resources chosen) (Some requirements) = true
  /\ exists catalog,
      _get_instance_types env fuel w = (Return catalog, w')
      /\ forall other,
          In other catalog ->
          _matches (InstanceType.resources other) (Some requirements) = true ->
          compare chosen other <= 0.
Proof.
  intros Hchosen.
  destruct (get_instance_type_inv _ _ _ _ _ _ Hchosen) as (catalog & Hcatalog & Hfind).
  destruct (List.find _ catalog) as [native |] eqn:Hnative; [| discriminate].
  injection Hfind as ->.
  destruct (find_first _ _ _ Hnative) as (before & after & -> & Hmatch & Hbefore).
  assert (Hmeets : meets (InstanceType.resources
                            (requested_copy (Some requirements) native))
                         requirements).
  { apply matches_meets in Hmatch. destruct Hmatch as (Hc & Hm & Hg).
    split; [exact Hc |]. split; [exact Hm |].
    intros req_gpus E. destruct (Hg req_gpus E) as (? & ? & ? & _).
    cbn. repeat split; auto. }
  apply matches_meets in Hmeets.
  split; [now apply matches_provides |]. split; [exact Hmeets |].
  exists (before ++ native :: after)%list. split; [exact Hcatalog |].
  intros other Hin Hother.
  change (compare (requested_copy (Some requirements) native) other)
    with (compare native other).
  pose proof (get_instance_types_sorted _ _ _ _ _ Hcatalog) as Hsorted.
  apply in_app_or in Hin. destruct Hin as [Hin | [<- | Hin]].
  - rewrite Forall_forall in Hbefore. apply list_elem_of_In in Hin.
    rewrite (Hbefore _ Hin) in Hother. discriminate.
  - apply compare_total. unfold compare.
    rewrite !Z.ltb_irrefl, !Z.gtb_ltb, !Z.ltb_irrefl. lia.
  - apply StronglySorted_app_r in Hsorted.
    apply StronglySorted_inv in Hsorted. destruct Hsorted as [_ Hall].
    rewrite Forall_forall in Hall. apply Hall. now apply list_elem_of_In.
Qed.

(** One GPU of 16000 MiB on four CPUs in [quiet]: p3.2xlarge is chosen, and
    it comes before p3.8xlarge, which matches too. *)
Lemma get_instance_type_sufficient_minimal_quiet :
  provides (InstanceType.resources p3_spot) req_one_gpu_spot
  /\ _matches (InstanceType.resources p3_spot) (Some req_one_gpu_spot) = true
  /\ exists catalog,
      _get_instance_types quiet 2 empty_world = (Return catalog, mkWorld 2 0 ∅ ∅ ∅ [])
      /\ forall other,
          In other catalog ->
          _matches (InstanceType.resources other) (Some req_one_gpu_spot) = true ->
          compare p3_spot other <= 0.
Proof.
  exact (get_instance_type_sufficient_minimal quiet 2 req_one_gpu_spot empty_world
           (mkWorld 2 0 ∅ ∅ ∅ []) p3_spot eq_refl).
Defined.

(** ** The runner store *)

Lemma unserialize_serialize_normalized (env : Env) (runner : Runner.t) :
  Job_unserialize env (Job_serialize env (Runner.job runner)) = Runner.job runner ->
  _unserialize_runner (Job_unserialize env) (_serialize_runner (Job_serialize env) runner)
  = normalized runner.
Proof.
  intros Hjob.
  assert (Hgpus : forall l : list Gpu.t,
             List.map (fun g => Gpu.mk (RunnerDict.name g) (RunnerDict.memory_mib g))
               (List.map (fun gpu => RunnerDict.mkGpu (Gpu.name gpu) (Gpu.memory_mib gpu))
                         l)
             = l).
  { induction l as [| [name mem] l IH]; cbn; [reflexivity | now rewrite IH]. }
  unfold _unserialize_runner, _serialize_runner, normalized. cbn.
  rewrite Hjob, Hgpus.
  now destruct (is_True (Resources.interruptible _)), (is_True (Resources.local _)).
Qed.

Lemma list_ascii_of_string_app (s1 s2 : string) :
  String.list_ascii_of_string (s1 +:+ s2)
  = (String.list_ascii_of_string s1 ++ String.list_ascii_of_string s2)%list.
Proof.
  induction s1 as [| a s1 IH]; [reflexivity |].
  change (String a s1 +:+ s2) with (String a (s1 +:+ s2)).
  cbn [String.list_ascii_of_string app]. now f_equal.
Qed.

Lemma string_app_inv_tail (s1 s2 tail : string) :
  s1 +:+ tail = s2 +:+ tail -> s1 = s2.
Proof.
  intros H. apply (f_equal String.list_ascii_of_string) in H.
  rewrite !list_ascii_of_string_app in H. apply app_inv_tail in H.
  rewrite <- (String.string_of_list_ascii_of_string s1), <- (String.string_of_list_ascii_of_string s2).
  now rewrite H.
Qed.

Lemma runner_key_inj (id1 id2 : string) :
  runner_key (Some id1) = runner_key (Some id2) -> id1 = id2.
Proof.
  unfold runner_key. cbn [fmt]. intros H.
  apply (String.app_inj "runners/") in H. now apply string_app_inv_tail in H.
Qed.

Lemma get_runner_stored (env : Env) (runner_id : option string)
    (w : World (JobData env)) :
  faults env (clock w) = None ->
  _get_runner env runner_id w
  = (Return (_unserialize_runner (Job_unserialize env)
               <$> (Body <$> objects w !! runner_key runner_id)),
     tick w).
Proof.
  intros Hfault. unfold _get_runner, try_except, mbind, M_bind, bind, s3_get_object, call.
  rewrite Hfault. cbn [objects tick].
  destruct (objects w !! runner_key runner_id); reflexivity.
Qed.

(** X6: what [_update_runner] or [_create_runner] writes, [_get_runner] reads
    back: when the calls go through and the job codec gives the job back,
    the runner returned is the one written (unset GPU list as [[]], unset
    flags as false), and the objects of runners with another id are left as
    they were. *)
Theorem runner_store_put_get (env : Env) (runner : Runner.t)
    (w : World (JobData env)) :
  Job_unserialize env (Job_serialize env (Runner.job runner)) = Runner.job runner ->
  faults env (clock w) = None ->
  faults env (S (clock w)) = None ->
  (exists w',
      (_update_runner env runner;;
       _get_runner env (Some (Runner.runner_id runner))) w
      = (Return (Some (normalized runner)), w')
      /\ forall other, other <> Runner.runner_id runner ->
                       objects w' !! runner_key (Some other)
                       = objects w !! runner_key (Some other))
  /\ (faults env (S (S (clock w))) = None ->
      exists w',
        (_create_runner env runner;;
         _get_runner env (Some (Runner.runner_id runner))) w
        = (Return (Some (normalized runner)), w')
        /\ forall other, other <> Runner.runner_id runner ->
                         objects w' !! runner_key (Some other)
                         = objects w !! runner_key (Some other)).
Proof.
  intros Hjob Hf0 Hf1. split; [| intros Hf2].
  - unfold mbind, M_bind, bind, _update_runner, s3_put, call. rewrite Hf0.
    rewrite get_runner_stored by exact Hf1.
    cbn [objects emit set_objects tick]. rewrite lookup_insert_eq. cbn.
    rewrite (unserialize_serialize_normalized env runner Hjob).
    eexists. split; [reflexivity |]. intros other Hne. cbn.
    apply lookup_insert_ne. intros Hkey. apply runner_key_inj in Hkey. congruence.
  - unfold _create_runner, mbind, M_bind, bind, s3_put,
      create_log_group_if_not_exists, call.
    rewrite Hf0. cbn [clock emit set_objects tick]. rewrite Hf1.
    rewrite get_runner_stored by exact Hf2.
    cbn [objects emit set_objects tick]. rewrite lookup_insert_eq. cbn.
    rewrite (unserialize_serialize_normalized env runner Hjob).
    eexists. split; [reflexivity |]. intros other Hne. cbn.
    apply lookup_insert_ne. intros Hkey. apply runner_key_inj in Hkey. congruence.
Qed.

(** A runner with unset GPU list and flags, written to an empty bucket. *)
Lemma runner_store_put_get_unset :
  (exists w',
      (_update_runner quiet runner_unset;; _get_runner quiet (Some "0af3")) empty_world
      = (Return (Some (normalized runner_unset)), w')
      /\ forall other, other <> "0af3" ->
                       objects w' !! runner_key (Some other)
                       = objects empty_world !! runner_key (Some other))
  /\ (exists w',
         (_create_runner quiet runner_unset;; _get_runner quiet (Some "0af3"))
           empty_world
         = (Return (Some (normalized runner_unset)), w')
         /\ forall other, other <> "0af3" ->
                          objects w' !! runner_key (Some other)
                          = objects empty_world !! runner_key (Some other)).
Proof.
  destruct (runner_store_put_get quiet runner_unset empty_world eq_refl eq_refl eq_refl)
    as [Hupdate Hcreate].
  split; [exact Hupdate | exact (Hcreate eq_refl)].
Defined.

(** X7: after [_delete_runner], [_get_runner] of that runner id returns
    [None], whether or not the object existed, and the objects of runners
    with another id are left as they were. *)
Theorem runner_store_delete_get (env : Env) (runner : Runner.t)
    (w : World (JobData env)) :
  faults env (clock w) = None ->
  faults env (S (clock w)) = None ->
  exists w',
    (_delete_runner env runner;;
     _get_runner env (Some (Runner.runner_id runner))) w
    = (Return None, w')
    /\ trace w' = (trace w ++ [s3_delete_object
                                 (runner_key (Some (Runner.runner_id runner)))])%list
    /\ forall other, other <> Runner.runner_id runner ->
                     objects w' !! runner_key (Some other)
                     = objects w !! runner_key (Some other).
Proof.
  intros Hf0 Hf1.
  unfold mbind, M_bind, bind, _delete_runner, s3_delete, call. rewrite Hf0.
  rewrite get_runner_stored by exact Hf1.
  cbn [objects emit set_objects tick]. rewrite lookup_delete_eq. cbn.
  eexists. split; [reflexivity |]. split; [reflexivity |].
  intros other Hne. cbn.
  apply lookup_delete_ne. intros Hkey. apply runner_key_inj in Hkey. congruence.
Qed.

(** The runner of [running_world] is deleted and looked up. *)
Lemma runner_store_delete_get_running :
  exists w',
    (_delete_runner quiet runner_running;; _get_runner quiet (Some "0af3"))
      running_world
    = (Return None, w')
    /\ trace w' = [s3_delete_object "runners/0af3.yaml"]
    /\ forall other, other <> "0af3" ->
                     objects w' !! runner_key (Some other)
                     = objects running_world !! runner_key (Some other).
Proof.
  exact (runner_store_delete_get quiet runner_running running_world eq_refl eq_refl).
Defined.

(** X8: [_get_runner] and errors.  A key that is not in the bucket gives
    [None]; so does a failure of the call with code NoSuchKey; a failure with
    any other code, or with no code, is raised unchanged; in no case is
    anything written. *)
Theorem get_runner_errors (env : Env) (runner_id : option string)
    (w : World (JobData env)) :
  (faults env (clock w) = None ->
   objects w !! runner_key runner_id = None ->
   _get_runner env runner_id w = (Return None, tick w))
  /\ (forall e,
         faults env (clock w) = Some e ->
         has_error_code e "NoSuchKey" = true ->
         _get_runner env runner_id w = (Return None, tick w))
  /\ (forall e,
         faults env (clock w) = Some e ->
         has_error_code e "NoSuchKey" = false ->
         _get_runner env runner_id w = (Raise e, tick w)).
Proof.
  unfold _get_runner, try_except, mbind, M_bind, bind, s3_get_object, call.
  split; [| split].
  - intros Hfault Hobject. rewrite Hfault. cbn [objects tick].
    now rewrite Hobject.
  - intros e -> ->. reflexivity.
  - intros e -> ->. reflexivity.
Qed.

(** An empty bucket, a call that fails with NoSuchKey, and one that fails
    with AccessDenied. *)
Lemma get_runner_errors_runs :
  _get_runner quiet (Some "0af3") empty_world = (Return None, tick empty_world)
  /\ _get_runner (deployment (fault_at 0 no_such_key) no_spot_requests no_instances
                             launch_ok)
                 (Some "0af3") running_world
     = (Return None, tick running_world)
  /\ _get_runner (deployment (fault_at 0 access_denied) no_spot_requests no_instances
                             launch_ok)
                 (Some "0af3") running_world
     = (Raise access_denied, tick running_world).
Proof.
  refine (conj _ (conj _ _)).
  - exact (proj1 (get_runner_errors quiet (Some "0af3") empty_world) eq_refl eq_refl).
  - exact (proj1 (proj2 (get_runner_errors
                           (deployment (fault_at 0 no_such_key) no_spot_requests
                                       no_instances launch_ok)
                           (Some "0af3") running_world))
             no_such_key eq_refl eq_refl).
  - exact (proj2 (proj2 (get_runner_errors
                           (deployment (fault_at 0 access_denied) no_spot_requests
                                       no_instances launch_ok)
                           (Some "0af3") running_world))
             access_denied eq_refl eq_refl).
Defined.

(** ** Request heads *)

Lemma instance_request_status_terminated (name : string) :
  in_list name ["shutting-down"; "terminated"; "stopping"; "stopped"] = true ->
  instance_request_status name = Some RequestStatus.TERMINATED.
Proof. intros H. code_in_list H. Qed.

Lemma instance_request_status_unknown (name : string) :
  in_list name known_instance_states = false -> instance_request_status name = None.
Proof.
  unfold in_list, known_instance_states. cbn [existsb]. intros H.
  repeat (apply orb_false_elim in H; destruct H as [? H]).
  unfold instance_request_status, in_list. cbn [existsb].
  repeat match goal with
         | E : String.eqb name _ = false |- _ => rewrite E; clear E
         end.
  reflexivity.
Qed.

Lemma get_request_head_polls (env : Env) (job : Job.t)
    (runner : option Runner.t) (w w1 : World (JobData env)) (request_id : string) :
  resolve_request_id env job runner w = (Return (Some request_id), w1) ->
  request_id <> "" ->
  get_request_head env job runner w
  = (if job_interruptible job
     then spot_request_head env job request_id
     else instance_request_head env job request_id) w1.
Proof.
  intros Hresolve Hne. unfold get_request_head, job_interruptible.
  unfold mbind, M_bind, bind. rewrite Hresolve. cbn [nonempty].
  destruct (String.eqb_spec request_id ""); [contradiction | reflexivity].
Qed.

(** X9: for a job that is not interruptible and whose request id is known,
    the head [get_request_head] returns follows the instance state:
    "running" gives RUNNING, "pending" gives PENDING, "shutting-down",
    "terminated", "stopping" and "stopped" give TERMINATED, each with no
    message; no reservation, or a first reservation without instance, gives
    TERMINATED; a provider error of code InvalidInstanceID.NotFound gives
    TERMINATED with the provider's message; any other state name raises. *)
Theorem get_request_head_instance_table (env : Env) (job : Job.t)
    (runner : option Runner.t) (w w1 : World (JobData env)) (request_id : string) :
  job_interruptible job = false ->
  resolve_request_id env job runner w = (Return (Some request_id), w1) ->
  request_id <> "" ->
  (forall instance rest reservations,
      faults env (clock w1) = None ->
      describe_instances env request_id = (instance :: rest) :: reservations ->
      (Ec2.State_Name instance = "running" ->
       get_request_head env job runner w
       = (Return (RequestHead.mk (Job.job_id job) RequestStatus.RUNNING None),
          tick w1))
      /\ (Ec2.State_Name instance = "pending" ->
          get_request_head env job runner w
          = (Return (RequestHead.mk (Job.job_id job) RequestStatus.PENDING None),
             tick w1))
      /\ (in_list (Ec2.State_Name instance)
            ["shutting-down"; "terminated"; "stopping"; "stopped"] = true ->
          get_request_head env job runner w
          = (Return (RequestHead.mk (Job.job_id job) RequestStatus.TERMINATED None),
             tick w1))
      /\ (in_list (Ec2.State_Name instance) known_instance_states = false ->
          get_request_head env job runner w
          = (Raise (Exception
                      [ArgStr ("Unsupported EC2 instance state name: "
                               +:+ Ec2.State_Name instance)]),
             tick w1)))
  /\ (forall reservations,
         faults env (clock w1) = None ->
         describe_instances env request_id = [] \/
         describe_instances env request_id = [] :: reservations ->
         get_request_head env job runner w
         = (Return (RequestHead.mk (Job.job_id job) RequestStatus.TERMINATED None),
            tick w1))
  /\ (forall e,
         faults env (clock w1) = Some e ->
         has_error_code e "InvalidInstanceID.NotFound" = true ->
         get_request_head env job runner w
         = (Return (RequestHead.mk (Job.job_id job) RequestStatus.TERMINATED
                                   (error_message e)),
            tick w1)).
Proof.
  intros Hint Hresolve Hne.
  rewrite (get_request_head_polls _ _ _ _ _ _ Hresolve Hne), Hint.
  unfold instance_request_head, try_except, mbind, M_bind, bind,
    ec2_describe_instances, call.
  split; [| split].
  - intros instance rest reservations Hfault Hdescribe. rewrite Hfault, Hdescribe.
    refine (conj _ (conj _ (conj _ _))); intros Hname.
    + rewrite Hname. reflexivity.
    + rewrite Hname. reflexivity.
    + rewrite (instance_request_status_terminated _ Hname). reflexivity.
    + rewrite (instance_request_status_unknown _ Hname). reflexivity.
  - intros reservations Hfault [Hdescribe | Hdescribe];
      rewrite Hfault, Hdescribe; reflexivity.
  - intros e Hfault Hcode. rewrite Hfault, Hcode. reflexivity.
Qed.

(** Instance i-0123 polled in four states, unknown to the provider, and with
    the provider answering that the id does not exist. *)
Lemma get_request_head_instance_table_runs :
  let poll name :=
    get_request_head (deployment no_faults no_spot_requests (instance_state name)
                                 launch_ok)
                     job_running None empty_world in
  let head request_status message :=
    (Return (RequestHead.mk "job-2" request_status message), tick empty_world) in
  poll "running" = head RequestStatus.RUNNING None
  /\ poll "pending" = head RequestStatus.PENDING None
  /\ poll "shutting-down" = head RequestStatus.TERMINATED None
  /\ poll "rebooting"
     = (Raise (Exception [ArgStr "Unsupported EC2 instance state name: rebooting"]),
        tick empty_world)
  /\ get_request_head quiet job_running None empty_world
     = head RequestStatus.TERMINATED None
  /\ get_request_head
       (deployment (fault_at 0 instance_not_found) no_spot_requests no_instances
                   launch_ok)
       job_running None empty_world
     = head RequestStatus.TERMINATED (Some "The instance ID 'i-0123' does not exist").
Proof.
  assert (Hne : "i-0123" <> "") by discriminate.
  pose proof (fun faults instances =>
                get_request_head_instance_table
                  (deployment faults no_spot_requests instances launch_ok)
                  job_running None empty_world empty_world "i-0123"
                  eq_refl eq_refl Hne)
    as table.
  cbv zeta. refine (conj _ (conj _ (conj _ (conj _ (conj _ _))))).
  - apply (proj1 (table no_faults (instance_state "running")) _ _ _ eq_refl eq_refl);
      reflexivity.
  - apply (proj1 (table no_faults (instance_state "pending")) _ _ _ eq_refl eq_refl);
      reflexivity.
  - apply (proj1 (table no_faults (instance_state "shutting-down"))
             _ _ _ eq_refl eq_refl); reflexivity.
  - apply (proj1 (table no_faults (instance_state "rebooting")) _ _ _ eq_refl eq_refl);
      reflexivity.
  - apply (proj1 (proj2 (table no_faults no_instances)) [] eq_refl). now left.
  - apply (proj2 (proj2 (table (fault_at 0 instance_not_found) no_instances))
             instance_not_found); reflexivity.
Defined.

(** X10: [get_request_head] lets through every provider error but the
    not-found code of its own branch: when the poll fails with an error of
    another code (or with no code), that error is raised unchanged, for
    interruptible and on-demand jobs alike. *)
Theorem get_request_head_other_errors (env : Env) (job : Job.t)
    (runner : option Runner.t) (w w1 : World (JobData env)) (request_id : string)
    (e : exn) :
  resolve_request_id env job runner w = (Return (Some request_id), w1) ->
  request_id <> "" ->
  faults env (clock w1) = Some e ->
  has_error_code e (not_found_code job) = false ->
  get_request_head env job runner w = (Raise e, tick w1).
Proof.
  intros Hresolve Hne Hfault Hcode.
  rewrite (get_request_head_polls _ _ _ _ _ _ Hresolve Hne).
  unfold not_found_code in Hcode.
  destruct (job_interruptible job).
  - unfold spot_request_head, try_except, mbind, M_bind, bind,
      ec2_describe_spot_instance_requests, call.
    rewrite Hfault, Hcode. reflexivity.
  - unfold instance_request_head, try_except, mbind, M_bind, bind,
      ec2_describe_instances, call.
    rewrite Hfault, Hcode. reflexivity.
Qed.

(** An authorization failure on either branch, and the not-found code of the
    spot branch on the on-demand branch. *)
Lemma get_request_head_other_errors_runs :
  get_request_head
    (deployment (fault_at 0 unauthorized) no_spot_requests no_instances launch_ok)
    job_on_spot None empty_world
  = (Raise unauthorized, tick empty_world)
  /\ get_request_head
       (deployment (fault_at 0 spot_not_found) no_spot_requests no_instances launch_ok)
       job_running None empty_world
     = (Raise spot_not_found, tick empty_world).
Proof.
  split.
  - apply (get_request_head_other_errors
             (deployment (fault_at 0 unauthorized) no_spot_requests no_instances
                         launch_ok)
             job_on_spot None empty_world empty_world "sir-42" unauthorized);
      [reflexivity | discriminate | reflexivity | reflexivity].
  - apply (get_request_head_other_errors
             (deployment (fault_at 0 spot_not_found) no_spot_requests no_instances
                         launch_ok)
             job_running None empty_world empty_world "i-0123" spot_not_found);
      [reflexivity | discriminate | reflexivity | reflexivity].
Defined.

(** X11: which request id [get_request_head] polls.  A non-empty
    [job.request_id] wins: the result does not depend on the runner passed
    in.  Without it, a runner passed in that holds no request id ends the
    search: the head is TERMINATED with the "not specified" message and no
    call is made, not even to the runner store.  With neither job request id
    nor runner, the runner store is read, and a runner that is not there
    gives the same head after that one read. *)
Theorem get_request_head_request_id (env : Env) (job : Job.t)
    (w : World (JobData env)) :
  (truthy_str (Job.request_id job) = true ->
   forall runner runner',
     get_request_head env job runner w = get_request_head env job runner' w)
  /\ (truthy_str (Job.request_id job) = false ->
      (forall runner,
          truthy_str (Runner.request_id runner) = false ->
          get_request_head env job (Some runner) w
          = (Return (RequestHead.mk (Job.job_id job) RequestStatus.TERMINATED
                                    (Some (not_specified job))),
             w))
      /\ (faults env (clock w) = None ->
          objects w !! runner_key (Job.runner_id job) = None ->
          get_request_head env job None w
          = (Return (RequestHead.mk (Job.job_id job) RequestStatus.TERMINATED
                                    (Some (not_specified job))),
             tick w))).
Proof.
  unfold get_request_head, resolve_request_id, not_specified, job_interruptible.
  split.
  - intros -> runner runner'. reflexivity.
  - intros ->. split.
    + intros runner Hrunner. cbn [and_then is_None]. rewrite Hrunner.
      unfold mbind, M_bind, bind, ret. cbn [nonempty]. reflexivity.
    + intros Hfault Hobject. cbn [and_then is_None].
      unfold mbind at 1. unfold M_bind at 1. unfold bind at 1.
      unfold mbind at 1. unfold M_bind at 1. unfold bind at 1.
      rewrite get_runner_stored by exact Hfault. rewrite Hobject. reflexivity.
Qed.

(** A job with request id i-0123 polled with and without a runner; a runner
    that was never launched; a job whose runner is not in the store. *)
Lemma get_request_head_request_id_runs :
  get_request_head quiet job_running (Some runner_unlaunched) empty_world
  = get_request_head quiet job_running None empty_world
  /\ get_request_head quiet job_unlaunched (Some runner_unlaunched) running_world
     = (Return (RequestHead.mk "job-6" RequestStatus.TERMINATED
                               (Some "The instance ID is not specified")),
        running_world)
  /\ get_request_head quiet job_unlaunched None running_world
     = (Return (RequestHead.mk "job-6" RequestStatus.TERMINATED
                               (Some "The instance ID is not specified")),
        tick running_world).
Proof.
  refine (conj _ (conj _ _)).
  - exact (proj1 (get_request_head_request_id quiet job_running empty_world) eq_refl
             (Some runner_unlaunched) None).
  - exact (proj1 (proj2 (get_request_head_request_id quiet job_unlaunched running_world)
                    eq_refl)
             runner_unlaunched eq_refl).
  - exact (proj2 (proj2 (get_request_head_request_id quiet job_unlaunched running_world)
                    eq_refl)
             eq_refl eq_refl).
Defined.

(** ** Teardown *)

(** X12: [_stop_runner] when no call fails.  It returns, its last call is the
    deletion of the runner object, which is then gone from the bucket, and
    before it come exactly the provider calls of [teardown_calls]: none for a
    runner without request id or a local runner, cancel (and terminate, if
    the spot request has an instance) for an interruptible one, terminate
    for an on-demand one.  The job store is not touched. *)
Theorem stop_runner_teardown (env : Env) (runner : Runner.t)
    (w : World (JobData env)) :
  (forall n, faults env n = None) ->
  exists w',
    _stop_runner env runner w = (Return tt, w')
    /\ trace w'
       = (trace w ++ teardown_calls env runner
            ++ [s3_delete_object (runner_key (Some (Runner.runner_id runner)))])%list
    /\ objects w' = delete (runner_key (Some (Runner.runner_id runner))) (objects w)
    /\ job_heads w' = job_heads w
    /\ job_records w' = job_records w.
Proof.
  intros Hnf.
  unfold _stop_runner, teardown_calls, _cancel_spot_request, _terminate_instance,
    _delete_runner, s3_delete, ec2_cancel_spot, ec2_terminate,
    ec2_describe_instances_of_spot_request, try_except, mbind, M_bind, bind, call, ret.
  destruct (nonempty (Runner.request_id runner)) as [request_id |].
  2:{ rewrite Hnf. eexists. repeat split. }
  destruct (truthy_bool (Resources.local (Runner.resources runner))).
  { rewrite Hnf. eexists. repeat split. }
  destruct (truthy_bool (Resources.interruptible (Runner.resources runner))).
  - rewrite !Hnf.
    destruct (describe_instances_of_spot_request env request_id)
      as [| [| instance rest] reservations]; rewrite !Hnf; eexists;
      (split; [reflexivity |]); cbn; rewrite <- ?app_assoc; repeat split.
  - rewrite !Hnf. eexists. split; [reflexivity |]. cbn.
    rewrite <- ?app_assoc. repeat split.
Qed.

(** An on-demand, a spot, a local and a never launched runner. *)
Lemma stop_runner_teardown_runs :
  (exists w', _stop_runner quiet runner_running running_world = (Return tt, w')
              /\ trace w' = [ec2_terminate_instances ["i-0123"];
                             s3_delete_object "runners/0af3.yaml"])
  /\ (exists w',
         _stop_runner (deployment no_faults no_spot_requests spot_instance launch_ok)
                      runner_spot empty_world = (Return tt, w')
         /\ trace w' = [ec2_cancel_spot_instance_requests ["sir-42"];
                        ec2_terminate_instances ["i-0789"];
                        s3_delete_object "runners/c41a.yaml"])
  /\ (exists w', _stop_runner quiet runner_local empty_world = (Return tt, w')
                 /\ trace w' = [s3_delete_object "runners/d00d.yaml"])
  /\ (exists w', _stop_runner quiet runner_unlaunched empty_world = (Return tt, w')
                 /\ trace w' = [s3_delete_object "runners/9b1d.yaml"]).
Proof.
  refine (conj _ (conj _ (conj _ _))).
  - destruct (stop_runner_teardown quiet runner_running running_world
                (fun _ => eq_refl)) as (w' & Hrun & Htrace & _).
    exists w'. split; [exact Hrun | exact Htrace].
  - destruct (stop_runner_teardown
                (deployment no_faults no_spot_requests spot_instance launch_ok)
                runner_spot empty_world (fun _ => eq_refl)) as (w' & Hrun & Htrace & _).
    exists w'. split; [exact Hrun | exact Htrace].
  - destruct (stop_runner_teardown quiet runner_local empty_world
                (fun _ => eq_refl)) as (w' & Hrun & Htrace & _).
    exists w'. split; [exact Hrun | exact Htrace].
  - destruct (stop_runner_teardown quiet runner_unlaunched empty_world
                (fun _ => eq_refl)) as (w' & Hrun & Htrace & _).
    exists w'. split; [exact Hrun | exact Htrace].
Defined.

(** X13: [_stop_runner] when the teardown call fails.  For an on-demand
    runner, a termination that fails with InvalidInstanceID.NotFound is
    passed over and the runner object is deleted all the same; any other
    failure of the termination is raised and the runner object stays.  For
    an interruptible runner there is no such tolerance: whatever error the
    cancellation fails with, not-found codes included, is raised and the
    runner object stays. *)
Theorem stop_runner_teardown_fails (env : Env) (runner : Runner.t)
    (w : World (JobData env)) (request_id : string) (e : exn) :
  nonempty (Runner.request_id runner) = Some request_id ->
  truthy_bool (Resources.local (Runner.resources runner)) = false ->
  faults env (clock w) = Some e ->
  (truthy_bool (Resources.interruptible (Runner.resources runner)) = false ->
   (has_error_code e "InvalidInstanceID.NotFound" = true ->
    faults env (S (clock w)) = None ->
    exists w',
      _stop_runner env runner w = (Return tt, w')
      /\ trace w'
         = (trace w
              ++ [s3_delete_object (runner_key (Some (Runner.runner_id runner)))])%list
      /\ objects w'
         = delete (runner_key (Some (Runner.runner_id runner))) (objects w))
   /\ (has_error_code e "InvalidInstanceID.NotFound" = false ->
       _stop_runner env runner w = (Raise e, tick w)))
  /\ (truthy_bool (Resources.interruptible (Runner.resources runner)) = true ->
      _stop_runner env runner w = (Raise e, tick w)).
Proof.
  intros Hid Hlocal Hfault.
  unfold _stop_runner, _cancel_spot_request, _terminate_instance,
    _delete_runner, s3_delete, ec2_cancel_spot, ec2_terminate,
    ec2_describe_instances_of_spot_request, try_except, mbind, M_bind, bind, call, ret.
  rewrite Hid, Hlocal. split.
  - intros ->. split.
    + intros Hcode Hnext. rewrite Hfault, Hcode. cbn [clock tick]. rewrite Hnext.
      eexists. repeat split.
    + intros Hcode. rewrite Hfault, Hcode. reflexivity.
  - intros ->. rewrite Hfault. reflexivity.
Qed.

(** Instance i-0123 is already gone; the termination is not authorized; the
    spot request is not found. *)
Lemma stop_runner_teardown_fails_runs :
  (exists w',
      _stop_runner (deployment (fault_at 0 instance_not_found) no_spot_requests
                               no_instances launch_ok)
                   runner_running running_world
      = (Return tt, w')
      /\ trace w' = [s3_delete_object "runners/0af3.yaml"]
      /\ objects w' = ∅)
  /\ _stop_runner (deployment (fault_at 0 unauthorized) no_spot_requests
                              no_instances launch_ok)
                  runner_running running_world
     = (Raise unauthorized, tick running_world)
  /\ _stop_runner (deployment (fault_at 0 spot_not_found) no_spot_requests
                              no_instances launch_ok)
                  runner_spot running_world
     = (Raise spot_not_found, tick running_world).
Proof.
  refine (conj _ (conj _ _)).
  - destruct (proj1 (proj1 (stop_runner_teardown_fails
                              (deployment (fault_at 0 instance_not_found)
                                          no_spot_requests no_instances launch_ok)
                              runner_running running_world "i-0123"
                              instance_not_found eq_refl eq_refl eq_refl)
                       eq_refl)
                eq_refl eq_refl) as (w' & Hrun & Htrace & Hobjects).
    exists w'. split; [exact Hrun |]. split; [exact Htrace |].
    rewrite Hobjects. reflexivity.
  - exact (proj2 (proj1 (stop_runner_teardown_fails
                           (deployment (fault_at 0 unauthorized)
                                       no_spot_requests no_instances launch_ok)
                           runner_running running_world "i-0123"
                           unauthorized eq_refl eq_refl eq_refl)
                    eq_refl)
             eq_refl).
  - exact (proj2 (stop_runner_teardown_fails
                    (deployment (fault_at 0 spot_not_found)
                                no_spot_requests no_instances launch_ok)
                    runner_spot running_world "sir-42"
                    spot_not_found eq_refl eq_refl eq_refl)
             eq_refl).
Defined.

(** ** More of stop_job *)

(** X14: a [stop_job] without abort leaves an upload alone: when head and
    job are UPLOADING, the runner is there and the request is not
    TERMINATED, no status is chosen and nothing is written. *)
Theorem stop_job_spares_upload (env : Env) (job_id : string)
    (w w1 : World (JobData env)) (job_head : JobHead.t) (job : Job.t)
    (runner : Runner.t) (request_status : RequestStatus.t) :
  stop_job_reads env job_id w
  = (Return (Some job_head, Some job, Some runner, request_status), w1) ->
  JobHead.status job_head = JobStatus.UPLOADING ->
  Job.status job = JobStatus.UPLOADING ->
  request_status <> RequestStatus.TERMINATED ->
  choose_new_status false (Some job_head) (Some job) (Some runner) request_status = None
  /\ stop_job env job_id false w = (Return tt, w1)
  /\ same_state w w1.
Proof.
  intros Hreads Hhead Hjob Hstatus.
  assert (Hchoice : choose_new_status false (Some job_head) (Some job) (Some runner)
                                      request_status = None).
  { unfold choose_new_status. cbn [and_then is_None]. rewrite Hhead, Hjob.
    destruct request_status; try contradiction; reflexivity. }
  split; [exact Hchoice |]. split.
  - rewrite (stop_job_after_reads _ _ _ _ _ _ _ _ _ Hreads), Hchoice.
    now destruct (anything_unfinished _ _ _ _).
  - pose proof (read_only_stop_job_reads env job_id w) as Hro.
    now rewrite Hreads in Hro.
Qed.

(** The uploading job of [uploading_world], its instance still running. *)
Lemma stop_job_spares_upload_runs :
  stop_job busy "job-5" false uploading_world
  = (Return tt, snd (stop_job_reads busy "job-5" uploading_world))
  /\ same_state uploading_world (snd (stop_job_reads busy "job-5" uploading_world)).
Proof.
  destruct (stop_job_spares_upload busy "job-5" uploading_world
              (snd (stop_job_reads busy "job-5" uploading_world))
              (JobHead.mk "job-5" JobStatus.UPLOADING) job_uploading runner_uploading
              RequestStatus.RUNNING eq_refl eq_refl eq_refl ltac:(discriminate))
    as (_ & Hrun & Hsame).
  split; [exact Hrun | exact Hsame].
Defined.

(** X15: a [stop_job] without abort on a running job asks for a graceful
    stop.  With head and job RUNNING, a runner whose embedded status is
    unfinished and not yet STOPPING, and a request that is not TERMINATED,
    it makes two writes and no teardown call: the runner object is
    rewritten with embedded status STOPPING and the metadata flag
    status=stopping, then the job record is written with status STOPPING;
    the runner object is not deleted. *)
Theorem stop_job_graceful (env : Env) (job_id : string)
    (w w1 : World (JobData env)) (job_head : JobHead.t) (job : Job.t)
    (runner : Runner.t) (request_status : RequestStatus.t) :
  stop_job_reads env job_id w
  = (Return (Some job_head, Some job, Some runner, request_status), w1) ->
  JobHead.status job_head = JobStatus.RUNNING ->
  Job.status job = JobStatus.RUNNING ->
  JobStatus.is_unfinished (Job.status (Runner.job runner)) = true ->
  Job.status (Runner.job runner) <> JobStatus.STOPPING ->
  request_status <> RequestStatus.TERMINATED ->
  faults env (clock w1) = None ->
  faults env (S (clock w1)) = None ->
  let stopping := Runner.set_job_status JobStatus.STOPPING runner in
  let key := runner_key (Some (Runner.runner_id runner)) in
  exists w2,
    stop_job env job_id false w = (Return tt, w2)
    /\ trace w2
       = (trace w ++ [s3_put_object key (_serialize_runner (Job_serialize env) stopping)
                                    [("status", "stopping")];
                      jobs_update_job (Job.set_status JobStatus.STOPPING job)])%list
    /\ objects w2 !! key
       = Some (mkS3Object (_serialize_runner (Job_serialize env) stopping)
                          [("status", "stopping")])
    /\ job_records w2 !! Job.job_id job
       = Some (Job.set_status JobStatus.STOPPING job).
Proof.
  intros Hreads Hhead Hjob Hunfinished Hnot Hstatus Hf0 Hf1. cbv zeta.
  pose proof (read_only_stop_job_reads env job_id w) as Hro.
  rewrite Hreads in Hro. destruct Hro as (_ & _ & _ & _ & Htrace). cbn [snd] in Htrace.
  rewrite (stop_job_after_reads _ _ _ _ _ _ _ _ _ Hreads).
  unfold anything_unfinished, choose_new_status. cbn [and_then is_None].
  rewrite Hhead, Hjob. cbn [JobStatus.is_unfinished JobStatus.is_finished negb orb
                             early_stage JobStatus.eqb].
  replace (RequestStatus.eqb request_status RequestStatus.TERMINATED) with false
    by (destruct request_status; try contradiction; reflexivity).
  cbn [orb negb].
  unfold stop_job_writes, stop_job_runner_write, stop_job_job_write,
    mbind, M_bind, bind.
  rewrite Hunfinished.
  replace (JobStatus.eqb (Job.status (Runner.job runner)) JobStatus.STOPPING)
    with false
    by (destruct (Job.status (Runner.job runner)); try contradiction; reflexivity).
  cbn [andb negb JobStatus.is_finished and_then]. rewrite Hhead.
  cbn [JobStatus.is_unfinished JobStatus.is_finished JobStatus.eqb negb andb orb].
  unfold _update_runner, s3_put, update_job, call. rewrite Hf0.
  cbn [clock emit set_objects tick]. rewrite Hf1.
  eexists. split; [reflexivity |].
  cbn [trace objects job_records emit set_objects store_job tick].
  rewrite Htrace, <- app_assoc, !lookup_insert_eq.
  unfold runner_metadata. cbn. repeat split.
Qed.

(** The running job of [live_world], its instance running. *)
Lemma stop_job_graceful_runs :
  exists w2,
    stop_job busy "job-7" false live_world = (Return tt, w2)
    /\ trace w2
       = [s3_put_object "runners/e5f6.yaml"
            (_serialize_runner (fun job => job)
               (Runner.set_job_status JobStatus.STOPPING runner_live))
            [("status", "stopping")];
          jobs_update_job (Job.set_status JobStatus.STOPPING job_live)]
    /\ objects w2 !! "runners/e5f6.yaml"
       = Some (mkS3Object
                 (_serialize_runner (fun job => job)
                    (Runner.set_job_status JobStatus.STOPPING runner_live))
                 [("status", "stopping")])
    /\ job_records w2 !! "job-7" = Some (Job.set_status JobStatus.STOPPING job_live).
Proof.
  exact (stop_job_graceful busy "job-7" live_world
           (snd (stop_job_reads busy "job-7" live_world))
           (JobHead.mk "job-7" JobStatus.RUNNING) job_live runner_live
           RequestStatus.RUNNING eq_refl eq_refl eq_refl eq_refl
           ltac:(discriminate) ltac:(discriminate) eq_refl eq_refl).
Defined.

Lemma stop_runner_deletes (env : Env) (runner : Runner.t)
    (w w' : World (JobData env)) :
  _stop_runner env runner w = (Return tt, w') ->
  objects w' = delete (runner_key (Some (Runner.runner_id runner))) (objects w)
  /\ job_heads w' = job_heads w
  /\ job_records w' = job_records w.
Proof.
  unfold _stop_runner, _cancel_spot_request, _terminate_instance,
    _delete_runner, s3_delete, ec2_cancel_spot, ec2_terminate,
    ec2_describe_instances_of_spot_request, try_except, mbind, M_bind, bind, call, ret.
  repeat match goal with
         | |- context [match faults env ?c with _ => _ end] =>
           destruct (faults env c) eqn:?; cbn [clock emit set_objects tick]
         | |- context [match nonempty ?o with _ => _ end] => destruct (nonempty o)
         | |- context [if truthy_bool ?o then _ else _] => destruct (truthy_bool o)
         | |- context [if has_error_code ?e ?c then _ else _] =>
           destruct (has_error_code e c)
         | |- context [match describe_instances_of_spot_request env ?r with _ => _ end] =>
           destruct (describe_instances_of_spot_request env r) as [| [| ? ?] ?]
         end;
    try discriminate; intros [= <-]; repeat split.
Qed.

(** X16: a [stop_job] that decides a finished status (ABORTED or STOPPED)
    and returns leaves no runner object behind: if the runner read had an
    unfinished embedded status, its object is gone from the bucket. *)
Theorem stop_job_terminal_removes_runner (env : Env) (job_id : string) (abort : bool)
    (w w1 w2 : World (JobData env)) (job_head : option JobHead.t)
    (job : option Job.t) (runner : Runner.t) (request_status : RequestStatus.t)
    (new_status : JobStatus.t) :
  stop_job_reads env job_id w
  = (Return (job_head, job, Some runner, request_status), w1) ->
  JobStatus.is_unfinished (Job.status (Runner.job runner)) = true ->
  choose_new_status abort job_head job (Some runner) request_status = Some new_status ->
  JobStatus.is_finished new_status = true ->
  stop_job env job_id abort w = (Return tt, w2) ->
  objects w2 !! runner_key (Some (Runner.runner_id runner)) = None.
Proof.
  intros Hreads Hunfinished Hchoice Hfinished.
  rewrite (stop_job_after_reads _ _ _ _ _ _ _ _ _ Hreads), Hchoice.
  replace (anything_unfinished job_head job (Some runner) request_status) with true.
  2:{ unfold anything_unfinished. cbn [and_then]. rewrite Hunfinished.
      now rewrite !orb_true_r. }
  unfold stop_job_writes, stop_job_runner_write, mbind, M_bind, bind.
  rewrite Hunfinished, Hfinished.
  replace (JobStatus.eqb (Job.status (Runner.job runner)) new_status) with false.
  2:{ unfold JobStatus.is_unfinished in Hunfinished.
      destruct (Job.status (Runner.job runner)), new_status;
        try discriminate; reflexivity. }
  cbn [andb negb].
  destruct (_stop_runner env runner w1) as [[[] | e | msg |] w1'] eqn:Hstop;
    try discriminate.
  destruct (stop_runner_deletes _ _ _ _ Hstop) as (Hobjects & _ & _).
  unfold stop_job_job_write.
  destruct (_ || _).
  - destruct job as [j |]; [| discriminate].
    unfold update_job, call. destruct (faults env (clock w1')); [discriminate |].
    intros [= <-]. cbn [objects emit store_job tick].
    rewrite Hobjects. apply lookup_delete_eq.
  - intros [= <-]. rewrite Hobjects. apply lookup_delete_eq.
Qed.

(** The first [stop_job] on [running_world] decides STOPPED and removes the
    runner object. *)
Lemma stop_job_terminal_removes_runner_runs :
  objects stopped_once !! "runners/0af3.yaml" = None.
Proof.
  exact (stop_job_terminal_removes_runner quiet "job-2" false running_world
           (snd (stop_job_reads quiet "job-2" running_world)) stopped_once
           (Some (JobHead.mk "job-2" JobStatus.RUNNING)) (Some job_running)
           runner_running RequestStatus.TERMINATED JobStatus.STOPPED
           eq_refl eq_refl eq_refl eq_refl eq_refl).
Defined.

(** ** More of the launch retry *)

Lemma retry_from_inv (env : Env) (runner_id : string) (instance_type : InstanceType.t)
    (attempts : nat) :
  forall (w w' : World (JobData env)) (o : outcome string),
    _run_instance_retry_from env attempts runner_id instance_type w = (o, w') ->
    exists k,
      (k <= attempts)%nat
      /\ (forall i, (i < k)%nat ->
                    exists e, launch_outcome env (launches w + i) = inl e /\ transient e)
      /\ ((exists request_id,
              o = Return request_id
              /\ launch_outcome env (launches w + k) = inr request_id
              /\ w' = emit (ec2_run_instances runner_id instance_type request_id)
                           (count_launch (after_failed_attempts k w)))
          \/ (exists e last,
                 o = Raise e
                 /\ launch_outcome env (launches w + k) = inl last
                 /\ (transient last -> k = attempts)
                 /\ w' = count_launch (after_failed_attempts k w))).
Proof.
  induction attempts as [| attempts IH]; intros w w' o.
  - destruct (launch_outcome env (launches w)) as [e | request_id] eqn:Hout.
    + destruct (has_error_code e "InvalidParameterValue") eqn:Hcode.
      * rewrite (retry_exhausted env runner_id instance_type w e Hout Hcode).
        intros [= <- <-]. exists 0%nat. split; [lia |]. split; [intros i Hi; lia |].
        right. eexists. exists e. rewrite after_failed_attempts_0, Nat.add_0_r.
        repeat split. exact Hout.
      * rewrite (retry_other_error env runner_id instance_type 0 w e Hout Hcode).
        intros [= <- <-]. exists 0%nat. split; [lia |]. split; [intros i Hi; lia |].
        right. exists e, e. rewrite after_failed_attempts_0, Nat.add_0_r.
        repeat split. exact Hout.
    + rewrite (retry_success env runner_id instance_type 0 w request_id Hout).
      intros [= <- <-]. exists 0%nat. split; [lia |]. split; [intros i Hi; lia |].
      left. exists request_id. rewrite after_failed_attempts_0, Nat.add_0_r.
      repeat split. exact Hout.
  - destruct (launch_outcome env (launches w)) as [e | request_id] eqn:Hout.
    + destruct (has_error_code e "InvalidParameterValue") eqn:Hcode.
      * rewrite (retry_step env runner_id instance_type attempts w e Hout Hcode).
        intros Hrec. destruct (IH _ _ _ Hrec) as (k & Hk & Hfailed & Hend).
        exists (S k). split; [lia |]. split.
        { intros [| i] Hi.
          - exists e. rewrite Nat.add_0_r. now split.
          - destruct (Hfailed i ltac:(lia)) as (e' & He' & Ht').
            exists e'. split; [| exact Ht'].
            cbn [launches emit count_launch] in He'. rewrite <- He'. f_equal. lia. }
        rewrite after_failed_attempts_S in Hend.
        replace (launches w + S k)%nat
          with (launches (emit (time_sleep CREATE_INSTANCE_RETRY_RATE_SECS)
                               (count_launch w)) + k)%nat
          by (cbn [launches emit count_launch]; lia).
        destruct Hend as [(request_id & -> & Hlast & ->)
                         | (e' & last & -> & Hlast & Hk' & ->)].
        -- left. exists request_id. repeat split. exact Hlast.
        -- right. exists e', last. repeat split; [exact Hlast |].
           intros Ht. now rewrite (Hk' Ht).
      * rewrite (retry_other_error env runner_id instance_type (S attempts) w e
                   Hout Hcode).
        intros [= <- <-]. exists 0%nat. split; [lia |]. split; [intros i Hi; lia |].
        right. exists e, e. rewrite after_failed_attempts_0, Nat.add_0_r.
        repeat split; [exact Hout |]. unfold transient. congruence.
    + rewrite (retry_success env runner_id instance_type (S attempts) w request_id Hout).
      intros [= <- <-]. exists 0%nat. split; [lia |]. split; [intros i Hi; lia |].
      left. exists request_id. rewrite after_failed_attempts_0, Nat.add_0_r.
      repeat split. exact Hout.
Qed.

(** X17: whatever the launches do, [_run_instance_retry] makes some number
    [k] of failed attempts of the transient class, each followed by one
    delay, then one last attempt, with [k] at most [attempts] (none for an
    [attempts] of zero or less): never more than [attempts + 1] launches.
    It either returns the request id of the last attempt, the only launch
    that succeeded, or raises; it issues no other call and writes nothing
    to the stores. *)
Theorem run_instance_retry_bounded (env : Env) (runner_id : string)
    (instance_type : InstanceType.t) (attempts : Z)
    (w w' : World (JobData env)) (o : outcome string) :
  _run_instance_retry env runner_id instance_type attempts w = (o, w') ->
  exists k,
    (k <= Z.to_nat attempts)%nat
    /\ launches w' = (launches w + k + 1)%nat
    /\ clock w' = clock w
    /\ objects w' = objects w
    /\ job_heads w' = job_heads w
    /\ job_records w' = job_records w
    /\ (forall i, (i < k)%nat ->
                  exists e, launch_outcome env (launches w + i) = inl e /\ transient e)
    /\ ((exists request_id,
            o = Return request_id
            /\ launch_outcome env (launches w + k) = inr request_id
            /\ trace w'
               = (trace w
                    ++ List.repeat (time_sleep CREATE_INSTANCE_RETRY_RATE_SECS) k
                    ++ [ec2_run_instances runner_id instance_type request_id])%list)
        \/ (exists e,
               o = Raise e
               /\ trace w'
                  = (trace w
                       ++ List.repeat (time_sleep CREATE_INSTANCE_RETRY_RATE_SECS) k)%list)).
Proof.
  unfold _run_instance_retry. intros Hrun.
  destruct (retry_from_inv _ _ _ _ _ _ _ Hrun) as (k & Hk & Hfailed & Hend).
  exists k. split; [exact Hk |].
  destruct Hend as [(request_id & -> & Hlast & ->) | (e & last & -> & _ & _ & ->)];
    cbn [launches clock objects job_heads job_records trace emit count_launch
           after_failed_attempts].
  - repeat (split; [first [reflexivity | lia | exact Hfailed] |]).
    left. exists request_id. rewrite <- app_assoc. repeat split. exact Hlast.
  - repeat (split; [first [reflexivity | lia | exact Hfailed] |]).
    right. exists e. repeat split.
Qed.

(** Launches that succeed at the third attempt, and launches that never do. *)
Lemma run_instance_retry_bounded_runs :
  (exists k,
      (k <= 3)%nat
      /\ launches (snd (_run_instance_retry (deployment_launching launch_third_time)
                                            "0af3" p3_spot 3 empty_world))
         = (0 + k + 1)%nat)
  /\ (exists k,
         (k <= 0)%nat
         /\ launches (snd (_run_instance_retry (deployment_launching launch_never)
                                               "0af3" p3_spot (-1) empty_world))
            = (0 + k + 1)%nat).
Proof.
  split.
  - destruct (run_instance_retry_bounded (deployment_launching launch_third_time)
                "0af3" p3_spot 3 empty_world _ _ eq_refl) as (k & Hk & Hlaunches & _).
    exists k. split; [exact Hk | exact Hlaunches].
  - destruct (run_instance_retry_bounded (deployment_launching launch_never)
                "0af3" p3_spot (-1) empty_world _ _ eq_refl) as (k & Hk & Hlaunches & _).
    exists k. split; [exact Hk | exact Hlaunches].
Defined.

(** ** More of run_job *)

Lemma run_instance_retry_events (env : Env) (runner_id : string)
    (instance_type : InstanceType.t) (attempts : Z)
    (w w' : World (JobData env)) (request_id : string) :
  _run_instance_retry env runner_id instance_type attempts w = (Return request_id, w') ->
  exists k,
    (k <= Z.to_nat attempts)%nat
    /\ launches w' = (launches w + k + 1)%nat
    /\ objects w' = objects w
    /\ job_heads w' = job_heads w
    /\ job_records w' = job_records w
    /\ trace w'
       = (trace w ++ List.repeat (time_sleep CREATE_INSTANCE_RETRY_RATE_SECS) k
            ++ [ec2_run_instances runner_id instance_type request_id])%list.
Proof.
  unfold _run_instance_retry. intros Hrun.
  destruct (retry_from_inv _ _ _ _ _ _ _ Hrun) as (k & Hk & _ & Hend).
  exists k. split; [exact Hk |].
  destruct Hend as [(rid & [= <-] & _ & ->) | (e & last & [=] & _)].
  cbn [launches objects job_heads job_records trace emit count_launch
         after_failed_attempts].
  rewrite <- app_assoc. repeat split. lia.
Qed.

Lemma get_instance_type_same_state (env : Env) (fuel : nat)
    (requirements : option Requirements.t) (w w' : World (JobData env))
    (result : option InstanceType.t) :
  _get_instance_type env fuel requirements w = (Return result, w') ->
  same_state w w'.
Proof.
  intros Hselect.
  destruct (get_instance_type_inv _ _ _ _ _ _ Hselect) as (catalog & Hcatalog & _).
  unfold _get_instance_types, mbind, M_bind, bind in Hcatalog.
  destruct (_get_instance_types_loop env fuel None [] w) as [[fetched | | |] w1]
    eqn:Hloop; try discriminate.
  injection Hcatalog as _ <-.
  now destruct (get_instance_types_loop_pages _ _ _ _ _ _ _ Hloop) as (_ & _ & _ & H).
Qed.

Lemma requested_copy_matches (requirements : option Requirements.t)
    (native : InstanceType.t) :
  _matches (InstanceType.resources native) requirements = true ->
  _matches (InstanceType.resources (requested_copy requirements native)) requirements
  = true.
Proof.
  destruct requirements as [requirements |]; [| reflexivity].
  rewrite !matches_meets. intros (Hc & Hm & Hg).
  split; [exact Hc |]. split; [exact Hm |].
  intros req_gpus E. destruct (Hg req_gpus E) as (? & ? & ? & _).
  cbn. repeat split; auto.
Qed.

Lemma try_except_mark_failed_returns {A : Type} (env : Env)
    (body : M (World (JobData env)) A) (job : Job.t) (runner : option Runner.t)
    (w w' : World (JobData env)) (a : A) :
  try_except body (mark_failed env job runner) w = (Return a, w') ->
  body w = (Return a, w').
Proof.
  unfold try_except.
  destruct (body w) as [[a' | e | msg |] w1]; try (intros H; exact H).
  unfold mark_failed, mbind, M_bind, bind, update_job, call, raise.
  destruct (faults env (clock w1)); discriminate.
Qed.

(** X18: a [run_job] that returns has done exactly this, in this order: the
    job record written with the new runner id (status still SUBMITTED, its
    request id untouched), the runner object written without request id,
    the log group ensured, the launch retried after each failed attempt,
    one launch that succeeded, and the runner object written again with the
    launched request id.  So the runner is in the store before any launch,
    and at the end the store holds the runner with the request id and the
    job with the runner id. *)
Theorem run_job_returns (env : Env) (fuel : nat) (job : Job.t)
    (w w' : World (JobData env)) :
  run_job env fuel job w = (Return tt, w') ->
  Job.status job = JobStatus.SUBMITTED
  /\ exists instance_type request_id failed_attempts,
      (failed_attempts <= 3)%nat
      /\ trace w'
         = (trace w
              ++ run_job_calls env job instance_type request_id failed_attempts)%list
      /\ launches w' = (launches w + failed_attempts + 1)%nat
      /\ objects w' !! runner_key (Some (uuid4_hex env))
         = Some (mkS3Object
                   (_serialize_runner (Job_serialize env)
                      (Runner.set_request_id (Some request_id)
                         (new_runner env job instance_type)))
                   [])
      /\ job_records w' !! Job.job_id job = Some (job_with_runner_id env job)
      /\ _matches (InstanceType.resources instance_type) (Job.requirements job) = true.
Proof.
  unfold run_job.
  destruct (JobStatus.eqb (Job.status job) JobStatus.SUBMITTED) eqn:Hstatus;
    [| discriminate].
  cbn [negb]. intros Hrun.
  assert (Hsubmitted : Job.status job = JobStatus.SUBMITTED)
    by (destruct (Job.status job); try discriminate; reflexivity).
  split; [exact Hsubmitted |].
  unfold mbind at 1 in Hrun. unfold M_bind at 1 in Hrun. unfold bind at 1 in Hrun.
  match type of Hrun with
  | context [try_except ?body (mark_failed env ?j None) w] =>
    destruct (try_except body (mark_failed env j None) w)
      as [[instance_type | | |] wb] eqn:Hselect; try discriminate
  end.
  apply try_except_mark_failed_returns in Hselect.
  unfold mbind at 1 in Hselect. unfold M_bind at 1 in Hselect.
  unfold bind at 1 in Hselect.
  unfold update_job at 1 in Hselect. unfold call in Hselect.
  destruct (faults env (clock w)); [discriminate |].
  unfold mbind at 1 in Hselect. unfold M_bind at 1 in Hselect.
  unfold bind at 1 in Hselect.
  cbn [Job.requirements Job.set_runner_id] in Hselect.
  match type of Hselect with
  | context [_get_instance_type env fuel ?q ?wa] =>
    destruct (_get_instance_type env fuel q wa) as [[[chosen |] | | |] wb'] eqn:Hchosen;
      try discriminate
  end.
  2:{ unfold mbind, M_bind, bind, update_job, call, sys_exit in Hselect.
      destruct (faults env (clock wb')); discriminate. }
  injection Hselect as -> ->.
  pose proof (get_instance_type_same_state _ _ _ _ _ _ Hchosen)
    as (Hl_b & Ho_b & Hh_b & Hr_b & Ht_b).
  destruct (get_instance_type_inv _ _ _ _ _ _ Hchosen) as (catalog & _ & Hfind).
  destruct (List.find _ catalog) as [native |] eqn:Hnative; [| discriminate].
  injection Hfind as ->.
  apply find_some in Hnative. destruct Hnative as [_ Hmatch].
  unfold mbind at 1 in Hrun. unfold M_bind at 1 in Hrun. unfold bind at 1 in Hrun.
  match type of Hrun with
  | context [try_except ?body (mark_failed env ?j (Some ?r)) wb] =>
    destruct (try_except body (mark_failed env j (Some r)) wb)
      as [[request_id | | |] wd] eqn:Hlaunch; try discriminate
  end.
  apply try_except_mark_failed_returns in Hlaunch.
  apply try_except_mark_failed_returns in Hrun.
  unfold mbind at 1 in Hlaunch. unfold M_bind at 1 in Hlaunch.
  unfold bind at 1 in Hlaunch.
  unfold _create_runner, mbind, M_bind, bind, s3_put, create_log_group_if_not_exists,
    call in Hlaunch.
  destruct (faults env (clock wb)); [discriminate |].
  cbn [clock emit set_objects tick] in Hlaunch.
  destruct (faults env (S (clock wb))); [discriminate |].
  destruct (run_instance_retry_events _ _ _ _ _ _ _ Hlaunch)
    as (k & Hk & Hl_d & Ho_d & Hh_d & Hr_d & Ht_d).
  unfold _update_runner, s3_put, call in Hrun.
  destruct (faults env (clock wd)); [discriminate |].
  injection Hrun as <-.
  exists (requested_copy (Job.requirements job) native), request_id, k.
  split; [exact Hk |].
  cbn [trace launches objects job_records emit set_objects store_job tick].
  rewrite Hl_d, Ho_d, Hr_d, Ht_d.
  cbn [trace launches objects job_records emit set_objects store_job tick].
  rewrite Hl_b, Hr_b, Ht_b.
  cbn [trace launches objects job_records emit set_objects store_job tick
         Job.job_id Job.set_runner_id].
  unfold run_job_calls, new_runner, job_with_runner_id, runner_metadata.
  cbn [Runner.job Runner.set_request_id Job.status Job.set_runner_id
         Runner.runner_id Runner.resources Runner.request_id].
  rewrite Hsubmitted. cbn [JobStatus.eqb].
  rewrite !lookup_insert_eq.
  split; [now rewrite <- !app_assoc |].
  split; [reflexivity |]. split; [reflexivity |]. split; [reflexivity |].
  now apply requested_copy_matches.
Qed.

(** The submitted job of the spec's scenario on [quiet]: p3.2xlarge is
    launched as i-0123 at the first attempt. *)
Lemma run_job_returns_runs :
  Job.status job_submitted = JobStatus.SUBMITTED
  /\ exists instance_type request_id failed_attempts,
      (failed_attempts <= 3)%nat
      /\ trace (snd (run_job quiet 2 job_submitted empty_world))
         = ([] ++ run_job_calls quiet job_submitted instance_type request_id
                                failed_attempts)%list
      /\ launches (snd (run_job quiet 2 job_submitted empty_world))
         = (0 + failed_attempts + 1)%nat
      /\ objects (snd (run_job quiet 2 job_submitted empty_world))
           !! runner_key (Some "0af3")
         = Some (mkS3Object
                   (_serialize_runner (fun job => job)
                      (Runner.set_request_id (Some request_id)
                         (new_runner quiet job_submitted instance_type)))
                   [])
      /\ job_records (snd (run_job quiet 2 job_submitted empty_world)) !! "job-1"
         = Some (job_with_runner_id quiet job_submitted)
      /\ _matches (InstanceType.resources instance_type) (Some req_one_gpu_spot) = true.
Proof.
  exact (run_job_returns quiet 2 job_submitted empty_world
           (snd (run_job quiet 2 job_submitted empty_world)) eq_refl).
Defined.

(** X19: when no instance type matches, [run_job] leaves through [sys.exit]
    with the message "No instance type matching requirements.", after
    writing the job record with status FAILED.  The [except] block is not
    run: the request id of the record is the one the job came with; no
    runner object is written and no launch is attempted. *)
Theorem run_job_no_instance_type (env : Env) (fuel : nat) (job : Job.t)
    (w w2 : World (JobData env)) :
  Job.status job = JobStatus.SUBMITTED ->
  faults env (clock w) = None ->
  _get_instance_type env fuel (Job.requirements job)
                     (job_updated (job_with_runner_id env job) w)
  = (Return None, w2) ->
  faults env (clock w2) = None ->
  let failed := Job.set_status JobStatus.FAILED (job_with_runner_id env job) in
  exists w',
    run_job env fuel job w
    = (SystemExit "No instance type matching requirements.", w')
    /\ trace w'
       = (trace w ++ [jobs_update_job (job_with_runner_id env job);
                      jobs_update_job failed])%list
    /\ job_records w' !! Job.job_id job = Some failed
    /\ Job.request_id failed = Job.request_id job
    /\ objects w' = objects w
    /\ launches w' = launches w.
Proof.
  intros Hstatus Hf0 Hselect Hf2. cbv zeta.
  pose proof (get_instance_type_same_state _ _ _ _ _ _ Hselect)
    as (Hl & Ho & _ & _ & Ht).
  unfold run_job. rewrite Hstatus. cbn [JobStatus.eqb negb].
  unfold mbind at 1. unfold M_bind at 1. unfold bind at 1.
  unfold try_except at 1.
  unfold mbind at 1. unfold M_bind at 1. unfold bind at 1.
  unfold update_job at 1. unfold call at 1. rewrite Hf0.
  unfold mbind at 1. unfold M_bind at 1. unfold bind at 1.
  cbn [Job.requirements Job.set_runner_id].
  unfold job_with_runner_id, job_updated in Hselect. rewrite Hselect.
  unfold mbind, M_bind, bind, update_job, call, sys_exit. rewrite Hf2.
  eexists. split; [reflexivity |].
  cbn [trace launches objects job_records emit store_job tick Job.job_id
         Job.set_status Job.set_runner_id Job.request_id].
  rewrite Ht, Ho, Hl, lookup_insert_eq.
  cbn [trace launches objects job_records emit store_job tick].
  unfold job_updated, job_with_runner_id.
  cbn [trace launches objects job_records emit store_job tick].
  rewrite <- ?app_assoc. repeat split.
Qed.

(** A job asking for a thousand CPUs on [quiet]. *)
Lemma run_job_no_instance_type_runs :
  exists w',
    run_job quiet 2 job_too_large empty_world
    = (SystemExit "No instance type matching requirements.", w')
    /\ trace w'
       = ([] ++ [jobs_update_job (job_with_runner_id quiet job_too_large);
                 jobs_update_job
                   (Job.set_status JobStatus.FAILED
                      (job_with_runner_id quiet job_too_large))])%list
    /\ job_records w' !! "job-8"
       = Some (Job.set_status JobStatus.FAILED (job_with_runner_id quiet job_too_large))
    /\ None = Job.request_id job_too_large
    /\ objects w' = ∅
    /\ launches w' = 0%nat.
Proof.
  exact (run_job_no_instance_type quiet 2 job_too_large empty_world _
           eq_refl eq_refl eq_refl eq_refl).
Defined.
